(** * Relationship dashboard: subgraph selection, graph projection and the
      relationship lifecycle

    A shallow embedding of [app/models.py] and of the event handlers of
    [app/states/relationship_state.py], followed by the properties of the
    specification settled against them.

    Conventions of the embedding.
    - Python [int] is [Z], [str] is [string], [float] is the IEEE binary64
      [float] of the kernel, [Optional[t]] is [option t].
    - The relational store behind [rx.session()] is a record of four tables,
      each a list of rows in row order.  [session.get] finds the row with the
      given primary key, [select(..).where(..).first()] the first row that
      satisfies the predicate, [.all()] every such row, in row order.  A new row
      receives the key one above the largest key in use.
    - A [dict] (and a [Counter], a [defaultdict]) is an association list in
      insertion order.  A [set] is a list without repetition, here in insertion
      order; Python fixes no iteration order for it, and of the code below only
      the truncation [list(visited)[:limit]] depends on one.
    - Strings are byte strings; the case and space tests are the ASCII ones.
    - A reading of [datetime.now()] is an argument of the handler, one per call
      in program order.
    - A handler returns the store, the session state, the events it yields to
      the runtime and the value it returns ([rx.toast] message, if any).  A toast
      that is built and dropped ([rx.toast(..)] as a statement) leaves no trace,
      as in the source. Logging is not modelled. *)

From Stdlib Require Import ZArith List String Ascii Bool Floats Lia.
From Stdlib Require Import Permutation Sorted.
From Stdlib Require Import DecimalString.
From Stdlib Require Uint63 HexadecimalString.
Import ListNotations.
Set Warnings "-inexact-float,-register-all".
Local Open Scope string_scope.
Local Open Scope Z_scope.

(** ** The fragments of Python's built-ins the handlers rely on *)

Module Py.

(** [str(n)] and [f"{n}"] for an [int]. *)
Definition str_of_int (n : Z) : string :=
  NilZero.string_of_int (Z.to_int n).

(** [s.split(sep)] for a one-character separator. *)
Fixpoint split (sep : ascii) (s : string) : list string :=
  match s with
  | EmptyString => [EmptyString]
  | String c s' =>
      if Ascii.eqb c sep then EmptyString :: split sep s'
      else match split sep s' with
           | [] => [String c EmptyString]
           | p :: ps => String c p :: ps
           end
  end.

Definition is_space (c : ascii) : bool :=
  let n := nat_of_ascii c in
  (Nat.leb 9 n && Nat.leb n 13) || (Nat.leb 28 n && Nat.leb n 32).

Definition is_digit (c : ascii) : bool :=
  let n := nat_of_ascii c in Nat.leb 48 n && Nat.leb n 57.

Definition digit_value (c : ascii) : Z := Z.of_nat (nat_of_ascii c) - 48.

Fixpoint lstrip (cs : list ascii) : list ascii :=
  match cs with
  | c :: cs' => if is_space c then lstrip cs' else cs
  | [] => []
  end.

Definition strip (cs : list ascii) : list ascii :=
  rev (lstrip (rev (lstrip cs))).

(** Decimal digits, single underscores allowed between two digits. *)
Fixpoint digits (acc : Z) (after_digit : bool) (cs : list ascii) : option Z :=
  match cs with
  | [] => if after_digit then Some acc else None
  | c :: cs' =>
      if is_digit c then digits (10 * acc + digit_value c) true cs'
      else if Ascii.eqb c "_"%char && after_digit then digits acc false cs'
      else None
  end.

(** [int(s)] on an ASCII string; [None] is the [ValueError]. *)
Definition int_of_str (s : string) : option Z :=
  match strip (list_ascii_of_string s) with
  | "+"%char :: cs => digits 0 false cs
  | "-"%char :: cs => option_map Z.opp (digits 0 false cs)
  | cs => digits 0 false cs
  end.

Definition is_lower (c : ascii) : bool :=
  let n := nat_of_ascii c in Nat.leb 97 n && Nat.leb n 122.
Definition is_upper (c : ascii) : bool :=
  let n := nat_of_ascii c in Nat.leb 65 n && Nat.leb n 90.
Definition upper (c : ascii) : ascii :=
  if is_lower c then ascii_of_nat (nat_of_ascii c - 32) else c.
Definition lower (c : ascii) : ascii :=
  if is_upper c then ascii_of_nat (nat_of_ascii c + 32) else c.

(** [s.title()] on an ASCII string: the first letter of every run of
    letters in upper case, the others in lower case. *)
Fixpoint title_from (after_letter : bool) (s : string) : string :=
  match s with
  | EmptyString => EmptyString
  | String c s' =>
      String (if after_letter then lower c else upper c)
             (title_from (is_lower c || is_upper c) s')
  end.
Definition title (s : string) : string := title_from false s.

(** [l[:n]]. *)
Definition slice_to {A} (l : list A) (n : Z) : list A :=
  if 0 <=? n then firstn (Z.to_nat n) l
  else firstn (Z.to_nat (Z.of_nat (List.length l) + n)) l.

(** [float(n)] for an [int] of magnitude below [2^53] (exact). *)
Definition float_of_int (n : Z) : float :=
  if n <? 0 then PrimFloat.opp (PrimFloat.of_uint63 (Uint63.of_Z (- n)))
  else PrimFloat.of_uint63 (Uint63.of_Z n).

(** [int(x)] for a [float]: truncation towards zero.  On an infinity or a
    NaN Python raises; the handlers never reach that, the value is 0 here. *)
Definition int_of_float (x : float) : Z :=
  match Prim2SF x with
  | S754_finite s m e =>
      let a := Z.shiftl (Z.pos m) e in if s then - a else a
  | _ => 0
  end.

(** [f"{n:02x}"]. *)
Definition hex02 (n : Z) : string :=
  let hex (m : Z) :=
    HexadecimalString.NilZero.string_of_uint (N.to_hex_uint (Z.to_N m)) in
  if n <? 0 then "-" ++ hex (- n)
  else if Nat.ltb (String.length (hex n)) 2 then "0" ++ hex n else hex n.

End Py.

(** ** [app/models.py] *)

Definition datetime := Z.

Inductive RelationshipType := EMPLOYMENT | SOCIAL | BUSINESS.

Inductive RelationshipTerm :=
  WORKS_FOR | INVESTED_IN | COMPETITOR | COLLEAGUE | FRIEND | ENEMY.

Definition RelationshipType_value (t : RelationshipType) : string :=
  match t with
  | EMPLOYMENT => "employment"
  | SOCIAL => "social"
  | BUSINESS => "business"
  end.

Definition RelationshipTerm_value (t : RelationshipTerm) : string :=
  match t with
  | WORKS_FOR => "works_for"
  | INVESTED_IN => "invested_in"
  | COMPETITOR => "competitor"
  | COLLEAGUE => "colleague"
  | FRIEND => "friend"
  | ENEMY => "enemy"
  end.

(** [RelationshipTerm(s)]: the member whose value is [s]; [None] is the
    [ValueError]. *)
Definition RelationshipTerm_of_value (s : string) : option RelationshipTerm :=
  find (fun t => String.eqb (RelationshipTerm_value t) s)
       [WORKS_FOR; INVESTED_IN; COMPETITOR; COLLEAGUE; FRIEND; ENEMY].

Module Account.
Record t := mk {
  id : Z;
  name : string;
  ticker : string;
  dynamics_account_id : string;
  created_at : datetime;
  updated_at : datetime;
  last_modified_by : string }.
End Account.

Module Contact.
Record t := mk {
  id : Z;
  first_name : string;
  last_name : string;
  job_title : string;
  dynamics_contact_id : string;
  created_at : datetime;
  updated_at : datetime;
  last_modified_by : string;
  account_id : option Z }.
End Contact.

Module Relationship.
Record t := mk {
  id : Z;
  score : Z;
  created_at : datetime;
  last_updated : datetime;
  last_modified_by : string;
  relationship_type : RelationshipType;
  is_active : bool;
  is_directed : bool;
  term : RelationshipTerm;
  source_type : string;
  source_id : Z;
  target_type : string;
  target_id : Z }.

Definition set_score (v : Z) (r : t) : t :=
  mk (id r) v (created_at r) (last_updated r) (last_modified_by r)
     (relationship_type r) (is_active r) (is_directed r) (term r)
     (source_type r) (source_id r) (target_type r) (target_id r).
Definition set_last_updated (v : datetime) (r : t) : t :=
  mk (id r) (score r) (created_at r) v (last_modified_by r)
     (relationship_type r) (is_active r) (is_directed r) (term r)
     (source_type r) (source_id r) (target_type r) (target_id r).
Definition set_last_modified_by (v : string) (r : t) : t :=
  mk (id r) (score r) (created_at r) (last_updated r) v
     (relationship_type r) (is_active r) (is_directed r) (term r)
     (source_type r) (source_id r) (target_type r) (target_id r).
Definition set_relationship_type (v : RelationshipType) (r : t) : t :=
  mk (id r) (score r) (created_at r) (last_updated r) (last_modified_by r)
     v (is_active r) (is_directed r) (term r)
     (source_type r) (source_id r) (target_type r) (target_id r).
Definition set_is_active (v : bool) (r : t) : t :=
  mk (id r) (score r) (created_at r) (last_updated r) (last_modified_by r)
     (relationship_type r) v (is_directed r) (term r)
     (source_type r) (source_id r) (target_type r) (target_id r).
Definition set_is_directed (v : bool) (r : t) : t :=
  mk (id r) (score r) (created_at r) (last_updated r) (last_modified_by r)
     (relationship_type r) (is_active r) v (term r)
     (source_type r) (source_id r) (target_type r) (target_id r).
Definition set_term (v : RelationshipTerm) (r : t) : t :=
  mk (id r) (score r) (created_at r) (last_updated r) (last_modified_by r)
     (relationship_type r) (is_active r) (is_directed r) v
     (source_type r) (source_id r) (target_type r) (target_id r).
Definition set_id (v : Z) (r : t) : t :=
  mk v (score r) (created_at r) (last_updated r) (last_modified_by r)
     (relationship_type r) (is_active r) (is_directed r) (term r)
     (source_type r) (source_id r) (target_type r) (target_id r).
End Relationship.

Module RelationshipLog.
Record t := mk {
  id : Z;
  previous_score : Z;
  new_score : Z;
  previous_term : option string;
  new_term : option string;
  action : string;
  changed_at : datetime;
  note : option string;
  relationship_id : Z }.

Definition set_id (v : Z) (l : t) : t :=
  mk v (previous_score l) (new_score l) (previous_term l) (new_term l)
     (action l) (changed_at l) (note l) (relationship_id l).
End RelationshipLog.

(** ** The relational store *)

Record Database := mkDatabase {
  tbl_account : list Account.t;
  tbl_contact : list Contact.t;
  tbl_relationship : list Relationship.t;
  tbl_relationshiplog : list RelationshipLog.t }.

Module Session.

(** The key a new row receives. *)
Definition next_id (keys : list Z) : Z := 1 + fold_right Z.max 0 keys.

(** [session.get(Relationship, rel_id)]. *)
Definition get_relationship (db : Database) (rel_id : Z)
  : option Relationship.t :=
  find (fun r => Relationship.id r =? rel_id) (tbl_relationship db).

Fixpoint replace_row (r : Relationship.t) (rows : list Relationship.t)
  : list Relationship.t :=
  match rows with
  | [] => []
  | x :: rows' =>
      if Relationship.id x =? Relationship.id r then r :: rows'
      else x :: replace_row r rows'
  end.

(** [session.add(r)] then [commit] for a row loaded from the store. *)
Definition update_relationship (r : Relationship.t) (db : Database)
  : Database :=
  mkDatabase (tbl_account db) (tbl_contact db)
             (replace_row r (tbl_relationship db)) (tbl_relationshiplog db).

(** [session.add(r)] then [commit] for a new relationship; the row as
    [session.refresh] returns it comes with the store. *)
Definition insert_relationship (r : Relationship.t) (db : Database)
  : Relationship.t * Database :=
  let r' := Relationship.set_id
              (next_id (map Relationship.id (tbl_relationship db))) r in
  (r', mkDatabase (tbl_account db) (tbl_contact db)
                  (tbl_relationship db ++ [r']) (tbl_relationshiplog db)).

(** [session.add(log_entry)] then [commit]. *)
Definition insert_log (l : RelationshipLog.t) (db : Database) : Database :=
  let l' := RelationshipLog.set_id
              (next_id (map RelationshipLog.id (tbl_relationshiplog db))) l in
  mkDatabase (tbl_account db) (tbl_contact db) (tbl_relationship db)
             (tbl_relationshiplog db ++ [l']).

(** The lookup of [on_connect] and [create_relationship_from_panel]:
    the first row whose source and target columns equal the arguments. *)
Definition first_relationship_between
  (db : Database) (src_type : string) (src_id : Z)
  (tgt_type : string) (tgt_id : Z) : option Relationship.t :=
  find (fun r =>
          String.eqb (Relationship.source_type r) src_type
          && (Relationship.source_id r =? src_id)
          && String.eqb (Relationship.target_type r) tgt_type
          && (Relationship.target_id r =? tgt_id))
       (tbl_relationship db).

End Session.

(** ** Session state of the dashboard (the fields the handlers below use) *)

Module RelationshipState.
Record t := mk {
  selected_node_id : string;
  selected_edge_id : string;
  show_side_panel : bool;
  edit_mode : string;
  node_create_mode : bool;
  is_creating_relationship : bool;
  creation_target_id : Z;
  creation_target_type : string;
  creation_term : string;
  creation_score : Z;
  editing_score : Z;
  editing_relationship_type : string;
  editing_term : string;
  editing_is_directed : bool;
  filtered_accounts : list Account.t;
  filtered_contacts : list Contact.t;
  filtered_relationships : list Relationship.t;
  node_limit : Z;
  zoom_level : float;
  show_historic : bool;
  current_user : string }.

Definition set_selected_edge_id (v : string) (s : t) : t :=
  mk (selected_node_id s) v (show_side_panel s) (edit_mode s)
     (node_create_mode s) (is_creating_relationship s) (creation_target_id
     s) (creation_target_type s) (creation_term s) (creation_score s)
     (editing_score s) (editing_relationship_type s) (editing_term s)
     (editing_is_directed s) (filtered_accounts s) (filtered_contacts s)
     (filtered_relationships s) (node_limit s) (zoom_level s)
     (show_historic s) (current_user s).
Definition set_show_side_panel (v : bool) (s : t) : t :=
  mk (selected_node_id s) (selected_edge_id s) v (edit_mode s)
     (node_create_mode s) (is_creating_relationship s) (creation_target_id
     s) (creation_target_type s) (creation_term s) (creation_score s)
     (editing_score s) (editing_relationship_type s) (editing_term s)
     (editing_is_directed s) (filtered_accounts s) (filtered_contacts s)
     (filtered_relationships s) (node_limit s) (zoom_level s)
     (show_historic s) (current_user s).
Definition set_edit_mode (v : string) (s : t) : t :=
  mk (selected_node_id s) (selected_edge_id s) (show_side_panel s) v
     (node_create_mode s) (is_creating_relationship s) (creation_target_id
     s) (creation_target_type s) (creation_term s) (creation_score s)
     (editing_score s) (editing_relationship_type s) (editing_term s)
     (editing_is_directed s) (filtered_accounts s) (filtered_contacts s)
     (filtered_relationships s) (node_limit s) (zoom_level s)
     (show_historic s) (current_user s).
Definition set_node_create_mode (v : bool) (s : t) : t :=
  mk (selected_node_id s) (selected_edge_id s) (show_side_panel s)
     (edit_mode s) v (is_creating_relationship s) (creation_target_id s)
     (creation_target_type s) (creation_term s) (creation_score s)
     (editing_score s) (editing_relationship_type s) (editing_term s)
     (editing_is_directed s) (filtered_accounts s) (filtered_contacts s)
     (filtered_relationships s) (node_limit s) (zoom_level s)
     (show_historic s) (current_user s).
Definition set_is_creating_relationship (v : bool) (s : t) : t :=
  mk (selected_node_id s) (selected_edge_id s) (show_side_panel s)
     (edit_mode s) (node_create_mode s) v (creation_target_id s)
     (creation_target_type s) (creation_term s) (creation_score s)
     (editing_score s) (editing_relationship_type s) (editing_term s)
     (editing_is_directed s) (filtered_accounts s) (filtered_contacts s)
     (filtered_relationships s) (node_limit s) (zoom_level s)
     (show_historic s) (current_user s).
Definition set_editing_score (v : Z) (s : t) : t :=
  mk (selected_node_id s) (selected_edge_id s) (show_side_panel s)
     (edit_mode s) (node_create_mode s) (is_creating_relationship s)
     (creation_target_id s) (creation_target_type s) (creation_term s)
     (creation_score s) v (editing_relationship_type s) (editing_term s)
     (editing_is_directed s) (filtered_accounts s) (filtered_contacts s)
     (filtered_relationships s) (node_limit s) (zoom_level s)
     (show_historic s) (current_user s).
Definition set_editing_relationship_type (v : string) (s : t) : t :=
  mk (selected_node_id s) (selected_edge_id s) (show_side_panel s)
     (edit_mode s) (node_create_mode s) (is_creating_relationship s)
     (creation_target_id s) (creation_target_type s) (creation_term s)
     (creation_score s) (editing_score s) v (editing_term s)
     (editing_is_directed s) (filtered_accounts s) (filtered_contacts s)
     (filtered_relationships s) (node_limit s) (zoom_level s)
     (show_historic s) (current_user s).
Definition set_editing_term (v : string) (s : t) : t :=
  mk (selected_node_id s) (selected_edge_id s) (show_side_panel s)
     (edit_mode s) (node_create_mode s) (is_creating_relationship s)
     (creation_target_id s) (creation_target_type s) (creation_term s)
     (creation_score s) (editing_score s) (editing_relationship_type s) v
     (editing_is_directed s) (filtered_accounts s) (filtered_contacts s)
     (filtered_relationships s) (node_limit s) (zoom_level s)
     (show_historic s) (current_user s).
Definition set_editing_is_directed (v : bool) (s : t) : t :=
  mk (selected_node_id s) (selected_edge_id s) (show_side_panel s)
     (edit_mode s) (node_create_mode s) (is_creating_relationship s)
     (creation_target_id s) (creation_target_type s) (creation_term s)
     (creation_score s) (editing_score s) (editing_relationship_type s)
     (editing_term s) v (filtered_accounts s) (filtered_contacts s)
     (filtered_relationships s) (node_limit s) (zoom_level s)
     (show_historic s) (current_user s).
Definition set_filtered_accounts (v : list Account.t) (s : t) : t :=
  mk (selected_node_id s) (selected_edge_id s) (show_side_panel s)
     (edit_mode s) (node_create_mode s) (is_creating_relationship s)
     (creation_target_id s) (creation_target_type s) (creation_term s)
     (creation_score s) (editing_score s) (editing_relationship_type s)
     (editing_term s) (editing_is_directed s) v (filtered_contacts s)
     (filtered_relationships s) (node_limit s) (zoom_level s)
     (show_historic s) (current_user s).
Definition set_filtered_contacts (v : list Contact.t) (s : t) : t :=
  mk (selected_node_id s) (selected_edge_id s) (show_side_panel s)
     (edit_mode s) (node_create_mode s) (is_creating_relationship s)
     (creation_target_id s) (creation_target_type s) (creation_term s)
     (creation_score s) (editing_score s) (editing_relationship_type s)
     (editing_term s) (editing_is_directed s) (filtered_accounts s) v
     (filtered_relationships s) (node_limit s) (zoom_level s)
     (show_historic s) (current_user s).
Definition set_filtered_relationships (v : list Relationship.t) (s : t) : t :=
  mk (selected_node_id s) (selected_edge_id s) (show_side_panel s)
     (edit_mode s) (node_create_mode s) (is_creating_relationship s)
     (creation_target_id s) (creation_target_type s) (creation_term s)
     (creation_score s) (editing_score s) (editing_relationship_type s)
     (editing_term s) (editing_is_directed s) (filtered_accounts s)
     (filtered_contacts s) v (node_limit s) (zoom_level s) (show_historic
     s) (current_user s).
End RelationshipState.

(** Events a handler yields to the runtime. *)
Inductive Event := load_data | load_active_node_relationships.

Record Outcome := mkOutcome {
  out_db : Database;
  out_state : RelationshipState.t;
  yielded : list Event;
  returned : option string }.

(** ** Static policy tables *)

Definition RelationshipTerm_eqb (a b : RelationshipTerm) : bool :=
  match a, b with
  | WORKS_FOR, WORKS_FOR | INVESTED_IN, INVESTED_IN
  | COMPETITOR, COMPETITOR | COLLEAGUE, COLLEAGUE
  | FRIEND, FRIEND | ENEMY, ENEMY => true
  | _, _ => false
  end.

Definition RelationshipType_eqb (a b : RelationshipType) : bool :=
  match a, b with
  | EMPLOYMENT, EMPLOYMENT | SOCIAL, SOCIAL | BUSINESS, BUSINESS => true
  | _, _ => false
  end.

Record TermDefault := mkDefault { d_is_directed : bool; d_default_score : Z }.

(** [d.get(k, default)] on a dictionary keyed by terms. *)
Fixpoint dict_get {V : Type} (d : list (RelationshipTerm * V))
  (k : RelationshipTerm) (default : V) : V :=
  match d with
  | [] => default
  | (k', v) :: d' => if RelationshipTerm_eqb k' k then v else dict_get d' k default
  end.

Definition TERM_DEFAULTS : list (RelationshipTerm * TermDefault) :=
  [ (WORKS_FOR, mkDefault true 0);
    (INVESTED_IN, mkDefault true 50);
    (COMPETITOR, mkDefault false (-50));
    (COLLEAGUE, mkDefault false 20);
    (FRIEND, mkDefault false 80);
    (ENEMY, mkDefault false (-100)) ].

Definition TERM_TO_TYPE : list (RelationshipTerm * RelationshipType) :=
  [ (WORKS_FOR, EMPLOYMENT);
    (INVESTED_IN, BUSINESS);
    (COMPETITOR, BUSINESS);
    (COLLEAGUE, BUSINESS);
    (FRIEND, SOCIAL);
    (ENEMY, SOCIAL) ].

(** ** Relationship lifecycle handlers *)

Import RelationshipState.

(** [close_panel]. *)
Definition close_panel (st : RelationshipState.t) : RelationshipState.t :=
  let st := set_show_side_panel false st in
  let st := set_edit_mode "none" st in
  set_node_create_mode false st.

(** [update_relationship_score(rel_id, new_score)]; [t_upd] and [t_log] are
    the two clock readings. *)
Definition update_relationship_score
  (db : Database) (st : RelationshipState.t) (rel_id new_score : Z)
  (t_upd t_log : datetime) : Outcome :=
  let db :=
    match Session.get_relationship db rel_id with
    | Some relationship =>
        let previous_score := Relationship.score relationship in
        let relationship := Relationship.set_score new_score relationship in
        let relationship := Relationship.set_last_updated t_upd relationship in
        let relationship :=
          Relationship.set_last_modified_by (current_user st) relationship in
        let db := Session.update_relationship relationship db in
        let log_entry :=
          RelationshipLog.mk 0 previous_score new_score None None
            "score_change" t_log (Some "Manual update via graph")
            (Relationship.id relationship) in
        Session.insert_log log_entry db
    | None => db
    end in
  mkOutcome db st [load_data] None.

(** [create_relationship_with_term]: the row handed to [session.add];
    [created_at] and [last_updated] come from the column defaults. *)
Definition create_relationship_with_term
  (source_type : string) (source_id : Z) (target_type : string) (target_id : Z)
  (term : RelationshipTerm) (rel_type : RelationshipType)
  (t_created t_updated : datetime) : Relationship.t :=
  let defaults := dict_get TERM_DEFAULTS term (mkDefault false 0) in
  Relationship.mk 0 (d_default_score defaults) t_created t_updated
    "System User" rel_type true (d_is_directed defaults) term
    source_type source_id target_type target_id.

(** [soft_delete_relationship(rel_id)]. *)
Definition soft_delete_relationship
  (db : Database) (st : RelationshipState.t) (rel_id : Z)
  (t_upd t_log : datetime) : Outcome :=
  let db :=
    match Session.get_relationship db rel_id with
    | Some relationship =>
        let relationship := Relationship.set_is_active false relationship in
        let relationship := Relationship.set_last_updated t_upd relationship in
        let db := Session.update_relationship relationship db in
        let log_entry :=
          RelationshipLog.mk 0 (Relationship.score relationship) 0 None None
            "soft_delete" t_log (Some "Relationship soft deleted")
            (Relationship.id relationship) in
        Session.insert_log log_entry db
    | None => db
    end in
  mkOutcome db (close_panel st) [load_data] (Some "Relationship deleted").

(** [update_relationship_term(rel_id, new_term)]. *)
Definition update_relationship_term
  (db : Database) (st : RelationshipState.t) (rel_id : Z) (new_term : string)
  (t_upd t_log : datetime) : Outcome :=
  match RelationshipTerm_of_value new_term with
  | None => mkOutcome db st [] (Some "Failed to update term")
  | Some term_enum =>
      let defaults := dict_get TERM_DEFAULTS term_enum (mkDefault false 0) in
      let new_type := dict_get TERM_TO_TYPE term_enum SOCIAL in
      let '(db, st) :=
        match Session.get_relationship db rel_id with
        | Some relationship =>
            let previous_term := Relationship.term relationship in
            let previous_score := Relationship.score relationship in
            let relationship := Relationship.set_term term_enum relationship in
            let relationship :=
              Relationship.set_relationship_type new_type relationship in
            let relationship :=
              Relationship.set_is_directed (d_is_directed defaults) relationship in
            let relationship :=
              Relationship.set_score (d_default_score defaults) relationship in
            let relationship := Relationship.set_last_updated t_upd relationship in
            let relationship :=
              Relationship.set_last_modified_by (current_user st) relationship in
            let db := Session.update_relationship relationship db in
            let log_entry :=
              RelationshipLog.mk 0 previous_score (Relationship.score relationship)
                (Some (RelationshipTerm_value previous_term)) (Some new_term)
                "term_change" t_log (Some ("Term changed to " ++ new_term))
                (Relationship.id relationship) in
            let db := Session.insert_log log_entry db in
            let st := set_editing_relationship_type
                        (RelationshipType_value new_type) st in
            let st := set_editing_term new_term st in
            let st := set_editing_is_directed (d_is_directed defaults) st in
            let st := set_editing_score (d_default_score defaults) st in
            (db, st)
        | None => (db, st)
        end in
      mkOutcome db st [load_data] (Some ("Updated relationship to " ++ new_term))
  end.

(** ["company" if prefix == "acc" else "person"]. *)
Definition node_type_of_prefix (prefix : string) : string :=
  if String.eqb prefix "acc" then "company" else "person".

(** The body of [on_connect] once both identifiers are parsed: the
    self-connection test, the choice of type and term, and the session block. *)
Definition connect_nodes
  (db : Database) (st : RelationshipState.t)
  (src_type : string) (src_id : Z) (tgt_type : string) (tgt_id : Z)
  (t1 t2 : datetime) : Outcome :=
  if String.eqb src_type tgt_type && (src_id =? tgt_id) then
    mkOutcome db st [] (Some "Cannot connect a node to itself")
  else
    let '(rel_type, default_term) :=
      if String.eqb src_type "company" && String.eqb tgt_type "company"
      then (BUSINESS, COMPETITOR)
      else if (String.eqb src_type "person" && String.eqb tgt_type "company")
              || (String.eqb src_type "company" && String.eqb tgt_type "person")
      then (EMPLOYMENT, WORKS_FOR)
      else (SOCIAL, FRIEND) in
    let finish db (rel : Relationship.t) :=
      let st := set_selected_edge_id
                  ("rel-" ++ Py.str_of_int (Relationship.id rel)) st in
      let st := set_editing_score (Relationship.score rel) st in
      let st := set_editing_relationship_type
                  (RelationshipType_value (Relationship.relationship_type rel))
                  st in
      let st := set_editing_term
                  (RelationshipTerm_value (Relationship.term rel)) st in
      let st := set_editing_is_directed (Relationship.is_directed rel) st in
      let st := set_edit_mode "edge" st in
      let st := set_show_side_panel true st in
      mkOutcome db st [load_data] None in
    match Session.first_relationship_between
            db src_type src_id tgt_type tgt_id with
    | Some existing =>
        if negb (Relationship.is_active existing) then
          let existing := Relationship.set_is_active true existing in
          let existing := Relationship.set_last_updated t1 existing in
          let db := Session.update_relationship existing db in
          let log_entry :=
            RelationshipLog.mk 0 (Relationship.score existing)
              (Relationship.score existing) None None "reactivate" t2
              (Some "Reactivated via graph connection")
              (Relationship.id existing) in
          let db := Session.insert_log log_entry db in
          finish db existing
        else mkOutcome db st [] (Some "Relationship already exists")
    | None =>
        let new_rel :=
          create_relationship_with_term src_type src_id tgt_type tgt_id
            default_term rel_type t1 t2 in
        let '(new_rel, db) := Session.insert_relationship new_rel db in
        finish db new_rel
    end.

(** [on_connect(connection)], the drag-connect path; [source] and [target]
    are the two entries of [connection]. *)
Definition on_connect
  (db : Database) (st : RelationshipState.t) (source target : string)
  (t1 t2 : datetime) : Outcome :=
  let src_parts := Py.split "-" source in
  let tgt_parts := Py.split "-" target in
  match src_parts, tgt_parts with
  | src_prefix :: src_id_str :: _, tgt_prefix :: tgt_id_str :: _ =>
      match Py.int_of_str src_id_str, Py.int_of_str tgt_id_str with
      | Some src_id, Some tgt_id =>
          let src_type := node_type_of_prefix src_prefix in
          let tgt_type := node_type_of_prefix tgt_prefix in
          connect_nodes db st src_type src_id tgt_type tgt_id t1 t2
      | _, _ => mkOutcome db st [] (Some "Failed to create relationship")
      end
  | _, _ => mkOutcome db st [] (Some "Invalid node identifiers")
  end.

(** The session block of [create_relationship_from_panel] and what follows
    it, once the selected identifier and the term are parsed. *)
Definition panel_session
  (db : Database) (st : RelationshipState.t)
  (source_type : string) (source_id : Z) (term_enum : RelationshipTerm)
  (t1 t2 : datetime) : Outcome :=
  let target_node_id := creation_target_id st in
  let target_node_type := creation_target_type st in
  let score := creation_score st in
  let rel_type := dict_get TERM_TO_TYPE term_enum SOCIAL in
  let finish db :=
    mkOutcome db (set_is_creating_relationship false st)
      [load_data; load_active_node_relationships] None in
  match Session.first_relationship_between
          db source_type source_id target_node_type target_node_id with
  | Some existing =>
      if negb (Relationship.is_active existing) then
        let existing := Relationship.set_is_active true existing in
        let existing := Relationship.set_term term_enum existing in
        let existing := Relationship.set_relationship_type rel_type existing in
        let existing := Relationship.set_score score existing in
        let existing := Relationship.set_last_updated t1 existing in
        let db := Session.update_relationship existing db in
        let log_entry :=
          RelationshipLog.mk 0 (Relationship.score existing) score
            None None "reactivate_panel" t2 (Some "Reactivated via side panel")
            (Relationship.id existing) in
        finish (Session.insert_log log_entry db)
      else mkOutcome db st [] (Some "Relationship already exists")
  | None =>
      let defaults := dict_get TERM_DEFAULTS term_enum (mkDefault false 0) in
      let new_rel :=
        Relationship.mk 0 score t1 t2 "System User" rel_type true
          (d_is_directed defaults) term_enum
          source_type source_id target_node_type target_node_id in
      finish (snd (Session.insert_relationship new_rel db))
  end.

(** [create_relationship_from_panel()], the side-panel path.  Every exception
    of the [try] block ends in a toast that is built and dropped. *)
Definition create_relationship_from_panel
  (db : Database) (st : RelationshipState.t) (t1 t2 : datetime) : Outcome :=
  if String.eqb (selected_node_id st) "" then
    mkOutcome db st [] (Some "No source node selected")
  else if creation_target_id st =? 0 then
    mkOutcome db st [] (Some "Please select a target node")
  else
    let term := creation_term st in
    let failed := mkOutcome db st [] None in
    match Py.split "-" (selected_node_id st) with
    | src_prefix :: src_id_str :: _ =>
        match Py.int_of_str src_id_str, RelationshipTerm_of_value term with
        | Some source_id, Some term_enum =>
            let source_type := node_type_of_prefix src_prefix in
            panel_session db st source_type source_id term_enum t1 t2
        | _, _ => failed
        end
    | _ => failed
    end.

(** ** Subgraph selector *)

(** A node reference: the pair [(type, id)] the handlers use as dictionary
    key and set element. *)
Definition Node := (string * Z)%type.

Definition Node_eqb (a b : Node) : bool :=
  String.eqb (fst a) (fst b) && (snd a =? snd b).

Definition src (r : Relationship.t) : Node :=
  (Relationship.source_type r, Relationship.source_id r).
Definition tgt (r : Relationship.t) : Node :=
  (Relationship.target_type r, Relationship.target_id r).

(** A Python [set]: members without repetition, here in insertion order.
    Python fixes no iteration order; membership never depends on it. *)
Definition mem {A} (eqb : A -> A -> bool) (x : A) (s : list A) : bool :=
  existsb (eqb x) s.
Definition set_add {A} (eqb : A -> A -> bool) (x : A) (s : list A) : list A :=
  if mem eqb x s then s else s ++ [x].
Definition set_of {A} (eqb : A -> A -> bool) (l : list A) : list A :=
  fold_left (fun s x => set_add eqb x s) l [].

(** [select(Relationship)], restricted to active rows unless
    [show_historic]. *)
Definition scan_relationships (db : Database) (st : RelationshipState.t)
  : list Relationship.t :=
  if negb (show_historic st)
  then filter Relationship.is_active (tbl_relationship db)
  else tbl_relationship db.

(** [collections.Counter]: a dictionary in insertion order. *)
Fixpoint counter_incr (k : Node) (c : list (Node * Z)) : list (Node * Z) :=
  match c with
  | [] => [(k, 1)]
  | (k', n) :: c' =>
      if Node_eqb k' k then (k', n + 1) :: c' else (k', n) :: counter_incr k c'
  end.

Definition counter_get (c : list (Node * Z)) (k : Node) : Z :=
  match find (fun kv => Node_eqb (fst kv) k) c with
  | Some kv => snd kv
  | None => 0
  end.

(** [sorted(items, key=count, reverse=True)]: stable, so equal counts keep
    their order. *)
Fixpoint insert_desc (x : Node * Z) (l : list (Node * Z)) : list (Node * Z) :=
  match l with
  | [] => [x]
  | y :: l' => if snd y <=? snd x then x :: l else y :: insert_desc x l'
  end.

Definition sorted_desc (l : list (Node * Z)) : list (Node * Z) :=
  fold_right insert_desc [] l.

(** [Counter.most_common(n)], that is [heapq.nlargest(n, items, key=count)],
    which equals [sorted(items, key=count, reverse=True)[:n]] for [n >= 0] and
    is empty for [n < 0]. *)
Definition most_common (c : list (Node * Z)) (n : Z) : list (Node * Z) :=
  firstn (Z.to_nat n) (sorted_desc c).

Definition count_degrees (rels : list Relationship.t) : list (Node * Z) :=
  fold_left (fun counter r => counter_incr (tgt r) (counter_incr (src r) counter))
            rels [].

Definition ids_of_type (ty : string) (nodes : list Node) : list Z :=
  set_of Z.eqb (map snd (filter (fun n => String.eqb (fst n) ty) nodes)).

Definition accounts_in (db : Database) (ids : list Z) : list Account.t :=
  match ids with
  | [] => []
  | _ => filter (fun a => mem Z.eqb (Account.id a) ids) (tbl_account db)
  end.

Definition contacts_in (db : Database) (ids : list Z) : list Contact.t :=
  match ids with
  | [] => []
  | _ => filter (fun c => mem Z.eqb (Contact.id c) ids) (tbl_contact db)
  end.

Definition between (nodes : list Node) (r : Relationship.t) : bool :=
  mem Node_eqb (src r) nodes && mem Node_eqb (tgt r) nodes.

(** The node list [top_nodes] of [get_most_connected_nodes]. *)
Definition top_nodes (db : Database) (st : RelationshipState.t) (limit : Z)
  : list Node :=
  map fst (most_common (count_degrees (scan_relationships db st)) limit).

(** [get_most_connected_nodes(limit)]. *)
Definition get_most_connected_nodes
  (db : Database) (st : RelationshipState.t) (limit : Z) : RelationshipState.t :=
  let rels := scan_relationships db st in
  let top_node_set := set_of Node_eqb (top_nodes db st limit) in
  let acc_ids := ids_of_type "company" top_node_set in
  let con_ids := ids_of_type "person" top_node_set in
  let st := set_filtered_accounts (accounts_in db acc_ids) st in
  let st := set_filtered_contacts (contacts_in db con_ids) st in
  set_filtered_relationships (filter (between top_node_set) rels) st.

(** [col.ilike(pattern)]: SQL [LIKE] on the lower-cased operands, [%] for any
    run of characters and [_] for any one character. *)
Fixpoint like (p : list ascii) : list ascii -> bool :=
  match p with
  | [] => fun s => match s with [] => true | _ => false end
  | c :: p' =>
      if Ascii.eqb c "%"%char then
        fix star (s : list ascii) : bool :=
          like p' s || match s with [] => false | _ :: s' => star s' end
      else fun s =>
        match s with
        | [] => false
        | d :: s' => (Ascii.eqb c "_"%char || Ascii.eqb c d) && like p' s'
        end
  end.

Definition ilike (value pattern : string) : bool :=
  like (map Py.lower (list_ascii_of_string pattern))
       (map Py.lower (list_ascii_of_string value)).

(** [defaultdict(list)] keyed by node references. *)
Fixpoint adj_append (k v : Node) (adj : list (Node * list Node))
  : list (Node * list Node) :=
  match adj with
  | [] => [(k, [v])]
  | (k', vs) :: adj' =>
      if Node_eqb k' k then (k', (vs ++ [v])%list) :: adj'
      else (k', vs) :: adj_append k v adj'
  end.

Definition adj_get (adj : list (Node * list Node)) (k : Node) : list Node :=
  match find (fun kv => Node_eqb (fst kv) k) adj with
  | Some kv => snd kv
  | None => []
  end.

Definition build_adj (rels : list Relationship.t) : list (Node * list Node) :=
  fold_left (fun adj r => adj_append (tgt r) (src r) (adj_append (src r) (tgt r) adj))
            rels [].

(** One pass of the [for _ in range(2)] body up to the limit test: the pair
    [(visited, next_level_nodes)]. *)
Definition expand (adj : list (Node * list Node))
  (current_level_nodes visited : list Node) : list Node * list Node :=
  fold_left
    (fun acc node =>
       fold_left
         (fun '(visited, next_level_nodes) neighbor =>
            if negb (mem Node_eqb neighbor visited)
            then (set_add Node_eqb neighbor visited,
                  set_add Node_eqb neighbor next_level_nodes)
            else (visited, next_level_nodes))
         (adj_get adj node) acc)
    current_level_nodes (visited, []).

Fixpoint hops (n : nat) (adj : list (Node * list Node)) (node_limit : Z)
  (current_level_nodes visited : list Node) : list Node :=
  match n with
  | O => visited
  | S n' =>
      let '(visited, next_level_nodes) :=
        expand adj current_level_nodes visited in
      if Z.of_nat (List.length visited) >=? node_limit then visited
      else hops n' adj node_limit next_level_nodes visited
  end.

(** The set [visited] of [search_and_build_subgraph] for a non-empty seed. *)
Definition visited_from (db : Database) (st : RelationshipState.t)
  (frontier : list Node) : list Node :=
  let visited := frontier in
  let all_rels := scan_relationships db st in
  let adj := build_adj all_rels in
  let visited := hops 2 adj (node_limit st) frontier visited in
  if Z.of_nat (List.length visited) >? node_limit st
  then Py.slice_to visited (node_limit st)
  else visited.

Definition seed_frontier (db : Database) (query : string) : list Node :=
  let pattern := "%" ++ query ++ "%" in
  let acc_matches :=
    filter (fun a => ilike (Account.name a) pattern) (tbl_account db) in
  let con_matches :=
    filter (fun c => ilike (Contact.first_name c) pattern
                     || ilike (Contact.last_name c) pattern) (tbl_contact db) in
  set_of Node_eqb
    (map (fun a => ("company", Account.id a)) acc_matches
     ++ map (fun c => ("person", Contact.id c)) con_matches).

(** [search_and_build_subgraph(query)]. *)
Definition search_and_build_subgraph
  (db : Database) (st : RelationshipState.t) (query : string)
  : RelationshipState.t :=
  match seed_frontier db query with
  | [] =>
      let st := set_filtered_accounts [] st in
      let st := set_filtered_contacts [] st in
      set_filtered_relationships [] st
  | frontier =>
      let visited := visited_from db st frontier in
      let final_acc_ids := ids_of_type "company" visited in
      let final_con_ids := ids_of_type "person" visited in
      let all_rels := scan_relationships db st in
      let st := set_filtered_accounts (accounts_in db final_acc_ids) st in
      let st := set_filtered_contacts (contacts_in db final_con_ids) st in
      set_filtered_relationships (filter (between visited) all_rels) st
  end.

(** ** Graph projection *)

(** The render model is the dictionary [graph_data] returns: JSON-like values.
    A coordinate [centre + radius * cos(2*pi*idx / count)] (or [sin]) is kept
    as the term [VCircle], its four integers being what the source feeds to
    [math.cos] and [math.sin]. *)
Inductive Axis := Cos | Sin.

Inductive Value :=
| VStr (s : string)
| VInt (n : Z)
| VBool (b : bool)
| VFloat (x : float)
| VCircle (axis : Axis) (centre radius : Z) (idx count : nat)
| VList (l : list Value)
| VDict (d : list (string * Value)).

Definition Dict := list (string * Value).

(** [d[k]], if present. *)
Definition lookup (k : string) (d : Dict) : option Value :=
  option_map snd (find (fun kv => String.eqb (fst kv) k) d).

(** [d[k] = v]. *)
Fixpoint assign (k : string) (v : Value) (d : Dict) : Dict :=
  match d with
  | [] => [(k, v)]
  | (k', v') :: d' =>
      if String.eqb k' k then (k', v) :: d' else (k', v') :: assign k v d'
  end.

(** [d.update(e)]. *)
Definition update (e d : Dict) : Dict :=
  fold_left (fun d kv => assign (fst kv) (snd kv) d) e d.

(** [get_edge_color(score)]. *)
Definition interpolate (start_rgb end_rgb : Z * Z * Z) (factor : float)
  : string :=
  let channel (s e : Z) : Z :=
    Py.int_of_float
      (PrimFloat.add (Py.float_of_int s)
         (PrimFloat.mul (Py.float_of_int (e - s)) factor)) in
  let '(s0, s1, s2) := start_rgb in
  let '(e0, e1, e2) := end_rgb in
  "#" ++ Py.hex02 (channel s0 e0) ++ Py.hex02 (channel s1 e1)
      ++ Py.hex02 (channel s2 e2).

Definition get_edge_color (score : Z) : string :=
  let score := Z.max (-100) (Z.min 100 score) in
  let red_rgb := (239, 68, 68) in
  let gray_rgb := (156, 163, 175) in
  let green_rgb := (16, 185, 129) in
  if score <? 0 then
    let factor := PrimFloat.div (Py.float_of_int (score + 100)) 100%float in
    interpolate red_rgb gray_rgb factor
  else
    let factor := PrimFloat.div (Py.float_of_int score) 100%float in
    interpolate gray_rgb green_rgb factor.

(** [enumerate(l)]. *)
Definition enumerate {A} (l : list A) : list (nat * A) :=
  combine (seq 0 (List.length l)) l.

(** [len(l) or 1]. *)
Definition len_or_1 {A} (l : list A) : nat :=
  match List.length l with O => 1%nat | n => n end.

Section GraphData.

Variable st : RelationshipState.t.

Let current_accounts := filtered_accounts st.
Let current_contacts := filtered_contacts st.
Let current_relationships := filtered_relationships st.

Definition show_labels : bool := PrimFloat.leb 0.6 (zoom_level st).
Definition small_nodes : bool := PrimFloat.ltb (zoom_level st) 0.4.
Definition simplify_edges : bool := PrimFloat.ltb (zoom_level st) 0.5.
Definition total_nodes : Z :=
  Z.of_nat (List.length current_accounts)
  + Z.of_nat (List.length current_contacts).
Definition should_animate_particles : bool := total_nodes <=? 100.
Definition comp_size : string := if small_nodes then "50px" else "100px".
Definition pers_size : string := if small_nodes then "30px" else "60px".

Definition account_node (idx : nat) (acc : Account.t) : Dict :=
  let acc_id := Account.id acc in
  let acc_name := Account.name acc in
  let acc_ticker := Account.ticker acc in
  let x := VCircle Cos 0 300 idx (len_or_1 current_accounts) in
  let y := VCircle Sin 0 300 idx (len_or_1 current_accounts) in
  [ ("id", VStr ("acc-" ++ Py.str_of_int acc_id));
    ("type", VStr "account");
    ("group", VStr "company");
    ("data", VDict
       [ ("label", VStr (if show_labels then acc_name else ""));
         ("name", VStr acc_name);
         ("display_name", VStr acc_name);
         ("ticker", VStr acc_ticker);
         ("job", VStr "Company");
         ("type", VStr "company") ]);
    ("position", VDict [("x", x); ("y", y)]);
    ("style", VDict
       [ ("width", VStr comp_size);
         ("height", VStr comp_size);
         ("background", VStr "#1e1b4b");
         ("color", VStr "white");
         ("borderRadius", VStr "8px");
         ("display", VStr "flex");
         ("justifyContent", VStr "center");
         ("alignItems", VStr "center");
         ("textAlign", VStr "center");
         ("fontWeight", VStr "bold") ]) ].

Definition contact_node (idx : nat) (con : Contact.t) : Dict :=
  let con_id := Contact.id con in
  let con_first := Contact.first_name con in
  let con_last := Contact.last_name con in
  let con_job := Contact.job_title con in
  let offset_x := VCircle Cos 400 100 idx (len_or_1 current_contacts) in
  let offset_y := VCircle Sin 400 100 idx (len_or_1 current_contacts) in
  [ ("id", VStr ("con-" ++ Py.str_of_int con_id));
    ("type", VStr "contact");
    ("group", VStr "person");
    ("data", VDict
       [ ("label", VStr (if show_labels
                         then con_first ++ " " ++ con_last else ""));
         ("first_name", VStr con_first);
         ("last_name", VStr con_last);
         ("display_name", VStr (con_first ++ " " ++ con_last));
         ("job", VStr con_job);
         ("job_title", VStr con_job);
         ("type", VStr "person") ]);
    ("position", VDict [("x", offset_x); ("y", offset_y)]);
    ("style", VDict
       [ ("width", VStr pers_size);
         ("height", VStr pers_size);
         ("background", VStr "#bae6fd");
         ("color", VStr "#0f172a");
         ("borderRadius", VStr "50%");
         ("border", VStr "2px solid #0284c7");
         ("display", VStr "flex");
         ("justifyContent", VStr "center");
         ("alignItems", VStr "center");
         ("textAlign", VStr "center");
         ("fontSize", VStr "10px") ]) ].

(** The employment edge appended after a contact's node, if any. *)
Definition employment_edge (con : Contact.t) : list Dict :=
  let con_id := Contact.id con in
  let acc_ids := set_of Z.eqb (map Account.id current_accounts) in
  match Contact.account_id con with
  | Some con_acc_id =>
      if negb (con_acc_id =? 0) && mem Z.eqb con_acc_id acc_ids then
        [ [ ("id", VStr ("emp-" ++ Py.str_of_int con_id ++ "-"
                                ++ Py.str_of_int con_acc_id));
            ("source", VStr ("acc-" ++ Py.str_of_int con_acc_id));
            ("target", VStr ("con-" ++ Py.str_of_int con_id));
            ("type", VStr "smoothstep");
            ("animated", VBool false);
            ("style", VDict
               [ ("stroke", VStr "#334155");
                 ("strokeWidth", VInt 2);
                 ("strokeDasharray", VStr "5,5") ]);
            ("data", VDict
               [("type", VStr "employment"); ("score", VInt 0)]) ] ]
      else []
  | None => []
  end.

(** The edge of one row of [current_relationships], if it is drawn. *)
Definition relationship_edge (rel : Relationship.t) : list Dict :=
  if negb (Relationship.is_active rel) && negb (show_historic st) then []
  else
    let src_prefix :=
      if String.eqb (Relationship.source_type rel) "company"
      then "acc-" else "con-" in
    let tgt_prefix :=
      if String.eqb (Relationship.target_type rel) "company"
      then "acc-" else "con-" in
    let src_id := src_prefix ++ Py.str_of_int (Relationship.source_id rel) in
    let tgt_id := tgt_prefix ++ Py.str_of_int (Relationship.target_id rel) in
    let is_employment :=
      RelationshipType_eqb (Relationship.relationship_type rel) EMPLOYMENT in
    let type_value :=
      RelationshipType_value (Relationship.relationship_type rel) in
    let term_value := RelationshipTerm_value (Relationship.term rel) in
    let edge_data :=
      [ ("score", VInt (Relationship.score rel));
        ("type", VStr type_value);
        ("term", VStr term_value);
        ("is_directed", VBool (Relationship.is_directed rel));
        ("is_active", VBool (Relationship.is_active rel)) ] in
    let edge_dict :=
      [ ("id", VStr ("rel-" ++ Py.str_of_int (Relationship.id rel)));
        ("source", VStr src_id);
        ("target", VStr tgt_id);
        ("type", VStr "smoothstep");
        ("data", VDict edge_data) ] in
    let edge_dict :=
      if Relationship.is_directed rel
      then assign "markerEnd" (VDict [("type", VStr "arrowclosed")]) edge_dict
      else edge_dict in
    let edge_dict :=
      if negb (Relationship.is_active rel) then
        update
          [ ("animated", VBool false);
            ("label", VStr (term_value ++ " (Deleted)"));
            ("style", VDict
               [ ("stroke", VStr "#94a3b8");
                 ("strokeWidth", VInt 1);
                 ("strokeDasharray", VStr "5,5");
                 ("opacity", VFloat 0.4) ]);
            ("labelStyle", VDict
               [("fill", VStr "#94a3b8"); ("fontSize", VInt 10)]) ]
          edge_dict
      else if is_employment then
        update
          [ ("animated", VBool false);
            ("style", VDict
               [ ("stroke", VStr "#334155");
                 ("strokeWidth", VInt 2);
                 ("strokeDasharray", VStr "5,5") ]) ]
          edge_dict
      else
        let edge_color := get_edge_color (Relationship.score rel) in
        if simplify_edges then
          update
            [ ("animated", VBool should_animate_particles);
              ("style", VDict
                 [ ("stroke", VStr edge_color);
                   ("strokeWidth", VInt 1);
                   ("strokeDasharray", VStr "0") ]) ]
            edge_dict
        else
          update
            [ ("label", VStr (Py.title type_value ++ " ("
                              ++ Py.str_of_int (Relationship.score rel) ++ ")"));
              ("animated", VBool should_animate_particles);
              ("style", VDict
                 [ ("stroke", VStr edge_color);
                   ("strokeWidth", VInt 3);
                   ("strokeDasharray", VStr "0") ]);
              ("labelStyle", VDict
                 [ ("fill", VStr edge_color);
                   ("fontWeight", VInt 700);
                   ("fontSize", VInt 11) ]);
              ("labelShowBg", VBool true);
              ("labelBgStyle", VDict
                 [ ("fill", VStr "#ffffff");
                   ("fillOpacity", VFloat 0.95);
                   ("stroke", VStr edge_color);
                   ("strokeWidth", VInt 1) ]);
              ("labelBgPadding", VList [VInt 8; VInt 4]);
              ("labelBgBorderRadius", VInt 6) ]
            edge_dict in
    [edge_dict].

Definition graph_nodes : list Dict :=
  (map (fun '(idx, acc) => account_node idx acc) (enumerate current_accounts)
   ++ map (fun '(idx, con) => contact_node idx con)
          (enumerate current_contacts))%list.

Definition graph_edges : list Dict :=
  (flat_map employment_edge current_contacts
   ++ flat_map relationship_edge current_relationships)%list.

(** [graph_data]: [{"nodes": nodes, "edges": edges}]. *)
Definition graph_data : Dict :=
  [ ("nodes", VList (map VDict graph_nodes));
    ("edges", VList (map VDict graph_edges)) ].

End GraphData.

(** * Vocabulary of the statements and sample data *)

Module Sample.

Definition person (i : Z) (first : string) (employer : option Z) : Contact.t :=
  Contact.mk i first "Doe" "Analyst" "" 0 0 "System User" employer.

Definition company (i : Z) (n : string) : Account.t :=
  Account.mk i n "TCK" "" 0 0 "System User".

(** A relationship between two people. *)
Definition link (i s t : Z) (active : bool) (term : RelationshipTerm) (score : Z)
  : Relationship.t :=
  Relationship.mk i score 0 0 "System User" SOCIAL active false term
    "person" s "person" t.

Definition state (zoom : float) (historic : bool) : RelationshipState.t :=
  RelationshipState.mk "" "" false "none" false false 0 "" "friend" 0
    0 "" "" true [] [] [] 100 zoom historic "System User".

(** A session with a node selected and the creation form of the side panel
    filled in. *)
Definition panel (selected : string) (target_id : Z) (target_type term : string)
  (score : Z) : RelationshipState.t :=
  RelationshipState.mk selected "" true "node" false true target_id target_type
    term score 0 "" "" true [] [] [] 100 1 false "System User".

Definition people : list Contact.t :=
  [ person 1 "Xena" None; person 2 "Yuri" None; person 3 "Zoe" None;
    person 4 "Walt" None; person 5 "Vera" None ].

(** One active relationship from person 1 to person 2. *)
Definition one_active : Database :=
  mkDatabase [] people [link 1 1 2 true FRIEND 80] [].

(** One soft-deleted relationship from person 1 to person 2. *)
Definition one_inactive : Database :=
  mkDatabase [] people [link 1 1 2 false ENEMY (-100)] [].

End Sample.

(** Whether a handler's outcome carries a notification for the user. *)
Definition notifies (o : Outcome) : bool :=
  match returned o with Some _ => true | None => false end.

(** The node reference a wire id stands for, as [on_connect] and
    [create_relationship_from_panel] read it: [parts = s.split("-")], the type
    from [parts[0]], the id [int(parts[1])]. *)
Definition decode_node (s : string) : option Node :=
  match Py.split "-" s with
  | prefix :: id_str :: _ =>
      option_map (fun n => (node_type_of_prefix prefix, n)) (Py.int_of_str id_str)
  | _ => None
  end.

(** The first row stored with source [a] and target [b]. *)
Definition stored_from_to (db : Database) (a b : Node) : option Relationship.t :=
  find (fun r => Node_eqb (src r) a && Node_eqb (tgt r) b) (tbl_relationship db).

(** What a create-or-reactivate call for the pair [(a, b)] does to the store,
    read off the rows stored from [a] to [b] only. *)
Definition ordered_pair_outcome (db : Database) (a b : Node) (o : Outcome)
  : Prop :=
  match stored_from_to db a b with
  | Some r =>
      if Relationship.is_active r then
        out_db o = db /\ returned o = Some "Relationship already exists"
      else
        List.length (tbl_relationship (out_db o))
        = List.length (tbl_relationship db)
        /\ exists r',
             Session.get_relationship (out_db o) (Relationship.id r) = Some r'
             /\ Relationship.is_active r' = true
  | None =>
      exists row,
        tbl_relationship (out_db o) = (tbl_relationship db ++ [row])%list
        /\ src row = a /\ tgt row = b /\ Relationship.is_active row = true
  end.

(** The relationship [r] joins [a] and [b], in either direction. *)
Definition joins (r : Relationship.t) (a b : Node) : Prop :=
  (src r = a /\ tgt r = b) \/ (src r = b /\ tgt r = a).

Module Chain.

(** People 1 - 2 - 3 - 4 - 5 in a chain of active relationships; only
    person 1 matches the query [xena]. *)
Definition db : Database :=
  mkDatabase [] Sample.people
    [ Sample.link 1 1 2 true FRIEND 80; Sample.link 2 2 3 true FRIEND 80;
      Sample.link 3 3 4 true FRIEND 80; Sample.link 4 4 5 true FRIEND 80 ] [].

Definition st : RelationshipState.t := Sample.state 1 false.

End Chain.

(** [d[k1][k2]], if present. *)
Definition lookup2 (k1 k2 : string) (d : Dict) : option Value :=
  match lookup k1 d with
  | Some (VDict d') => lookup k2 d'
  | _ => None
  end.

Module Office.

(** One company and one of its employees, both selected for display. *)
Definition st : RelationshipState.t :=
  set_filtered_contacts [Sample.person 2 "Yuri" (Some 1)]
    (set_filtered_accounts [Sample.company 1 "Acme"] (Sample.state 1 false)).

End Office.

Module Zoomed.

(** Two people, an active and a soft-deleted relationship between them,
    history shown, zoom 0.3. *)
Definition st : RelationshipState.t :=
  set_filtered_relationships
    [Sample.link 1 1 2 true FRIEND 80; Sample.link 2 2 1 false ENEMY (-100)]
    (set_filtered_contacts
       [Sample.person 1 "Xena" None; Sample.person 2 "Yuri" None]
       (Sample.state 0.3 true)).

(** 101 companies and no relationship but one between two people, zoom 1. *)
Definition crowded : RelationshipState.t :=
  set_filtered_relationships [Sample.link 1 1 2 true FRIEND 80]
    (set_filtered_accounts (repeat (Sample.company 1 "Acme") 101)
       (Sample.state 1 false)).

End Zoomed.

(** The endpoints of the scanned relationships, in scan order. *)
Definition endpoints (rels : list Relationship.t) : list Node :=
  flat_map (fun r => [src r; tgt r]) rels.

(** The node references in the order the scan first meets them. *)
Definition first_seen (rels : list Relationship.t) : list Node :=
  set_of Node_eqb (endpoints rels).

(** How many times [n] is an endpoint: as source plus as target. *)
Definition occurrences (n : Node) (rels : list Relationship.t) : Z :=
  Z.of_nat (List.length (filter (fun r => Node_eqb (src r) n) rels))
  + Z.of_nat (List.length (filter (fun r => Node_eqb (tgt r) n) rels)).

(** How many relationships have [n] as source or target. *)
Definition incident (n : Node) (rels : list Relationship.t) : Z :=
  Z.of_nat (List.length
              (filter (fun r => Node_eqb (src r) n || Node_eqb (tgt r) n) rels)).

(** An item [x] stands before an item [y] in [l]. *)
Definition before {A} (l : list A) (x y : A) : Prop :=
  exists l1 l2 l3, l = (l1 ++ x :: l2 ++ y :: l3)%list.

(** The order of [sorted(items, key=count, reverse=True)] on the items of
    [l]: a larger count first, and among equal counts the order of [l]. *)
Definition ranks_above (l : list (Node * Z)) (x y : Node * Z) : Prop :=
  snd y < snd x \/ (snd x = snd y /\ before l x y).

(** [n] is ranked above [m]: more endpoint occurrences, or as many and met
    earlier by the scan. *)
Definition outranks (rels : list Relationship.t) (n m : Node) : Prop :=
  occurrences m rels < occurrences n rels
  \/ (occurrences n rels = occurrences m rels
      /\ before (first_seen rels) n m).

Module Loop.

(** Person 1 related to itself, person 2 to persons 3 and 4. *)
Definition db : Database :=
  mkDatabase [] Sample.people
    [ Sample.link 1 1 1 true FRIEND 80; Sample.link 2 2 3 true FRIEND 80;
      Sample.link 3 2 4 true FRIEND 80 ] [].

Definition st : RelationshipState.t := Sample.state 1 false.

End Loop.

(** * Further handlers *)

(** ** More of Python's [str] *)

Module PyStr.

(** [s.strip()]. *)
Definition strip (s : string) : string :=
  string_of_list_ascii (Py.strip (list_ascii_of_string s)).

(** [s.lower()], on ASCII. *)
Definition lower (s : string) : string :=
  string_of_list_ascii (map Py.lower (list_ascii_of_string s)).

(** [s.split(sep, 1)] for a one-character separator. *)
Fixpoint split_once (sep : ascii) (s : string) : list string :=
  match s with
  | EmptyString => [EmptyString]
  | String c s' =>
      if Ascii.eqb c sep then [EmptyString; s']
      else match split_once sep s' with
           | [] => [String c EmptyString]
           | p :: ps => String c p :: ps
           end
  end.

(** [needle in hay]. *)
Fixpoint contains (needle hay : string) : bool :=
  String.prefix needle hay
  || match hay with
     | EmptyString => false
     | String _ hay' => contains needle hay'
     end.

End PyStr.

(** ** Hard delete *)

(** A relationship has the node [(node_type, node_id)] as source or as
    target: the [or_] filter of [delete_node] and [get_node_relationships]. *)
Definition touches (node_type : string) (node_id : Z) (r : Relationship.t) : bool :=
  (String.eqb (Relationship.source_type r) node_type
   && (Relationship.source_id r =? node_id))
  || (String.eqb (Relationship.target_type r) node_type
      && (Relationship.target_id r =? node_id)).

(** One pass of the [for rel in rels_to_delete] loop: the logs of [rel] are
    deleted, then its row. *)
Definition delete_relationship (db : Database) (rel : Relationship.t) : Database :=
  mkDatabase (tbl_account db) (tbl_contact db)
    (filter (fun r => negb (Relationship.id r =? Relationship.id rel))
            (tbl_relationship db))
    (filter (fun l => negb (RelationshipLog.relationship_id l
                            =? Relationship.id rel))
            (tbl_relationshiplog db)).

(** [c.account_id = None]. *)
Definition detach (c : Contact.t) : Contact.t :=
  Contact.mk (Contact.id c) (Contact.first_name c) (Contact.last_name c)
    (Contact.job_title c) (Contact.dynamics_contact_id c)
    (Contact.created_at c) (Contact.updated_at c) (Contact.last_modified_by c)
    None.

Definition linked_to (node_id : Z) (c : Contact.t) : bool :=
  match Contact.account_id c with
  | Some a => a =? node_id
  | None => false
  end.

(** [delete_node(node_id, node_type)]. *)
Definition delete_node
  (db : Database) (st : RelationshipState.t) (node_id : Z) (node_type : string)
  : Outcome :=
  let rels_to_delete := filter (touches node_type node_id) (tbl_relationship db) in
  let deleted_count := Z.of_nat (List.length rels_to_delete) in
  let db := fold_left delete_relationship rels_to_delete db in
  let db :=
    if String.eqb node_type "company" then
      match find (fun a => Account.id a =? node_id) (tbl_account db) with
      | Some account =>
          mkDatabase
            (filter (fun a => negb (Account.id a =? node_id)) (tbl_account db))
            (map (fun c => if linked_to node_id c then detach c else c)
                 (tbl_contact db))
            (tbl_relationship db) (tbl_relationshiplog db)
      | None => db
      end
    else if String.eqb node_type "person" then
      match find (fun c => Contact.id c =? node_id) (tbl_contact db) with
      | Some contact =>
          mkDatabase (tbl_account db)
            (filter (fun c => negb (Contact.id c =? node_id)) (tbl_contact db))
            (tbl_relationship db) (tbl_relationshiplog db)
      | None => db
      end
    else db in
  mkOutcome db (close_panel st) [load_data]
    (Some ("Deleted node and " ++ Py.str_of_int deleted_count
           ++ " relationships")).

(** ** The relationship list of the selected node *)

(** [sorted] by score, largest first: the [ORDER BY score DESC] of the query.
    SQL leaves the order of equal scores open; here they keep row order. *)
Fixpoint insert_by_score (x : Relationship.t) (l : list Relationship.t)
  : list Relationship.t :=
  match l with
  | [] => [x]
  | y :: l' =>
      if Relationship.score y <=? Relationship.score x then x :: l
      else y :: insert_by_score x l'
  end.

Definition order_by_score_desc (l : list Relationship.t) : list Relationship.t :=
  fold_right insert_by_score [] l.

(** The name shown for the node at the other end. *)
Definition connected_name (db : Database) (conn_type : string) (conn_id : Z)
  : string :=
  if String.eqb conn_type "company" then
    match find (fun a => Account.id a =? conn_id) (tbl_account db) with
    | Some acc => Account.name acc
    | None => "Unknown"
    end
  else if String.eqb conn_type "person" then
    match find (fun c => Contact.id c =? conn_id) (tbl_contact db) with
    | Some cont => Contact.first_name cont ++ " " ++ Contact.last_name cont
    | None => "Unknown"
    end
  else "Unknown".

(** The dictionary appended for one row. *)
Definition relationship_item (db : Database) (node_id : Z) (node_type : string)
  (rel : Relationship.t) : Dict :=
  let is_source :=
    String.eqb (Relationship.source_type rel) node_type
    && (Relationship.source_id rel =? node_id) in
  let conn_type :=
    if is_source then Relationship.target_type rel
    else Relationship.source_type rel in
  let conn_id :=
    if is_source then Relationship.target_id rel
    else Relationship.source_id rel in
  [ ("relationship_id", VInt (Relationship.id rel));
    ("score", VInt (Relationship.score rel));
    ("term", VStr (RelationshipTerm_value (Relationship.term rel)));
    ("is_directed", VBool (Relationship.is_directed rel));
    ("connected_node_id", VInt conn_id);
    ("connected_node_type", VStr conn_type);
    ("connected_node_name", VStr (connected_name db conn_type conn_id));
    ("type", VStr (RelationshipType_value (Relationship.relationship_type rel))) ].

(** [get_node_relationships(node_id, node_type)]. *)
Definition get_node_relationships (db : Database) (node_id : Z)
  (node_type : string) : list Dict :=
  let rels :=
    order_by_score_desc
      (filter (fun r => Relationship.is_active r && touches node_type node_id r)
              (tbl_relationship db)) in
  map (relationship_item db node_id node_type) rels.

(** The badge of one item: [r.get("score", 0)] against the two thresholds. *)
Definition badge_class (score : Z) : string :=
  if score <=? -30 then "bg-red-50 text-red-700 border-red-200"
  else if score >=? 30 then "bg-green-50 text-green-700 border-green-200"
  else "bg-gray-50 text-gray-700 border-gray-200".

Definition item_score (r : Dict) : Z :=
  match lookup "score" r with
  | Some (VInt n) => n
  | _ => 0
  end.

Module NodePanel.

(** [load_active_node_relationships()]: the list assigned to
    [active_node_relationships], [None] when the handler leaves the field as
    it is (nothing selected, an id without two parts or without a number). *)
Definition load_active_node_relationships
  (db : Database) (st : RelationshipState.t) : option (list Dict) :=
  if String.eqb (selected_node_id st) "" then None
  else
    match Py.split "-" (selected_node_id st) with
    | prefix :: id_str :: _ =>
        match Py.int_of_str id_str with
        | Some node_id =>
            let node_type := node_type_of_prefix prefix in
            let rels := get_node_relationships db node_id node_type in
            Some (map (fun r =>
                         assign "badge_class" (VStr (badge_class (item_score r))) r)
                      rels)
        | None => None
        end
    | _ => None
    end.

End NodePanel.

(** ** Target search of the side panel *)

(** One entry of [get_all_nodes_for_search]: the dictionary with keys [id],
    [type], [name], [subtitle] and [full_id]. *)
Record SearchNode := mkSearchNode {
  sn_id : Z;
  sn_type : string;
  sn_name : string;
  sn_subtitle : string;
  sn_full_id : string }.

(** [get_all_nodes_for_search()]. *)
Definition get_all_nodes_for_search (db : Database) : list SearchNode :=
  (map (fun acc =>
          mkSearchNode (Account.id acc) "company" (Account.name acc)
            (Account.ticker acc) ("acc-" ++ Py.str_of_int (Account.id acc)))
       (tbl_account db)
   ++ map (fun con =>
             mkSearchNode (Contact.id con) "person"
               (Contact.first_name con ++ " " ++ Contact.last_name con)
               (Contact.job_title con)
               ("con-" ++ Py.str_of_int (Contact.id con)))
          (tbl_contact db))%list.

(** [filter_target_nodes(query)]: the list assigned to
    [filtered_target_nodes]. *)
Definition filter_target_nodes
  (db : Database) (st : RelationshipState.t) (query : string)
  : list SearchNode :=
  let all_nodes := get_all_nodes_for_search db in
  let current_node_full_id := selected_node_id st in
  let query := PyStr.lower query in
  let filtered :=
    filter (fun node =>
              negb (String.eqb (sn_full_id node) current_node_full_id)
              && (PyStr.contains query (PyStr.lower (sn_name node))
                  || PyStr.contains query (PyStr.lower (sn_subtitle node))))
           all_nodes in
  Py.slice_to filtered 10.

(** ** The creation form of the side panel *)

Definition set_selected_node_id (v : string) (s : RelationshipState.t)
  : RelationshipState.t :=
  RelationshipState.mk v (selected_edge_id s) (show_side_panel s) (edit_mode
    s) (node_create_mode s) (is_creating_relationship s) (creation_target_id
    s) (creation_target_type s) (creation_term s) (creation_score s)
    (editing_score s) (editing_relationship_type s) (editing_term s)
    (editing_is_directed s) (filtered_accounts s) (filtered_contacts s)
    (filtered_relationships s) (node_limit s) (zoom_level s) (show_historic
    s) (current_user s).
Definition set_creation_target_id (v : Z) (s : RelationshipState.t)
  : RelationshipState.t :=
  RelationshipState.mk (selected_node_id s) (selected_edge_id s)
    (show_side_panel s) (edit_mode s) (node_create_mode s)
    (is_creating_relationship s) v (creation_target_type s) (creation_term
    s) (creation_score s) (editing_score s) (editing_relationship_type s)
    (editing_term s) (editing_is_directed s) (filtered_accounts s)
    (filtered_contacts s) (filtered_relationships s) (node_limit s)
    (zoom_level s) (show_historic s) (current_user s).
Definition set_creation_target_type (v : string) (s : RelationshipState.t)
  : RelationshipState.t :=
  RelationshipState.mk (selected_node_id s) (selected_edge_id s)
    (show_side_panel s) (edit_mode s) (node_create_mode s)
    (is_creating_relationship s) (creation_target_id s) v (creation_term s)
    (creation_score s) (editing_score s) (editing_relationship_type s)
    (editing_term s) (editing_is_directed s) (filtered_accounts s)
    (filtered_contacts s) (filtered_relationships s) (node_limit s)
    (zoom_level s) (show_historic s) (current_user s).
Definition set_creation_term (v : string) (s : RelationshipState.t)
  : RelationshipState.t :=
  RelationshipState.mk (selected_node_id s) (selected_edge_id s)
    (show_side_panel s) (edit_mode s) (node_create_mode s)
    (is_creating_relationship s) (creation_target_id s)
    (creation_target_type s) v (creation_score s) (editing_score s)
    (editing_relationship_type s) (editing_term s) (editing_is_directed s)
    (filtered_accounts s) (filtered_contacts s) (filtered_relationships s)
    (node_limit s) (zoom_level s) (show_historic s) (current_user s).
Definition set_creation_score (v : Z) (s : RelationshipState.t)
  : RelationshipState.t :=
  RelationshipState.mk (selected_node_id s) (selected_edge_id s)
    (show_side_panel s) (edit_mode s) (node_create_mode s)
    (is_creating_relationship s) (creation_target_id s)
    (creation_target_type s) (creation_term s) v (editing_score s)
    (editing_relationship_type s) (editing_term s) (editing_is_directed s)
    (filtered_accounts s) (filtered_contacts s) (filtered_relationships s)
    (node_limit s) (zoom_level s) (show_historic s) (current_user s).
Definition set_node_limit (v : Z) (s : RelationshipState.t)
  : RelationshipState.t :=
  RelationshipState.mk (selected_node_id s) (selected_edge_id s)
    (show_side_panel s) (edit_mode s) (node_create_mode s)
    (is_creating_relationship s) (creation_target_id s)
    (creation_target_type s) (creation_term s) (creation_score s)
    (editing_score s) (editing_relationship_type s) (editing_term s)
    (editing_is_directed s) (filtered_accounts s) (filtered_contacts s)
    (filtered_relationships s) v (zoom_level s) (show_historic s)
    (current_user s).
Definition set_show_historic (v : bool) (s : RelationshipState.t)
  : RelationshipState.t :=
  RelationshipState.mk (selected_node_id s) (selected_edge_id s)
    (show_side_panel s) (edit_mode s) (node_create_mode s)
    (is_creating_relationship s) (creation_target_id s)
    (creation_target_type s) (creation_term s) (creation_score s)
    (editing_score s) (editing_relationship_type s) (editing_term s)
    (editing_is_directed s) (filtered_accounts s) (filtered_contacts s)
    (filtered_relationships s) (node_limit s) (zoom_level s) v (current_user
    s).

(** [on_node_click(node)] on the fields kept here; [node_id] is
    [node.get("id", "")].  The handler also fills [selected_node_data]. *)
Definition on_node_click (st : RelationshipState.t) (node_id : string)
  : RelationshipState.t * list Event :=
  let st := set_selected_node_id node_id st in
  let st := set_edit_mode "node" st in
  let st := set_node_create_mode false st in
  let st := set_show_side_panel true st in
  (st, [load_active_node_relationships]).

(** [start_relationship_creation()] on the fields kept here. *)
Definition start_relationship_creation (st : RelationshipState.t)
  : RelationshipState.t :=
  let st := set_is_creating_relationship true st in
  let st := set_creation_target_id 0 st in
  let st := set_creation_target_type "" st in
  let st := set_creation_term "friend" st in
  set_creation_score 0 st.

(** [set_creation_target(id, type, name)] on the fields kept here. *)
Definition set_creation_target (st : RelationshipState.t) (id : Z)
  (type : string) : RelationshipState.t :=
  let st := set_creation_target_id id st in
  set_creation_target_type type st.

(** [set_creation_term(term)]: an unknown term is stored and the score is
    left as it is. *)
Definition set_creation_term_handler (st : RelationshipState.t) (term : string)
  : RelationshipState.t :=
  let st := set_creation_term term st in
  match RelationshipTerm_of_value term with
  | Some term_enum =>
      let defaults :=
        dict_get TERM_DEFAULTS term_enum (mkDefault false 0) in
      set_creation_score (d_default_score defaults) st
  | None => st
  end.

(** [cancel_relationship_creation()] on the fields kept here. *)
Definition cancel_relationship_creation (st : RelationshipState.t)
  : RelationshipState.t :=
  let st := set_is_creating_relationship false st in
  set_creation_target_id 0 st.

(** ** Deleting the current selection *)

(** What [delete_current_selection] returns: an event for the runtime to
    run, or a toast. *)
Inductive Returned :=
| ReturnToast (message : string)
| ReturnDeleteNode (node_id : Z) (node_type : string)
| ReturnSoftDelete (rel_id : Z).

(** [delete_current_selection()]. *)
Definition delete_current_selection (st : RelationshipState.t) : Returned :=
  let nothing := ReturnToast "Nothing selected to delete" in
  if String.eqb (edit_mode st) "node"
     && negb (String.eqb (selected_node_id st) "") then
    match Py.split "-" (selected_node_id st) with
    | prefix :: id_str :: _ =>
        match Py.int_of_str id_str with
        | Some node_id => ReturnDeleteNode node_id (node_type_of_prefix prefix)
        | None => nothing
        end
    | _ => nothing
    end
  else if String.eqb (edit_mode st) "edge"
          && negb (String.eqb (selected_edge_id st) "") then
    if String.prefix "rel-" (selected_edge_id st) then
      match Py.split "-" (selected_edge_id st) with
      | _ :: id_str :: _ =>
          match Py.int_of_str id_str with
          | Some rel_id => ReturnSoftDelete rel_id
          | None => nothing
          end
      | _ => nothing
      end
    else nothing
  else nothing.

(** ** Creating and editing nodes *)

(** [d.get(k, "")] and [k in d] on a dictionary of strings. *)
Definition sget (k : string) (d : list (string * string)) : string :=
  match find (fun kv => String.eqb (fst kv) k) d with
  | Some kv => snd kv
  | None => ""
  end.

Definition shas (k : string) (d : list (string * string)) : bool :=
  existsb (fun kv => String.eqb (fst kv) k) d.

(** [not s or not s.strip()]. *)
Definition blank (s : string) : bool :=
  String.eqb s "" || String.eqb (PyStr.strip s) "".

(** [validate_node_data(node_type, data)]. *)
Definition validate_node_data (node_type : string) (data : list (string * string))
  : bool * string :=
  if String.eqb node_type "company" then
    if blank (sget "name" data) then (false, "Company name is required")
    else (true, "")
  else if String.eqb node_type "person" then
    if shas "name" data && blank (sget "name" data)
    then (false, "Name is required")
    else if shas "first_name" data
            && String.eqb (PyStr.strip (sget "first_name" data)) ""
    then (false, "First name is required")
    else (true, "")
  else (true, "").

(** [add_node(node_type, name, title_or_ticker)], [additional_data] left at
    its default.  [t1] and [t2] are the readings for [created_at] and
    [updated_at]. *)
Definition add_node
  (db : Database) (st : RelationshipState.t)
  (node_type name title_or_ticker : string) (t1 t2 : datetime) : Outcome :=
  let '(is_valid, error_msg) :=
    validate_node_data node_type
      [("name", name); ("title_or_ticker", title_or_ticker)] in
  if negb is_valid then mkOutcome db st [] (Some error_msg)
  else if String.eqb node_type "company" then
    match find (fun a => ilike (Account.name a) name) (tbl_account db) with
    | Some existing =>
        mkOutcome db st [] (Some ("Company '" ++ name ++ "' already exists"))
    | None =>
        let new_account :=
          Account.mk (Session.next_id (map Account.id (tbl_account db)))
            name title_or_ticker "" t1 t2 "System User" in
        mkOutcome
          (mkDatabase (tbl_account db ++ [new_account])%list (tbl_contact db)
             (tbl_relationship db) (tbl_relationshiplog db))
          st [load_data] (Some ("Created " ++ node_type ++ " successfully"))
    end
  else if String.eqb node_type "person" then
    let parts := PyStr.split_once " " (PyStr.strip name) in
    let first_name := hd "" parts in
    let last_name := match parts with _ :: l :: _ => l | _ => "" end in
    match find (fun c => ilike (Contact.first_name c) first_name
                         && ilike (Contact.last_name c) last_name)
               (tbl_contact db) with
    | Some existing =>
        mkOutcome db st []
          (Some ("Contact '" ++ first_name ++ " " ++ last_name
                 ++ "' already exists"))
    | None =>
        let new_contact :=
          Contact.mk (Session.next_id (map Contact.id (tbl_contact db)))
            first_name last_name title_or_ticker "" t1 t2 "System User" None in
        mkOutcome
          (mkDatabase (tbl_account db) (tbl_contact db ++ [new_contact])%list
             (tbl_relationship db) (tbl_relationshiplog db))
          st [load_data] (Some ("Created " ++ node_type ++ " successfully"))
    end
  else mkOutcome db st [] (Some "Invalid node type").

Fixpoint replace_account (a : Account.t) (rows : list Account.t)
  : list Account.t :=
  match rows with
  | [] => []
  | x :: rows' =>
      if Account.id x =? Account.id a then a :: rows'
      else x :: replace_account a rows'
  end.

Fixpoint replace_contact (c : Contact.t) (rows : list Contact.t)
  : list Contact.t :=
  match rows with
  | [] => []
  | x :: rows' =>
      if Contact.id x =? Contact.id c then c :: rows'
      else x :: replace_contact c rows'
  end.

(** [update_node(node_id, node_type, updated_data)]. *)
Definition update_node
  (db : Database) (st : RelationshipState.t) (node_id : Z) (node_type : string)
  (updated_data : list (string * string)) : Outcome :=
  let updated db :=
    mkOutcome db st [load_data] (Some "Node updated successfully") in
  let given k := shas k updated_data in
  let value k := sget k updated_data in
  if String.eqb node_type "company" then
    match find (fun a => Account.id a =? node_id) (tbl_account db) with
    | None => mkOutcome db st [] (Some "Account not found")
    | Some account =>
        let name :=
          if given "name" && negb (String.eqb (value "name") "")
          then value "name" else Account.name account in
        let ticker :=
          if given "ticker" then value "ticker" else Account.ticker account in
        let account :=
          Account.mk (Account.id account) name ticker
            (Account.dynamics_account_id account) (Account.created_at account)
            (Account.updated_at account) (Account.last_modified_by account) in
        updated (mkDatabase (replace_account account (tbl_account db))
                   (tbl_contact db) (tbl_relationship db)
                   (tbl_relationshiplog db))
    end
  else if String.eqb node_type "person" then
    match find (fun c => Contact.id c =? node_id) (tbl_contact db) with
    | None => mkOutcome db st [] (Some "Contact not found")
    | Some contact =>
        let first_name :=
          if given "first_name" && negb (String.eqb (value "first_name") "")
          then value "first_name" else Contact.first_name contact in
        let last_name :=
          if given "last_name" then value "last_name"
          else Contact.last_name contact in
        let job_title :=
          if given "job_title" then value "job_title"
          else Contact.job_title contact in
        let contact :=
          Contact.mk (Contact.id contact) first_name last_name job_title
            (Contact.dynamics_contact_id contact) (Contact.created_at contact)
            (Contact.updated_at contact) (Contact.last_modified_by contact)
            (Contact.account_id contact) in
        updated (mkDatabase (tbl_account db)
                   (replace_contact contact (tbl_contact db))
                   (tbl_relationship db) (tbl_relationshiplog db))
    end
  else updated db.

(** * Vocabulary of the further properties *)

(** The value of a digit sequence read after the prefix value [acc]. *)
Fixpoint uint_value (acc : Z) (d : Decimal.uint) : Z :=
  match d with
  | Decimal.Nil => acc
  | Decimal.D0 d => uint_value (10 * acc + 0) d
  | Decimal.D1 d => uint_value (10 * acc + 1) d
  | Decimal.D2 d => uint_value (10 * acc + 2) d
  | Decimal.D3 d => uint_value (10 * acc + 3) d
  | Decimal.D4 d => uint_value (10 * acc + 4) d
  | Decimal.D5 d => uint_value (10 * acc + 5) d
  | Decimal.D6 d => uint_value (10 * acc + 6) d
  | Decimal.D7 d => uint_value (10 * acc + 7) d
  | Decimal.D8 d => uint_value (10 * acc + 8) d
  | Decimal.D9 d => uint_value (10 * acc + 9) d
  end.

Definition digit_chars (d : Decimal.uint) : list ascii :=
  list_ascii_of_string (NilEmpty.string_of_uint d).

(** No stored relationship goes from a node to itself. *)
Definition no_self_relationship (db : Database) : Prop :=
  forall r, In r (tbl_relationship db) -> src r <> tgt r.

(** Every stored relationship has a key that is not negative. *)
Definition keys_not_negative (db : Database) : Prop :=
  forall r, In r (tbl_relationship db) -> 0 <= Relationship.id r.

(** The end of [r] that is not [a]; [a] itself when [r] goes from [a] to
    [a]. *)
Definition other_end (a : Node) (r : Relationship.t) : Node :=
  if Node_eqb (src r) a then tgt r else src r.

Module Firm.

(** Company 1 with two employees, company 2, a relationship between the two
    companies with one log entry and a relationship between the employees. *)
Definition db : Database :=
  mkDatabase
    [Sample.company 1 "Acme"; Sample.company 2 "Stark"]
    [Sample.person 1 "Xena" (Some 1); Sample.person 2 "Yuri" (Some 1);
     Sample.person 3 "Zoe" (Some 2)]
    [ Relationship.mk 1 (-50) 0 0 "System User" BUSINESS true false COMPETITOR
        "company" 1 "company" 2;
      Sample.link 2 1 2 true FRIEND 80 ]
    [ RelationshipLog.mk 1 0 (-50) None None "score_change" 0 None 1;
      RelationshipLog.mk 2 0 80 None None "score_change" 0 None 2 ].

End Firm.

(** The node reference names a stored account or a stored contact. *)
Definition resolves (db : Database) (n : Node) : Prop :=
  (fst n = "company" /\ In (snd n) (map Account.id (tbl_account db)))
  \/ (fst n = "person" /\ In (snd n) (map Contact.id (tbl_contact db))).

(** Every reference held in the store leads to a stored row: the employer of
    a contact, the two ends of a relationship, the relationship of a log
    entry. *)
Definition referential_integrity (db : Database) : Prop :=
  (forall c a, In c (tbl_contact db) -> Contact.account_id c = Some a ->
     In a (map Account.id (tbl_account db)))
  /\ (forall r, In r (tbl_relationship db) ->
        resolves db (src r) /\ resolves db (tgt r))
  /\ (forall l, In l (tbl_relationshiplog db) ->
        In (RelationshipLog.relationship_id l)
           (map Relationship.id (tbl_relationship db))).


(** A scanned relationship joins [a] and [b], in either direction. *)
Definition adjacent (rels : list Relationship.t) (a b : Node) : Prop :=
  exists r, In r rels
            /\ ((src r = a /\ tgt r = b) \/ (tgt r = a /\ src r = b)).

(** [n] is a seed, a neighbour of a seed or a neighbour of such a
    neighbour. *)
Definition within_two_hops (rels : list Relationship.t) (seeds : list Node)
  (n : Node) : Prop :=
  In n seeds
  \/ (exists m, In m seeds /\ adjacent rels m n)
  \/ (exists m k, In m seeds /\ adjacent rels m k /\ adjacent rels k n).

(** The [for neighbor in adj[node]] loop of [expand] on its own. *)
Definition visit_neighbors (acc : list Node * list Node) (l : list Node)
  : list Node * list Node :=
  fold_left
    (fun '(visited, next_level_nodes) neighbor =>
       if negb (mem Node_eqb neighbor visited)
       then (set_add Node_eqb neighbor visited,
             set_add Node_eqb neighbor next_level_nodes)
       else (visited, next_level_nodes))
    l acc.

(** The footprint of one relationship handler, from the store [db] before to
    the store [db'] after: the node tables are untouched, the relationship
    keys are kept in order with one new key at most appended, and the log
    keeps its entries in order with one entry at most appended, which refers
    to a relationship stored before. *)
Definition relationship_footprint (db db' : Database) : Prop :=
  tbl_account db' = tbl_account db
  /\ tbl_contact db' = tbl_contact db
  /\ (exists added,
        map Relationship.id (tbl_relationship db')
        = (map Relationship.id (tbl_relationship db) ++ added)%list
        /\ (List.length added <= 1)%nat
        /\ forall k, In k added ->
                     ~ In k (map Relationship.id (tbl_relationship db)))
  /\ (exists logged,
        tbl_relationshiplog db'
        = (tbl_relationshiplog db ++ logged)%list
        /\ (List.length logged <= 1)%nat
        /\ forall l, In l logged ->
                     In (RelationshipLog.relationship_id l)
                        (map Relationship.id (tbl_relationship db))).

(** * Properties *)

(** ** The store *)

Section StoreFacts.

Variable r : Relationship.t.

Lemma replace_row_found (rows : list Relationship.t) (r0 : Relationship.t) :
  find (fun x => Relationship.id x =? Relationship.id r) rows = Some r0 ->
  find (fun x => Relationship.id x =? Relationship.id r)
       (Session.replace_row r rows) = Some r.
Proof.
  induction rows as [|x rows IH]; simpl; [discriminate|].
  destruct (Relationship.id x =? Relationship.id r) eqn:E; simpl.
  - now rewrite Z.eqb_refl.
  - rewrite E. exact IH.
Qed.

Lemma replace_row_others (rows : list Relationship.t) (k : Z) :
  k <> Relationship.id r ->
  find (fun x => Relationship.id x =? k) (Session.replace_row r rows)
  = find (fun x => Relationship.id x =? k) rows.
Proof.
  intros Hk. induction rows as [|x rows IH]; simpl; [reflexivity|].
  destruct (Relationship.id x =? Relationship.id r) eqn:E; simpl.
  - apply Z.eqb_eq in E.
    destruct (Relationship.id x =? k) eqn:Ex.
    + apply Z.eqb_eq in Ex. congruence.
    + assert ((Relationship.id r =? k) = false) as -> by (apply Z.eqb_neq; congruence).
      reflexivity.
  - now rewrite IH.
Qed.

Lemma replace_row_length (rows : list Relationship.t) :
  List.length (Session.replace_row r rows) = List.length rows.
Proof.
  induction rows as [|x rows IH]; simpl; [reflexivity|].
  destruct (Relationship.id x =? Relationship.id r); simpl; congruence.
Qed.

End StoreFacts.

Lemma get_relationship_id (db : Database) (k : Z) (r : Relationship.t) :
  Session.get_relationship db k = Some r -> Relationship.id r = k.
Proof.
  unfold Session.get_relationship. intros H.
  apply find_some in H. now apply Z.eqb_eq.
Qed.

(** A row written back under its own key is what [session.get] then returns,
    and every other key resolves as before. *)
Lemma get_after_update (db : Database) (k : Z) (r r' : Relationship.t) :
  Session.get_relationship db k = Some r ->
  Relationship.id r' = k ->
  Session.get_relationship (Session.update_relationship r' db) k = Some r'
  /\ forall k', k' <> k ->
       Session.get_relationship (Session.update_relationship r' db) k'
       = Session.get_relationship db k'.
Proof.
  unfold Session.get_relationship, Session.update_relationship; simpl.
  intros H <-. split.
  - eapply replace_row_found, H.
  - intros k' Hk'. now apply replace_row_others.
Qed.

Lemma get_after_insert_log (db : Database) (l : RelationshipLog.t) (k : Z) :
  Session.get_relationship (Session.insert_log l db) k
  = Session.get_relationship db k.
Proof. reflexivity. Qed.

(** ** Score update *)

(** C4, as stated, fails on an id that does not resolve: the handler signals
    nothing.  On a store without relationship 99 the outcome carries no
    notification and the same events as an update that succeeds. *)
Lemma update_score_missing_id_is_silent :
  Session.get_relationship Sample.one_active 99 = None
  /\ notifies (update_relationship_score
                 Sample.one_active (Sample.state 1 false) 99 5 10 11) = false
  /\ yielded (update_relationship_score
                Sample.one_active (Sample.state 1 false) 99 5 10 11)
     = yielded (update_relationship_score
                  Sample.one_active (Sample.state 1 false) 1 5 10 11).
Proof. repeat split. Qed.

(** C4 (amended): [update_relationship_score] never changes the session
    state, always yields the reload event and returns no notification.  When
    the id does not resolve the store is left as it was.  When it resolves to
    [r], the row becomes [r] with [score], [last_updated] and
    [last_modified_by] replaced, every other relationship resolves as before,
    and exactly one log entry is appended, with action [score_change], the
    previous score and the new score. *)
Theorem update_relationship_score_effect
  (db : Database) (st : RelationshipState.t) (rel_id new_score : Z)
  (t_upd t_log : datetime) :
  let o := update_relationship_score db st rel_id new_score t_upd t_log in
  out_state o = st /\ yielded o = [load_data] /\ returned o = None
  /\ match Session.get_relationship db rel_id with
     | None => out_db o = db
     | Some r =>
         Session.get_relationship (out_db o) rel_id
         = Some (Relationship.mk
                   (Relationship.id r) new_score (Relationship.created_at r)
                   t_upd (current_user st) (Relationship.relationship_type r)
                   (Relationship.is_active r) (Relationship.is_directed r)
                   (Relationship.term r)
                   (Relationship.source_type r) (Relationship.source_id r)
                   (Relationship.target_type r) (Relationship.target_id r))
         /\ (forall k, k <> rel_id ->
               Session.get_relationship (out_db o) k
               = Session.get_relationship db k)
         /\ tbl_relationshiplog (out_db o)
            = (tbl_relationshiplog db
               ++ [RelationshipLog.mk
                     (Session.next_id
                        (map RelationshipLog.id (tbl_relationshiplog db)))
                     (Relationship.score r) new_score None None
                     "score_change" t_log (Some "Manual update via graph")
                     rel_id])%list
         /\ tbl_account (out_db o) = tbl_account db
         /\ tbl_contact (out_db o) = tbl_contact db
     end.
Proof.
  unfold update_relationship_score; simpl.
  repeat (split; [reflexivity|]).
  destruct (Session.get_relationship db rel_id) as [r|] eqn:Hget; [|reflexivity].
  pose proof (get_relationship_id _ _ _ Hget) as Hid.
  rewrite !get_after_insert_log.
  destruct (get_after_update db rel_id r
              (Relationship.set_last_modified_by (current_user st)
                 (Relationship.set_last_updated t_upd
                    (Relationship.set_score new_score r))) Hget Hid)
    as [Hsame Hother].
  split; [|split; [|split; [|split]]].
  - rewrite Hsame. reflexivity.
  - intros k Hk. rewrite get_after_insert_log. now apply Hother.
  - simpl. now rewrite Hid.
  - reflexivity.
  - reflexivity.
Qed.

(** ** Soft delete *)

(** C9: for a relationship [r] that exists, [soft_delete_relationship] leaves
    it stored with [is_active = false] and appends exactly one log entry, with
    action [soft_delete], [previous_score] the score of [r] and [new_score] 0
    whatever that score is. *)
Theorem soft_delete_logs_score_zero
  (db : Database) (st : RelationshipState.t) (rel_id : Z) (r : Relationship.t)
  (t_upd t_log : datetime) :
  Session.get_relationship db rel_id = Some r ->
  let o := soft_delete_relationship db st rel_id t_upd t_log in
  (exists r', Session.get_relationship (out_db o) rel_id = Some r'
              /\ Relationship.is_active r' = false)
  /\ tbl_relationshiplog (out_db o)
     = (tbl_relationshiplog db
        ++ [RelationshipLog.mk
              (Session.next_id (map RelationshipLog.id (tbl_relationshiplog db)))
              (Relationship.score r) 0 None None "soft_delete" t_log
              (Some "Relationship soft deleted") rel_id])%list.
Proof.
  intros Hget. unfold soft_delete_relationship; simpl. rewrite Hget.
  pose proof (get_relationship_id _ _ _ Hget) as Hid.
  rewrite get_after_insert_log. split.
  - eexists. split.
    + eapply get_after_update; [exact Hget | exact Hid].
    + reflexivity.
  - simpl. now rewrite Hid.
Qed.

Lemma soft_delete_logs_score_zero_witness :
  Session.get_relationship Sample.one_active 1
  = Some (Sample.link 1 1 2 true FRIEND 80)
  /\ tbl_relationshiplog
       (out_db (soft_delete_relationship
                  Sample.one_active (Sample.state 1 false) 1 10 11))
     = [RelationshipLog.mk 1 80 0 None None "soft_delete" 11
          (Some "Relationship soft deleted") 1].
Proof.
  split; [reflexivity|].
  exact (proj2 (soft_delete_logs_score_zero
                  Sample.one_active (Sample.state 1 false) 1
                  (Sample.link 1 1 2 true FRIEND 80) 10 11 eq_refl)).
Defined.

(** ** Term update *)

Lemma TERM_DEFAULTS_get (t : RelationshipTerm) (d : TermDefault) :
  In (t, d) TERM_DEFAULTS -> dict_get TERM_DEFAULTS t (mkDefault false 0) = d.
Proof.
  unfold TERM_DEFAULTS; simpl.
  intros H; repeat (destruct H as [H|H]; [now inversion H|]); contradiction.
Qed.

Lemma TERM_TO_TYPE_get (t : RelationshipTerm) (ty : RelationshipType) :
  In (t, ty) TERM_TO_TYPE -> dict_get TERM_TO_TYPE t SOCIAL = ty.
Proof.
  unfold TERM_TO_TYPE; simpl.
  intros H; repeat (destruct H as [H|H]; [now inversion H|]); contradiction.
Qed.

(** Both tables have a row for every term, so the fall-back value of
    [dict.get] is never used. *)
Lemma tables_cover_every_term (t : RelationshipTerm) :
  (exists d, In (t, d) TERM_DEFAULTS) /\ (exists ty, In (t, ty) TERM_TO_TYPE).
Proof.
  destruct t; split; eexists; unfold TERM_DEFAULTS, TERM_TO_TYPE; simpl; eauto 10.
Qed.

(** C7: for a relationship [r] that exists and a term string that names a
    term, [update_relationship_term] stores the term, the type the
    [TERM_TO_TYPE] table gives it, and the [is_directed] and [default_score] of
    its [TERM_DEFAULTS] row, whatever the score of [r] was; it appends exactly
    one log entry, with action [term_change], the term and score before and the
    term and score after. *)
Theorem update_relationship_term_resets_defaults
  (db : Database) (st : RelationshipState.t) (rel_id : Z) (r : Relationship.t)
  (new_term : string) (term_enum : RelationshipTerm)
  (directed : bool) (default_score : Z) (ty : RelationshipType)
  (t_upd t_log : datetime) :
  Session.get_relationship db rel_id = Some r ->
  RelationshipTerm_of_value new_term = Some term_enum ->
  In (term_enum, mkDefault directed default_score) TERM_DEFAULTS ->
  In (term_enum, ty) TERM_TO_TYPE ->
  let o := update_relationship_term db st rel_id new_term t_upd t_log in
  Session.get_relationship (out_db o) rel_id
  = Some (Relationship.mk
            (Relationship.id r) default_score (Relationship.created_at r)
            t_upd (current_user st) ty (Relationship.is_active r) directed
            term_enum
            (Relationship.source_type r) (Relationship.source_id r)
            (Relationship.target_type r) (Relationship.target_id r))
  /\ tbl_relationshiplog (out_db o)
     = (tbl_relationshiplog db
        ++ [RelationshipLog.mk
              (Session.next_id (map RelationshipLog.id (tbl_relationshiplog db)))
              (Relationship.score r) default_score
              (Some (RelationshipTerm_value (Relationship.term r)))
              (Some (RelationshipTerm_value term_enum))
              "term_change" t_log
              (Some ("Term changed to " ++ new_term)%string) rel_id])%list.
Proof.
  intros Hget Hterm Hdef Hty.
  unfold update_relationship_term. rewrite Hterm, Hget.
  rewrite (TERM_DEFAULTS_get _ _ Hdef), (TERM_TO_TYPE_get _ _ Hty).
  pose proof (get_relationship_id _ _ _ Hget) as Hid.
  assert (RelationshipTerm_value term_enum = new_term) as Hval.
  { unfold RelationshipTerm_of_value in Hterm.
    apply find_some in Hterm. now apply String.eqb_eq. }
  cbn zeta. simpl out_db. rewrite get_after_insert_log. split.
  - eapply get_after_update; [exact Hget | exact Hid].
  - simpl. now rewrite Hid, Hval.
Qed.

Lemma update_relationship_term_resets_defaults_witness :
  Session.get_relationship
    (out_db (update_relationship_term
               Sample.one_active (Sample.state 1 false) 1 "invested_in" 10 11)) 1
  = Some (Relationship.mk 1 50 0 10 "System User" BUSINESS true true INVESTED_IN
            "person" 1 "person" 2)
  /\ tbl_relationshiplog
       (out_db (update_relationship_term
                  Sample.one_active (Sample.state 1 false) 1 "invested_in" 10 11))
     = [RelationshipLog.mk 1 80 50 (Some "friend") (Some "invested_in")
          "term_change" 11 (Some "Term changed to invested_in") 1].
Proof.
  apply (update_relationship_term_resets_defaults
           Sample.one_active (Sample.state 1 false) 1
           (Sample.link 1 1 2 true FRIEND 80) "invested_in" INVESTED_IN
           true 50 BUSINESS 10 11 eq_refl eq_refl).
  - simpl; auto.
  - simpl; auto.
Defined.

(** ** Create or reactivate: shared facts *)

Lemma Node_eqb_eq (a b : Node) : Node_eqb a b = true <-> a = b.
Proof.
  destruct a as [ta ia], b as [tb ib]; unfold Node_eqb; simpl.
  rewrite andb_true_iff, String.eqb_eq, Z.eqb_eq.
  split; [intros [-> ->]; reflexivity | intros H; inversion H; auto].
Qed.

Lemma Node_eqb_refl (a : Node) : Node_eqb a a = true.
Proof. now apply Node_eqb_eq. Qed.

Lemma Node_eqb_neq (a b : Node) : a <> b -> Node_eqb a b = false.
Proof.
  intros H. destruct (Node_eqb a b) eqn:E; [|reflexivity].
  apply Node_eqb_eq in E. contradiction.
Qed.

Lemma on_connect_decoded
  (db : Database) (st : RelationshipState.t) (source target : string)
  (a b : Node) (t1 t2 : datetime) :
  decode_node source = Some a -> decode_node target = Some b ->
  on_connect db st source target t1 t2
  = connect_nodes db st (fst a) (snd a) (fst b) (snd b) t1 t2.
Proof.
  unfold decode_node, on_connect. cbn zeta.
  destruct (Py.split "-" source) as [|sp [|si srest]]; try discriminate.
  destruct (Py.split "-" target) as [|tp [|ti trest]]; try discriminate.
  destruct (Py.int_of_str si); try discriminate.
  destruct (Py.int_of_str ti); try discriminate.
  simpl. intros Ha Hb. inversion Ha; inversion Hb. reflexivity.
Qed.

Lemma panel_decoded
  (db : Database) (st : RelationshipState.t) (a : Node)
  (term_enum : RelationshipTerm) (t1 t2 : datetime) :
  decode_node (selected_node_id st) = Some a ->
  creation_target_id st <> 0 ->
  RelationshipTerm_of_value (creation_term st) = Some term_enum ->
  create_relationship_from_panel db st t1 t2
  = panel_session db st (fst a) (snd a) term_enum t1 t2.
Proof.
  unfold decode_node, create_relationship_from_panel. intros Ha Hid Hterm.
  destruct (String.eqb (selected_node_id st) "") eqn:Hsel.
  - apply String.eqb_eq in Hsel. rewrite Hsel in Ha. discriminate.
  - apply Z.eqb_neq in Hid. rewrite Hid, Hterm. cbn zeta.
    destruct (Py.split "-" (selected_node_id st)) as [|sp [|si srest]];
      try discriminate.
    destruct (Py.int_of_str si); try discriminate.
    simpl in Ha. inversion Ha. reflexivity.
Qed.

(** The row found for an ordered pair has that source and that target. *)
Lemma first_between_endpoints
  (db : Database) (a b : Node) (r : Relationship.t) :
  Session.first_relationship_between db (fst a) (snd a) (fst b) (snd b) = Some r ->
  In r (tbl_relationship db) /\ src r = a /\ tgt r = b.
Proof.
  unfold Session.first_relationship_between. intros H.
  apply find_some in H. destruct H as [Hin H].
  rewrite !andb_true_iff in H. destruct H as [[[H1 H2] H3] H4].
  apply String.eqb_eq in H1, H3. apply Z.eqb_eq in H2, H4.
  unfold src, tgt. rewrite H1, H2, H3, H4.
  destruct a, b; auto.
Qed.

(** No row stored from [a] to [b]: the lookup finds nothing, whatever is
    stored from [b] to [a]. *)
Lemma first_between_none
  (db : Database) (a b : Node) :
  (forall r, In r (tbl_relationship db) -> src r = a -> tgt r = b -> False) ->
  Session.first_relationship_between db (fst a) (snd a) (fst b) (snd b) = None.
Proof.
  intros H.
  destruct (Session.first_relationship_between db (fst a) (snd a) (fst b) (snd b))
    as [r|] eqn:E; [|reflexivity].
  apply first_between_endpoints in E. destruct E as [Hin [Hs Ht]].
  exfalso; eauto.
Qed.

(** A row that is both the one its key resolves to and the first of its
    ordered pair is still the first of the pair after it is written back with
    the same key and endpoints. *)
Lemma first_between_after_update
  (db : Database) (a b : Node) (r r' : Relationship.t) :
  Session.first_relationship_between db (fst a) (snd a) (fst b) (snd b) = Some r ->
  Session.get_relationship db (Relationship.id r) = Some r ->
  Relationship.id r' = Relationship.id r -> src r' = src r -> tgt r' = tgt r ->
  Session.first_relationship_between
    (Session.update_relationship r' db) (fst a) (snd a) (fst b) (snd b) = Some r'.
Proof.
  intros Hfirst Hget Hid Hsrc Htgt.
  destruct (first_between_endpoints _ _ _ _ Hfirst) as [_ [Hra Hrb]].
  assert (forall x : Relationship.t, src x = a -> tgt x = b ->
            (String.eqb (Relationship.source_type x) (fst a)
             && (Relationship.source_id x =? snd a)
             && String.eqb (Relationship.target_type x) (fst b)
             && (Relationship.target_id x =? snd b)) = true) as Hmatch.
  { intros x <- <-. unfold src, tgt; simpl.
    now rewrite !String.eqb_refl, !Z.eqb_refl. }
  revert Hfirst Hget.
  unfold Session.first_relationship_between, Session.get_relationship,
    Session.update_relationship; simpl.
  rewrite <- Hid.
  induction (tbl_relationship db) as [|x rows IH]; simpl; [discriminate|].
  destruct (String.eqb (Relationship.source_type x) (fst a)
            && (Relationship.source_id x =? snd a)
            && String.eqb (Relationship.target_type x) (fst b)
            && (Relationship.target_id x =? snd b)) eqn:Ex.
  - intros Hx _. inversion Hx; subst x.
    rewrite Hid, Z.eqb_refl. simpl.
    rewrite Hmatch; congruence.
  - destruct (Relationship.id x =? Relationship.id r') eqn:Ek.
    + intros _ Hx. inversion Hx; subst x.
      rewrite Hmatch in Ex; [discriminate | assumption | assumption].
    + intros H1 H2. simpl. rewrite Ex. now apply IH.
Qed.

(** The three branches of the two session blocks. *)

Ltac split_type_choice :=
  repeat match goal with
         | |- context [String.eqb ?x "company"] =>
             destruct (String.eqb x "company")
         | |- context [String.eqb ?x "person"] =>
             destruct (String.eqb x "person")
         end.

Section Branches.

Variables (db : Database) (st : RelationshipState.t) (a b : Node).
Variables (t1 t2 : datetime).

Lemma connect_nodes_duplicate (r : Relationship.t) :
  Node_eqb a b = false ->
  Session.first_relationship_between db (fst a) (snd a) (fst b) (snd b) = Some r ->
  Relationship.is_active r = true ->
  connect_nodes db st (fst a) (snd a) (fst b) (snd b) t1 t2
  = mkOutcome db st [] (Some "Relationship already exists").
Proof.
  intros Hab Hfirst Hact. unfold connect_nodes.
  change (String.eqb (fst a) (fst b) && (snd a =? snd b)) with (Node_eqb a b).
  rewrite Hab, Hfirst, Hact. split_type_choice; reflexivity.
Qed.

Lemma connect_nodes_reactivate (r : Relationship.t) :
  Node_eqb a b = false ->
  Session.first_relationship_between db (fst a) (snd a) (fst b) (snd b) = Some r ->
  Relationship.is_active r = false ->
  out_db (connect_nodes db st (fst a) (snd a) (fst b) (snd b) t1 t2)
  = Session.insert_log
      (RelationshipLog.mk 0 (Relationship.score r) (Relationship.score r)
         None None "reactivate" t2 (Some "Reactivated via graph connection")
         (Relationship.id r))
      (Session.update_relationship
         (Relationship.set_last_updated t1 (Relationship.set_is_active true r))
         db).
Proof.
  intros Hab Hfirst Hact. unfold connect_nodes.
  change (String.eqb (fst a) (fst b) && (snd a =? snd b)) with (Node_eqb a b).
  rewrite Hab, Hfirst, Hact. split_type_choice; reflexivity.
Qed.

Lemma connect_nodes_create :
  Node_eqb a b = false ->
  Session.first_relationship_between db (fst a) (snd a) (fst b) (snd b) = None ->
  exists row,
    out_db (connect_nodes db st (fst a) (snd a) (fst b) (snd b) t1 t2)
    = mkDatabase (tbl_account db) (tbl_contact db)
        (tbl_relationship db ++ [row])%list (tbl_relationshiplog db)
    /\ src row = a /\ tgt row = b /\ Relationship.is_active row = true.
Proof.
  intros Hab Hfirst. unfold connect_nodes.
  change (String.eqb (fst a) (fst b) && (snd a =? snd b)) with (Node_eqb a b).
  rewrite Hab, Hfirst.
  destruct a, b; split_type_choice; simpl;
    (eexists; split; [reflexivity | repeat split]).
Qed.

Lemma panel_session_duplicate (term_enum : RelationshipTerm) (r : Relationship.t) :
  creation_target_type st = fst b -> creation_target_id st = snd b ->
  Session.first_relationship_between db (fst a) (snd a) (fst b) (snd b) = Some r ->
  Relationship.is_active r = true ->
  panel_session db st (fst a) (snd a) term_enum t1 t2
  = mkOutcome db st [] (Some "Relationship already exists").
Proof.
  intros Hty Hid Hfirst Hact. unfold panel_session.
  now rewrite Hty, Hid, Hfirst, Hact.
Qed.

Lemma panel_session_reactivate (term_enum : RelationshipTerm) (r : Relationship.t) :
  creation_target_type st = fst b -> creation_target_id st = snd b ->
  Session.first_relationship_between db (fst a) (snd a) (fst b) (snd b) = Some r ->
  Relationship.is_active r = false ->
  out_db (panel_session db st (fst a) (snd a) term_enum t1 t2)
  = Session.insert_log
      (RelationshipLog.mk 0 (creation_score st) (creation_score st)
         None None "reactivate_panel" t2 (Some "Reactivated via side panel")
         (Relationship.id r))
      (Session.update_relationship
         (Relationship.set_last_updated t1
            (Relationship.set_score (creation_score st)
               (Relationship.set_relationship_type
                  (dict_get TERM_TO_TYPE term_enum SOCIAL)
                  (Relationship.set_term term_enum
                     (Relationship.set_is_active true r)))))
         db).
Proof.
  intros Hty Hid Hfirst Hact. unfold panel_session.
  now rewrite Hty, Hid, Hfirst, Hact.
Qed.

Lemma panel_session_create (term_enum : RelationshipTerm) :
  creation_target_type st = fst b -> creation_target_id st = snd b ->
  Session.first_relationship_between db (fst a) (snd a) (fst b) (snd b) = None ->
  exists row,
    out_db (panel_session db st (fst a) (snd a) term_enum t1 t2)
    = mkDatabase (tbl_account db) (tbl_contact db)
        (tbl_relationship db ++ [row])%list (tbl_relationshiplog db)
    /\ src row = a /\ tgt row = b /\ Relationship.is_active row = true.
Proof.
  intros Hty Hid Hfirst. unfold panel_session.
  rewrite Hty, Hid, Hfirst. destruct a, b; simpl.
  eexists; split; [reflexivity | repeat split].
Qed.

End Branches.

(** After either reactivation the key of the row resolves to the row written
    back, and the table has as many rows as before. *)
Lemma reactivated_row
  (db : Database) (a b : Node) (r r' : Relationship.t) (l : RelationshipLog.t) :
  Session.first_relationship_between db (fst a) (snd a) (fst b) (snd b) = Some r ->
  Relationship.id r' = Relationship.id r ->
  let db' := Session.insert_log l (Session.update_relationship r' db) in
  Session.get_relationship db' (Relationship.id r) = Some r'
  /\ List.length (tbl_relationship db') = List.length (tbl_relationship db).
Proof.
  intros Hfirst Hid db'. subst db'. rewrite get_after_insert_log. simpl. split.
  - apply first_between_endpoints in Hfirst. destruct Hfirst as [Hin _].
    unfold Session.get_relationship, Session.update_relationship; simpl.
    rewrite <- Hid.
    destruct (find (fun x => Relationship.id x =? Relationship.id r')
                   (tbl_relationship db)) as [r0|] eqn:E.
    + eapply replace_row_found, E.
    + exfalso. eapply find_none in E; [|exact Hin].
      rewrite Hid, Z.eqb_refl in E. discriminate.
  - apply replace_row_length.
Qed.

(** ** Create or reactivate: duplicate detection *)

Lemma first_between_stored (db : Database) (a b : Node) :
  Session.first_relationship_between db (fst a) (snd a) (fst b) (snd b)
  = stored_from_to db a b.
Proof.
  unfold Session.first_relationship_between, stored_from_to, Node_eqb, src, tgt.
  induction (tbl_relationship db) as [|r rows IH]; simpl; [reflexivity|].
  now rewrite IH, andb_assoc.
Qed.

(** C1, as stated, fails: a relationship stored as (1, 2) is not matched by a
    call for (2, 1).  With person 1 -> person 2 stored and active, connecting
    person 2 to person 1 is not rejected, by drag or from the panel: a second
    row is stored.  With person 1 -> person 2 stored and inactive, the same
    calls leave it inactive and store a second row. *)
Lemma reversed_pair_is_stored_twice :
  let ends (o : Outcome) :=
    map (fun r => (src r, tgt r, Relationship.is_active r))
        (tbl_relationship (out_db o)) in
  let st := Sample.panel "con-2" 1 "person" "friend" 42 in
  ends (on_connect Sample.one_active st "con-2" "con-1" 10 11)
  = [ (("person", 1), ("person", 2), true);
      (("person", 2), ("person", 1), true) ]
  /\ returned (on_connect Sample.one_active st "con-2" "con-1" 10 11) = None
  /\ ends (create_relationship_from_panel Sample.one_active st 10 11)
     = [ (("person", 1), ("person", 2), true);
         (("person", 2), ("person", 1), true) ]
  /\ returned (create_relationship_from_panel Sample.one_active st 10 11) = None
  /\ ends (on_connect Sample.one_inactive st "con-2" "con-1" 10 11)
     = [ (("person", 1), ("person", 2), false);
         (("person", 2), ("person", 1), true) ]
  /\ ends (create_relationship_from_panel Sample.one_inactive st 10 11)
     = [ (("person", 1), ("person", 2), false);
         (("person", 2), ("person", 1), true) ].
Proof. vm_compute. repeat split. Qed.

(** C1 (amended): duplicate detection and reactivation go by the ordered pair.
    For distinct node references [A] and [B], a drag-connect from [A] to [B]
    and a panel creation with [A] selected and [B] as target look only at the
    rows stored with source [A] and target [B]: if the first of them is active
    the call is rejected as a duplicate and nothing is written; if it is
    inactive it is reactivated and no row is added; if there is none a new row
    from [A] to [B] is stored, whatever is stored from [B] to [A].  The
    [is_directed] flag of the stored row plays no part. *)
Theorem duplicate_detection_by_ordered_pair
  (db : Database) (st : RelationshipState.t) (source target : string)
  (A B : Node) (term_enum : RelationshipTerm) (t1 t2 : datetime) :
  decode_node source = Some A ->
  decode_node target = Some B ->
  A <> B ->
  decode_node (selected_node_id st) = Some A ->
  creation_target_type st = fst B ->
  creation_target_id st = snd B ->
  snd B <> 0 ->
  RelationshipTerm_of_value (creation_term st) = Some term_enum ->
  ordered_pair_outcome db A B (on_connect db st source target t1 t2)
  /\ ordered_pair_outcome db A B (create_relationship_from_panel db st t1 t2).
Proof.
  intros Hsrc Htgt Hneq Hsel Hty Hid Hnz Hterm.
  apply Node_eqb_neq in Hneq.
  rewrite (on_connect_decoded _ _ _ _ _ _ _ _ Hsrc Htgt).
  rewrite (panel_decoded db st A term_enum t1 t2 Hsel
             ltac:(congruence) Hterm).
  unfold ordered_pair_outcome.
  destruct (stored_from_to db A B) as [r|] eqn:Hst;
    rewrite <- first_between_stored in Hst.
  - destruct (Relationship.is_active r) eqn:Hact.
    + rewrite (connect_nodes_duplicate db st A B t1 t2 r Hneq Hst Hact).
      rewrite (panel_session_duplicate db st A B t1 t2 term_enum r
                 Hty Hid Hst Hact).
      repeat split.
    + rewrite (connect_nodes_reactivate db st A B t1 t2 r Hneq Hst Hact).
      rewrite (panel_session_reactivate db st A B t1 t2 term_enum r
                 Hty Hid Hst Hact).
      split.
      * edestruct (reactivated_row db A B r) as [Hrow Hlen];
          [exact Hst | | split; [exact Hlen | eexists; split; [exact Hrow|]]];
          reflexivity.
      * edestruct (reactivated_row db A B r) as [Hrow Hlen];
          [exact Hst | | split; [exact Hlen | eexists; split; [exact Hrow|]]];
          reflexivity.
  - destruct (connect_nodes_create db st A B t1 t2 Hneq Hst)
      as [row [Hdb Hrow]].
    destruct (panel_session_create db st A B t1 t2 term_enum Hty Hid Hst)
      as [row' [Hdb' Hrow']].
    split; [exists row | exists row'].
    + rewrite Hdb. split; [reflexivity | exact Hrow].
    + rewrite Hdb'. split; [reflexivity | exact Hrow'].
Qed.

Lemma duplicate_detection_by_ordered_pair_witness :
  ordered_pair_outcome Sample.one_active ("person", 1) ("person", 2)
    (on_connect Sample.one_active
       (Sample.panel "con-1" 2 "person" "friend" 42) "con-1" "con-2" 10 11)
  /\ ordered_pair_outcome Sample.one_active ("person", 1) ("person", 2)
       (create_relationship_from_panel Sample.one_active
          (Sample.panel "con-1" 2 "person" "friend" 42) 10 11).
Proof.
  apply (duplicate_detection_by_ordered_pair
           Sample.one_active (Sample.panel "con-1" 2 "person" "friend" 42)
           "con-1" "con-2" ("person", 1) ("person", 2) FRIEND 10 11);
    try reflexivity; simpl; congruence.
Defined.

(** ** Create or reactivate: what a reactivation writes *)

(** C2, as stated, fails on the drag-connect path, which overwrites neither
    term nor type nor score: a soft-deleted [enemy] relationship of score -100
    between two people, for which the call's own term is [friend], comes back
    as [enemy] with -100.  On the panel path the log entry does not record the
    score before the reactivation (-100) as [previous_score] but the supplied
    score (42). *)
Lemma reactivation_by_drag_keeps_term_and_score :
  Session.get_relationship Sample.one_inactive 1
  = Some (Sample.link 1 1 2 false ENEMY (-100))
  /\ Session.get_relationship
       (out_db (on_connect Sample.one_inactive (Sample.state 1 false)
                  "con-1" "con-2" 10 11)) 1
     = Some (Relationship.mk 1 (-100) 0 10 "System User" SOCIAL true false ENEMY
               "person" 1 "person" 2)
  /\ map RelationshipLog.previous_score
       (tbl_relationshiplog
          (out_db (create_relationship_from_panel Sample.one_inactive
                     (Sample.panel "con-1" 2 "person" "friend" 42) 10 11)))
     = [42].
Proof. vm_compute. repeat split. Qed.

(** C2 (amended): when the row [r] found for the pair is inactive, either
    path sets [is_active] and [last_updated] and appends exactly one log entry
    for [r].  The drag-connect path leaves term, type and score as stored and
    logs action [reactivate] with [previous_score] and [new_score] both the
    stored score.  The panel path overwrites term, type and score with the
    panel's term, its type and the supplied score, and logs action
    [reactivate_panel] with [new_score] the supplied score. *)
Theorem reactivation_effect
  (db : Database) (st : RelationshipState.t) (source target : string)
  (A B : Node) (term_enum : RelationshipTerm) (ty : RelationshipType)
  (r : Relationship.t) (t1 t2 : datetime) :
  decode_node source = Some A ->
  decode_node target = Some B ->
  A <> B ->
  decode_node (selected_node_id st) = Some A ->
  creation_target_type st = fst B ->
  creation_target_id st = snd B ->
  snd B <> 0 ->
  RelationshipTerm_of_value (creation_term st) = Some term_enum ->
  In (term_enum, ty) TERM_TO_TYPE ->
  stored_from_to db A B = Some r ->
  Relationship.is_active r = false ->
  let drag := out_db (on_connect db st source target t1 t2) in
  let panel := out_db (create_relationship_from_panel db st t1 t2) in
  let log_id :=
    Session.next_id (map RelationshipLog.id (tbl_relationshiplog db)) in
  Session.get_relationship drag (Relationship.id r)
  = Some (Relationship.mk
            (Relationship.id r) (Relationship.score r)
            (Relationship.created_at r) t1 (Relationship.last_modified_by r)
            (Relationship.relationship_type r) true (Relationship.is_directed r)
            (Relationship.term r)
            (Relationship.source_type r) (Relationship.source_id r)
            (Relationship.target_type r) (Relationship.target_id r))
  /\ tbl_relationshiplog drag
     = (tbl_relationshiplog db
        ++ [RelationshipLog.mk log_id (Relationship.score r)
              (Relationship.score r) None None "reactivate" t2
              (Some "Reactivated via graph connection") (Relationship.id r)])%list
  /\ Session.get_relationship panel (Relationship.id r)
     = Some (Relationship.mk
               (Relationship.id r) (creation_score st)
               (Relationship.created_at r) t1 (Relationship.last_modified_by r)
               ty true (Relationship.is_directed r) term_enum
               (Relationship.source_type r) (Relationship.source_id r)
               (Relationship.target_type r) (Relationship.target_id r))
  /\ exists l,
       tbl_relationshiplog panel = (tbl_relationshiplog db ++ [l])%list
       /\ RelationshipLog.action l = "reactivate_panel"
       /\ RelationshipLog.new_score l = creation_score st
       /\ RelationshipLog.relationship_id l = Relationship.id r
       /\ RelationshipLog.id l = log_id.
Proof.
  intros Hsrc Htgt Hneq Hsel Hty Hid Hnz Hterm Htype Hst Hact.
  apply Node_eqb_neq in Hneq. rewrite <- first_between_stored in Hst.
  rewrite (on_connect_decoded _ _ _ _ _ _ _ _ Hsrc Htgt).
  rewrite (panel_decoded db st A term_enum t1 t2 Hsel ltac:(congruence) Hterm).
  rewrite (connect_nodes_reactivate db st A B t1 t2 r Hneq Hst Hact).
  rewrite (panel_session_reactivate db st A B t1 t2 term_enum r Hty Hid Hst Hact).
  rewrite (TERM_TO_TYPE_get _ _ Htype).
  cbv zeta. split; [|split; [|split]].
  - eapply reactivated_row; [exact Hst | reflexivity].
  - reflexivity.
  - eapply reactivated_row; [exact Hst | reflexivity].
  - eexists. split; [reflexivity | repeat split].
Qed.

Lemma reactivation_effect_witness :
  Session.get_relationship
    (out_db (on_connect Sample.one_inactive
               (Sample.panel "con-1" 2 "person" "friend" 42)
               "con-1" "con-2" 10 11)) 1
  = Some (Relationship.mk 1 (-100) 0 10 "System User" SOCIAL true false ENEMY
            "person" 1 "person" 2)
  /\ Session.get_relationship
       (out_db (create_relationship_from_panel Sample.one_inactive
                  (Sample.panel "con-1" 2 "person" "friend" 42) 10 11)) 1
     = Some (Relationship.mk 1 42 0 10 "System User" SOCIAL true false FRIEND
               "person" 1 "person" 2).
Proof.
  assert (In (FRIEND, SOCIAL) TERM_TO_TYPE) as Hty by (simpl; auto 10).
  assert (("person", 1) <> ("person", 2)) as Hneq by congruence.
  assert (2 <> 0) as Hnz by lia.
  pose proof (reactivation_effect
                Sample.one_inactive (Sample.panel "con-1" 2 "person" "friend" 42)
                "con-1" "con-2" ("person", 1) ("person", 2) FRIEND SOCIAL
                (Sample.link 1 1 2 false ENEMY (-100)) 10 11
                eq_refl eq_refl Hneq eq_refl eq_refl eq_refl Hnz eq_refl Hty
                eq_refl eq_refl) as H.
  split; [exact (proj1 H) | exact (proj1 (proj2 (proj2 H)))].
Defined.

(** ** Soft delete: frame *)

(** C10: for a relationship [r] that exists, [soft_delete_relationship]
    changes [is_active] and [last_updated] of its row and nothing else: score,
    term, type, [is_directed], both endpoints, [created_at] and
    [last_modified_by] are those of [r], and every other relationship resolves
    as before.  A later reactivation by drag-connect,
    which overwrites none of them, finds them as they were before the
    deletion. *)
Theorem soft_delete_keeps_other_fields
  (db : Database) (st : RelationshipState.t) (rel_id : Z) (r : Relationship.t)
  (t_upd t_log : datetime) :
  Session.get_relationship db rel_id = Some r ->
  let o := soft_delete_relationship db st rel_id t_upd t_log in
  Session.get_relationship (out_db o) rel_id
  = Some (Relationship.mk
            (Relationship.id r) (Relationship.score r)
            (Relationship.created_at r) t_upd (Relationship.last_modified_by r)
            (Relationship.relationship_type r) false (Relationship.is_directed r)
            (Relationship.term r)
            (Relationship.source_type r) (Relationship.source_id r)
            (Relationship.target_type r) (Relationship.target_id r))
  /\ (forall k, k <> rel_id ->
        Session.get_relationship (out_db o) k = Session.get_relationship db k)
  /\ forall (source target : string) (t1 t2 : datetime),
       decode_node source = Some (src r) ->
       decode_node target = Some (tgt r) ->
       src r <> tgt r ->
       stored_from_to db (src r) (tgt r) = Some r ->
       Session.get_relationship
         (out_db (on_connect (out_db o) (out_state o) source target t1 t2)) rel_id
       = Some (Relationship.mk
                 (Relationship.id r) (Relationship.score r)
                 (Relationship.created_at r) t1 (Relationship.last_modified_by r)
                 (Relationship.relationship_type r) true
                 (Relationship.is_directed r) (Relationship.term r)
                 (Relationship.source_type r) (Relationship.source_id r)
                 (Relationship.target_type r) (Relationship.target_id r)).
Proof.
  intros Hget o.
  pose proof (get_relationship_id _ _ _ Hget) as Hid.
  set (r' := Relationship.set_last_updated t_upd
               (Relationship.set_is_active false r)).
  assert (out_db o
          = Session.insert_log
              (RelationshipLog.mk 0 (Relationship.score r') 0 None None
                 "soft_delete" t_log (Some "Relationship soft deleted")
                 (Relationship.id r'))
              (Session.update_relationship r' db)) as Hdb.
  { subst o. unfold soft_delete_relationship. now rewrite Hget. }
  split; [|split].
  - rewrite Hdb, get_after_insert_log.
    apply (get_after_update db rel_id r r' Hget Hid).
  - intros k Hk. rewrite Hdb, get_after_insert_log.
    now apply (get_after_update db rel_id r r' Hget Hid).
  - intros source target t1 t2 Hsrc Htgt Hneq Hst.
    apply Node_eqb_neq in Hneq. rewrite <- first_between_stored in Hst.
    rewrite (on_connect_decoded _ _ _ _ _ _ _ _ Hsrc Htgt).
    assert (Session.first_relationship_between (out_db o)
              (fst (src r)) (snd (src r)) (fst (tgt r)) (snd (tgt r)) = Some r')
      as Hst'.
    { rewrite Hdb.
      change (Session.first_relationship_between
                (Session.update_relationship r' db)
                (fst (src r)) (snd (src r)) (fst (tgt r)) (snd (tgt r)) = Some r').
      apply first_between_after_update with (r := r); try reflexivity.
      - exact Hst.
      - now rewrite Hid. }
    rewrite (connect_nodes_reactivate (out_db o) (out_state o) (src r) (tgt r)
               t1 t2 r' Hneq Hst' eq_refl).
    rewrite <- Hid.
    change (Relationship.id r) with (Relationship.id r').
    eapply reactivated_row; [exact Hst' | reflexivity].
Qed.

Lemma soft_delete_keeps_other_fields_witness :
  Session.get_relationship
    (out_db (soft_delete_relationship
               Sample.one_active (Sample.state 1 false) 1 10 11)) 1
  = Some (Relationship.mk 1 80 0 10 "System User" SOCIAL false false FRIEND
            "person" 1 "person" 2)
  /\ Session.get_relationship
       (out_db (on_connect
                  (out_db (soft_delete_relationship
                             Sample.one_active (Sample.state 1 false) 1 10 11))
                  (out_state (soft_delete_relationship
                                Sample.one_active (Sample.state 1 false) 1 10 11))
                  "con-1" "con-2" 20 21)) 1
     = Some (Relationship.mk 1 80 0 20 "System User" SOCIAL true false FRIEND
               "person" 1 "person" 2).
Proof.
  assert (("person", 1) <> ("person", 2)) as Hneq by congruence.
  pose proof (soft_delete_keeps_other_fields
                Sample.one_active (Sample.state 1 false) 1
                (Sample.link 1 1 2 true FRIEND 80) 10 11 eq_refl) as H.
  split; [exact (proj1 H)|].
  exact (proj2 (proj2 H) "con-1" "con-2" 20 21 eq_refl eq_refl Hneq eq_refl).
Defined.

(** ** Search expansion *)

Lemma build_adj_ends (rels : list Relationship.t) :
  build_adj rels
  = fold_left
      (fun adj e => adj_append (snd e) (fst e) (adj_append (fst e) (snd e) adj))
      (map (fun r => (src r, tgt r)) rels) [].
Proof.
  unfold build_adj. generalize (@nil (Node * list Node)).
  induction rels as [|r rels IH]; intros acc; simpl; [reflexivity|]. apply IH.
Qed.

Lemma Node_eqb_distinct (a b : Node) :
  a <> b -> Node_eqb a b = false /\ Node_eqb b a = false.
Proof. intros H; split; apply Node_eqb_neq; congruence. Qed.

(** Turns [NoDup [a; b; ..]] into the value of [Node_eqb] on every ordered
    pair of the list. *)
Ltac node_eqb_facts :=
  repeat match goal with
         | H : NoDup (_ :: _) |- _ => inversion H; clear H; subst
         | H : NoDup [] |- _ => clear H
         end;
  repeat match goal with
         | H : ~ In _ _ |- _ => simpl in H
         end;
  repeat match goal with
         | H : ~ (_ \/ _) |- _ => apply Decidable.not_or in H; destruct H
         | H : ~ False |- _ => clear H
         | H : ?a <> ?b |- _ =>
             let H1 := fresh "Hn" in
             let H2 := fresh "Hn" in
             destruct (Node_eqb_distinct b a (not_eq_sym H)) as [H1 H2]; clear H
         end.

(** Runs the list programs on node references that are variables. *)
Ltac node_eval :=
  repeat (cbn -[Node_eqb Z.of_nat Z.geb Z.gtb];
          rewrite ?Node_eqb_refl;
          repeat match goal with
                 | H : Node_eqb _ _ = false |- _ => rewrite H
                 end).

(** C3, as stated, fails: two hops from X reach Y and Z but not W, which is
    three relationships away.  On the chain 1 - 2 - 3 - 4 - 5 with the seed
    [person 1] and limit 100, person 4 is not visited. *)
Lemma fourth_node_of_chain_is_not_reached :
  seed_frontier Chain.db "xena" = [("person", 1)]
  /\ node_limit Chain.st = 100
  /\ visited_from Chain.db Chain.st (seed_frontier Chain.db "xena")
     = [("person", 1); ("person", 2); ("person", 3)]
  /\ mem Node_eqb ("person", 4)
       (visited_from Chain.db Chain.st (seed_frontier Chain.db "xena")) = false
  /\ map Contact.id
       (filtered_contacts (search_and_build_subgraph Chain.db Chain.st "xena"))
     = [1; 2; 3].
Proof. vm_compute. repeat split. Qed.

(** C3 (amended): with seed frontier exactly X and limit 100, over a chain
    X - Y - Z - W - V of scanned relationships (each in either direction) the
    two hops visit exactly X, Y and Z.  W, three relationships away, and V
    beyond it are excluded, and the visible relationships are the two among
    X, Y and Z. *)
Theorem two_hops_over_a_chain
  (db : Database) (st : RelationshipState.t) (query : string)
  (X Y Z W V : Node) (r1 r2 r3 r4 : Relationship.t) :
  seed_frontier db query = [X] ->
  node_limit st = 100 ->
  scan_relationships db st = [r1; r2; r3; r4] ->
  joins r1 X Y -> joins r2 Y Z -> joins r3 Z W -> joins r4 W V ->
  NoDup [X; Y; Z; W; V] ->
  visited_from db st (seed_frontier db query) = [X; Y; Z]
  /\ filtered_relationships (search_and_build_subgraph db st query) = [r1; r2].
Proof.
  intros Hseed Hlim Hscan H1 H2 H3 H4 Hnd.
  unfold search_and_build_subgraph. rewrite Hseed.
  assert (visited_from db st [X] = [X; Y; Z]) as Hvisited.
  { unfold visited_from. rewrite build_adj_ends, Hscan, Hlim.
    node_eqb_facts.
    cbn [map]. unfold hops, expand, adj_get, set_add, mem.
    destruct H1 as [[-> ->]|[-> ->]], H2 as [[-> ->]|[-> ->]],
             H3 as [[-> ->]|[-> ->]], H4 as [[-> ->]|[-> ->]];
      node_eval; reflexivity. }
  split; [exact Hvisited|].
  rewrite Hvisited, Hscan. node_eqb_facts.
  cbn [filter]. unfold between, mem.
  destruct H1 as [[-> ->]|[-> ->]], H2 as [[-> ->]|[-> ->]],
           H3 as [[-> ->]|[-> ->]], H4 as [[-> ->]|[-> ->]];
    node_eval; reflexivity.
Qed.

Lemma two_hops_over_a_chain_witness :
  visited_from Chain.db Chain.st (seed_frontier Chain.db "xena")
  = [("person", 1); ("person", 2); ("person", 3)]
  /\ filtered_relationships (search_and_build_subgraph Chain.db Chain.st "xena")
     = [Sample.link 1 1 2 true FRIEND 80; Sample.link 2 2 3 true FRIEND 80].
Proof.
  apply (two_hops_over_a_chain Chain.db Chain.st "xena"
           ("person", 1) ("person", 2) ("person", 3) ("person", 4) ("person", 5)
           (Sample.link 1 1 2 true FRIEND 80) (Sample.link 2 2 3 true FRIEND 80)
           (Sample.link 3 3 4 true FRIEND 80) (Sample.link 4 4 5 true FRIEND 80));
    try reflexivity; try (left; split; reflexivity).
  repeat constructor; simpl; intuition congruence.
Defined.

(** ** Graph projection: wire ids *)

Lemma in_enumerate {A} (l : list A) (i : nat) (x : A) :
  In (i, x) (enumerate l) -> In x l.
Proof. unfold enumerate. apply in_combine_r. Qed.

(** Every node of the render graph comes from a filtered account or
    contact. *)
Lemma graph_nodes_origin (st : RelationshipState.t) (n : Dict) :
  In n (graph_nodes st) ->
  (exists idx acc, In acc (filtered_accounts st) /\ n = account_node st idx acc)
  \/ (exists idx con, In con (filtered_contacts st) /\ n = contact_node st idx con).
Proof.
  unfold graph_nodes. intros H. apply in_app_or in H. destruct H as [H|H];
    apply in_map_iff in H; destruct H as [[idx x] [<- Hin]];
    apply in_enumerate in Hin; [left | right]; eauto.
Qed.

(** Every edge of the render graph is the employment edge of a filtered
    contact or the edge of a filtered relationship. *)
Lemma graph_edges_origin (st : RelationshipState.t) (e : Dict) :
  In e (graph_edges st) ->
  (exists con, In con (filtered_contacts st) /\ In e (employment_edge st con))
  \/ (exists rel, In rel (filtered_relationships st)
                  /\ In e (relationship_edge st rel)).
Proof.
  unfold graph_edges. intros H. apply in_app_or in H. destruct H as [H|H];
    apply in_flat_map in H; destruct H as [x [Hin He]]; [left | right]; eauto.
Qed.

Lemma employment_edge_shape (st : RelationshipState.t) (con : Contact.t) (e : Dict) :
  In e (employment_edge st con) ->
  exists acc_id,
    Contact.account_id con = Some acc_id
    /\ In acc_id (map Account.id (filtered_accounts st))
    /\ lookup "id" e
       = Some (VStr ("emp-" ++ Py.str_of_int (Contact.id con) ++ "-"
                            ++ Py.str_of_int acc_id))
    /\ lookup "source" e = Some (VStr ("acc-" ++ Py.str_of_int acc_id))
    /\ lookup "target" e
       = Some (VStr ("con-" ++ Py.str_of_int (Contact.id con)))
    /\ lookup "animated" e = Some (VBool false)
    /\ lookup "label" e = None.
Proof.
  unfold employment_edge.
  destruct (Contact.account_id con) as [a|]; [|intros []].
  destruct (negb (a =? 0)
            && mem Z.eqb a (set_of Z.eqb (map Account.id (filtered_accounts st))))
    eqn:E; [|intros []].
  intros [<-|[]]. exists a. repeat split.
  apply andb_true_iff in E. destruct E as [_ E].
  unfold mem in E. apply existsb_exists in E. destruct E as [x [Hx Heq]].
  apply Z.eqb_eq in Heq. subst x.
  revert Hx. unfold set_of.
  assert (forall l acc, In a (fold_left (fun s x => set_add Z.eqb x s) l acc) ->
                        In a l \/ In a acc) as Hfold.
  { induction l as [|y l IH]; simpl; intros acc H; [now right|].
    apply IH in H. destruct H as [H|H]; [now left; right|].
    unfold set_add in H. destruct (mem Z.eqb y acc); [now right|].
    apply in_app_or in H. destruct H as [H|[H|[]]]; [now right | now left; left]. }
  intros Hx. apply Hfold in Hx. destruct Hx as [Hx|[]]. exact Hx.
Qed.

Lemma relationship_edge_ids (st : RelationshipState.t) (rel : Relationship.t)
  (e : Dict) :
  In e (relationship_edge st rel) ->
  lookup "id" e = Some (VStr ("rel-" ++ Py.str_of_int (Relationship.id rel)))
  /\ lookup "source" e
     = Some (VStr ((if String.eqb (Relationship.source_type rel) "company"
                    then "acc-" else "con-")
                   ++ Py.str_of_int (Relationship.source_id rel)))
  /\ lookup "target" e
     = Some (VStr ((if String.eqb (Relationship.target_type rel) "company"
                    then "acc-" else "con-")
                   ++ Py.str_of_int (Relationship.target_id rel))).
Proof.
  unfold relationship_edge.
  destruct (negb (Relationship.is_active rel) && negb (show_historic st));
    [intros []|].
  intros [<-|[]].
  destruct (Relationship.is_directed rel), (Relationship.is_active rel),
    (RelationshipType_eqb (Relationship.relationship_type rel) EMPLOYMENT),
    (simplify_edges st); repeat split.
Qed.

(** C5, as stated, fails for the employment edges: the id carries the
    contact's id first and the account's id second, while the edge's declared
    source is the account and its target the contact.  For account 1 and its
    contact 2 the edge from [acc-1] to [con-2] has id [emp-2-1], not
    [emp-1-2]. *)
Lemma employment_edge_id_is_target_then_source :
  map (fun e => (lookup "id" e, lookup "source" e, lookup "target" e))
      (graph_edges Office.st)
  = [ (Some (VStr "emp-2-1"), Some (VStr "acc-1"), Some (VStr "con-2")) ]
  /\ "emp-2-1" <> "emp-1-2".
Proof. split; [vm_compute; reflexivity | discriminate]. Qed.

(** C5 (amended): every node of the render graph has id [acc-<id>] (group
    [company]) for a filtered account or [con-<id>] (group [person]) for a
    filtered contact; every edge is either a relationship edge with id
    [rel-<id>], or an employment edge with id [emp-<contactId>-<accountId>]
    whose declared source is [acc-<accountId>] and whose declared target is
    [con-<contactId>]: the id names the target's numeric id first and the
    source's second. *)
Theorem wire_id_formats (st : RelationshipState.t) :
  (forall n, In n (graph_nodes st) ->
     (exists acc, In acc (filtered_accounts st)
        /\ lookup "id" n = Some (VStr ("acc-" ++ Py.str_of_int (Account.id acc)))
        /\ lookup "group" n = Some (VStr "company"))
     \/ (exists con, In con (filtered_contacts st)
           /\ lookup "id" n
              = Some (VStr ("con-" ++ Py.str_of_int (Contact.id con)))
           /\ lookup "group" n = Some (VStr "person")))
  /\ (forall e, In e (graph_edges st) ->
        (exists rel, In rel (filtered_relationships st)
           /\ lookup "id" e
              = Some (VStr ("rel-" ++ Py.str_of_int (Relationship.id rel))))
        \/ (exists con acc_id, In con (filtered_contacts st)
              /\ Contact.account_id con = Some acc_id
              /\ lookup "id" e
                 = Some (VStr ("emp-" ++ Py.str_of_int (Contact.id con) ++ "-"
                                      ++ Py.str_of_int acc_id))
              /\ lookup "source" e = Some (VStr ("acc-" ++ Py.str_of_int acc_id))
              /\ lookup "target" e
                 = Some (VStr ("con-" ++ Py.str_of_int (Contact.id con))))).
Proof.
  split.
  - intros n Hn. apply graph_nodes_origin in Hn.
    destruct Hn as [[idx [acc [Hin ->]]]|[idx [con [Hin ->]]]];
      [left; exists acc | right; exists con]; repeat split; assumption.
  - intros e He. apply graph_edges_origin in He.
    destruct He as [[con [Hin He]]|[rel [Hin He]]].
    + right. apply employment_edge_shape in He.
      destruct He as [a [Hacc [_ [Hid [Hs [Ht _]]]]]].
      exists con, a. auto.
    + left. exists rel. split; [assumption|].
      now apply relationship_edge_ids in He.
Qed.

(** ** Graph projection: level of detail *)

Lemma SFcompare_Lt_swap (x y : spec_float) :
  SFcompare x y = Some Lt -> SFcompare y x = Some Gt.
Proof.
  destruct x as [[]|[]| |[] mx ex], y as [[]|[]| |[] my ey];
    unfold SFcompare; try congruence;
    change (Pos.compare_cont Eq my mx) with (Pos.compare my mx);
    change (Pos.compare_cont Eq mx my) with (Pos.compare mx my);
    rewrite (Z.compare_antisym ex ey), (Pos.compare_antisym mx my);
    destruct (Z.compare ex ey); simpl; try congruence;
    destruct (Pos.compare mx my); simpl; congruence.
Qed.

(** A float below [y] is not at least [y]. *)
Lemma ltb_not_leb (x y : float) :
  PrimFloat.ltb x y = true -> PrimFloat.leb y x = false.
Proof.
  rewrite ltb_spec, leb_spec. unfold SFltb, SFleb.
  destruct (SFcompare (Prim2SF x) (Prim2SF y)) as [[]|] eqn:E; try discriminate.
  intros _. now rewrite (SFcompare_Lt_swap _ _ E).
Qed.

(** C6, as stated, fails below zoom 0.5: the simplified edge keeps its
    particle animation as long as there are at most 100 nodes, and a
    soft-deleted edge keeps its label.  At zoom 0.3 with two nodes the active
    edge [rel-1] is animated and the deleted edge [rel-2] is labelled. *)
Lemma simplified_edge_is_still_animated :
  PrimFloat.ltb (zoom_level Zoomed.st) 0.5 = true
  /\ total_nodes Zoomed.st = 2
  /\ map (fun e => (lookup "id" e, lookup "animated" e, lookup "label" e))
         (graph_edges Zoomed.st)
     = [ (Some (VStr "rel-1"), Some (VBool true), None);
         (Some (VStr "rel-2"), Some (VBool false),
          Some (VStr "enemy (Deleted)")) ].
Proof. vm_compute. repeat split. Qed.

(** C6 (amended): for every zoom level, node labels are empty when zoom is
    below 0.6; node sizes are the reduced ones (50px for companies, 30px for
    people, instead of 100px and 60px) exactly when zoom is below 0.4; the
    edge of an active relationship that is not of type employment has no label
    and the thin stroke when zoom is below 0.5, and its particle animation is
    on exactly when there are at most 100 nodes, at every zoom; and when there
    are more than 100 nodes no edge is animated, at every zoom. *)
Theorem level_of_detail (st : RelationshipState.t) :
  (PrimFloat.ltb (zoom_level st) 0.6 = true ->
   forall n, In n (graph_nodes st) -> lookup2 "data" "label" n = Some (VStr ""))
  /\ (forall n, In n (graph_nodes st) ->
        lookup2 "style" "height" n = lookup2 "style" "width" n
        /\ ((lookup "group" n = Some (VStr "company")
             /\ lookup2 "style" "width" n
                = Some (VStr (if PrimFloat.ltb (zoom_level st) 0.4
                              then "50px" else "100px")))
            \/ (lookup "group" n = Some (VStr "person")
                /\ lookup2 "style" "width" n
                   = Some (VStr (if PrimFloat.ltb (zoom_level st) 0.4
                                 then "30px" else "60px")))))
  /\ (forall rel e,
        In rel (filtered_relationships st) -> In e (relationship_edge st rel) ->
        Relationship.is_active rel = true ->
        Relationship.relationship_type rel <> EMPLOYMENT ->
        lookup "animated" e = Some (VBool (total_nodes st <=? 100))
        /\ (PrimFloat.ltb (zoom_level st) 0.5 = true ->
            lookup "label" e = None
            /\ lookup2 "style" "strokeWidth" e = Some (VInt 1)))
  /\ (100 < total_nodes st ->
      forall e, In e (graph_edges st) -> lookup "animated" e = Some (VBool false)).
Proof.
  split; [|split; [|split]].
  - intros Hzoom n Hn. apply ltb_not_leb in Hzoom.
    apply graph_nodes_origin in Hn.
    destruct Hn as [[idx [acc [_ ->]]]|[idx [con [_ ->]]]];
      unfold account_node, contact_node, show_labels, lookup2; simpl;
      now rewrite Hzoom.
  - intros n Hn. apply graph_nodes_origin in Hn.
    destruct Hn as [[idx [acc [_ ->]]]|[idx [con [_ ->]]]];
      (split; [reflexivity|]); [left | right]; split; reflexivity.
  - intros rel e _ He Hact Hty.
    assert (RelationshipType_eqb (Relationship.relationship_type rel) EMPLOYMENT
            = false) as Hemp.
    { destruct (Relationship.relationship_type rel); try reflexivity.
      now contradiction Hty. }
    revert He. unfold relationship_edge. rewrite Hact, Hemp. simpl negb.
    cbn [andb]. intros [<-|[]].
    unfold simplify_edges, should_animate_particles.
    destruct (Relationship.is_directed rel),
      (PrimFloat.ltb (zoom_level st) 0.5);
      (split; [reflexivity | intros; try discriminate; split; reflexivity]).
  - intros Hmany e He. apply graph_edges_origin in He.
    destruct He as [[con [_ He]]|[rel [_ He]]].
    + apply employment_edge_shape in He. now destruct He as [a H].
    + assert (should_animate_particles st = false) as Hpart.
      { unfold should_animate_particles. apply Z.leb_gt. exact Hmany. }
      revert He. unfold relationship_edge.
      destruct (negb (Relationship.is_active rel) && negb (show_historic st));
        [intros []|].
      intros [<-|[]]. rewrite Hpart.
      destruct (Relationship.is_directed rel), (Relationship.is_active rel),
        (RelationshipType_eqb (Relationship.relationship_type rel) EMPLOYMENT),
        (simplify_edges st); reflexivity.
Qed.

Lemma level_of_detail_witness :
  lookup2 "data" "label"
    (contact_node Zoomed.st 0 (Sample.person 1 "Xena" None)) = Some (VStr "")
  /\ (exists e,
        In e (relationship_edge Zoomed.st (Sample.link 1 1 2 true FRIEND 80))
        /\ lookup "animated" e = Some (VBool true)
        /\ lookup "label" e = None)
  /\ (exists e,
        In e (graph_edges Zoomed.crowded)
        /\ lookup "animated" e = Some (VBool false)).
Proof.
  split; [|split].
  - apply (proj1 (level_of_detail Zoomed.st) eq_refl).
    left; reflexivity.
  - eexists. split; [left; reflexivity|].
    assert (Relationship.relationship_type (Sample.link 1 1 2 true FRIEND 80)
            <> EMPLOYMENT) as Hty by discriminate.
    destruct (proj1 (proj2 (proj2 (level_of_detail Zoomed.st)))
                (Sample.link 1 1 2 true FRIEND 80) _
                (or_introl eq_refl) (or_introl eq_refl) eq_refl Hty)
      as [Hanim Hsimple].
    split; [exact Hanim | exact (proj1 (Hsimple eq_refl))].
  - assert (100 < total_nodes Zoomed.crowded) as Hmany by (vm_compute; reflexivity).
    eexists. split; [left; reflexivity|].
    apply (proj2 (proj2 (proj2 (level_of_detail Zoomed.crowded))) Hmany).
    left; reflexivity.
Defined.

(** ** Top-connected selection *)

Lemma Node_eqb_sym (a b : Node) : Node_eqb a b = Node_eqb b a.
Proof.
  destruct (Node_eqb b a) eqn:E.
  - apply Node_eqb_eq in E. subst. apply Node_eqb_refl.
  - destruct (Node_eqb a b) eqn:E'; [|reflexivity].
    apply Node_eqb_eq in E'. subst. rewrite Node_eqb_refl in E. discriminate.
Qed.

Lemma mem_In (n : Node) (s : list Node) : mem Node_eqb n s = true <-> In n s.
Proof.
  unfold mem. rewrite existsb_exists. split.
  - intros [x [Hin Hx]]. apply Node_eqb_eq in Hx. now subst.
  - intros H. exists n. split; [assumption | apply Node_eqb_refl].
Qed.

Lemma set_add_In (x y : Node) (s : list Node) :
  In y (set_add Node_eqb x s) <-> y = x \/ In y s.
Proof.
  unfold set_add. destruct (mem Node_eqb x s) eqn:E.
  - apply mem_In in E. split; [auto | intros [->|H]; assumption].
  - rewrite in_app_iff. simpl. intuition.
Qed.

Lemma set_add_NoDup (x : Node) (s : list Node) :
  NoDup s -> NoDup (set_add Node_eqb x s).
Proof.
  intros H. unfold set_add. destruct (mem Node_eqb x s) eqn:E; [assumption|].
  apply NoDup_app; [assumption | repeat constructor; intros [] |].
  intros y Hy [<-|[]]. apply mem_In in Hy. congruence.
Qed.

Lemma fold_set_add_spec (l acc : list Node) :
  NoDup acc ->
  NoDup (fold_left (fun s x => set_add Node_eqb x s) l acc)
  /\ forall y, In y (fold_left (fun s x => set_add Node_eqb x s) l acc)
               <-> In y l \/ In y acc.
Proof.
  revert acc. induction l as [|x l IH]; simpl; intros acc Hacc.
  - split; [assumption | intuition].
  - destruct (IH _ (set_add_NoDup x acc Hacc)) as [Hnd Hin]. split; [assumption|].
    intros y. rewrite Hin, set_add_In. intuition.
Qed.

Lemma set_of_spec (l : list Node) :
  NoDup (set_of Node_eqb l) /\ forall y, In y (set_of Node_eqb l) <-> In y l.
Proof.
  destruct (fold_set_add_spec l [] (NoDup_nil _)) as [Hnd Hin].
  split; [exact Hnd|]. intros y. unfold set_of. rewrite Hin. simpl. intuition.
Qed.

Lemma mem_set_of (n : Node) (l : list Node) :
  mem Node_eqb n (set_of Node_eqb l) = mem Node_eqb n l.
Proof.
  apply eq_true_iff_eq. rewrite !mem_In. apply set_of_spec.
Qed.

Lemma counter_incr_keys (k : Node) (c : list (Node * Z)) :
  map fst (counter_incr k c) = set_add Node_eqb k (map fst c).
Proof.
  unfold set_add, mem.
  induction c as [|[k' n] c IH]; simpl; [reflexivity|].
  rewrite (Node_eqb_sym k k').
  destruct (Node_eqb k' k); simpl; [reflexivity|].
  rewrite IH. now destruct (existsb (Node_eqb k) (map fst c)).
Qed.

Lemma counter_incr_get (k n : Node) (c : list (Node * Z)) :
  counter_get (counter_incr k c) n
  = counter_get c n + (if Node_eqb k n then 1 else 0).
Proof.
  unfold counter_get.
  induction c as [|[k' v] c IH]; simpl.
  - destruct (Node_eqb k n); reflexivity.
  - destruct (Node_eqb k' k) eqn:Ek; simpl.
    + apply Node_eqb_eq in Ek. subst k'.
      destruct (Node_eqb k n); simpl; lia.
    + destruct (Node_eqb k' n) eqn:En; simpl.
      * apply Node_eqb_eq in En. subst k'.
        rewrite Node_eqb_sym, Ek. lia.
      * exact IH.
Qed.

Lemma count_degrees_fold (rels : list Relationship.t) (c : list (Node * Z)) :
  let c' := fold_left (fun counter r =>
                         counter_incr (tgt r) (counter_incr (src r) counter))
                      rels c in
  map fst c' = fold_left (fun s x => set_add Node_eqb x s) (endpoints rels) (map fst c)
  /\ forall n, counter_get c' n = counter_get c n + occurrences n rels.
Proof.
  revert c. induction rels as [|r rels IH]; intros c; simpl.
  - split; [reflexivity | intros n; unfold occurrences; simpl; lia].
  - destruct (IH (counter_incr (tgt r) (counter_incr (src r) c))) as [Hk Hg].
    split.
    + rewrite Hk, !counter_incr_keys. reflexivity.
    + intros n. rewrite Hg, !counter_incr_get. unfold occurrences. simpl.
      destruct (Node_eqb (src r) n), (Node_eqb (tgt r) n);
        cbn [List.length]; lia.
Qed.

Lemma count_degrees_spec (rels : list Relationship.t) :
  map fst (count_degrees rels) = first_seen rels
  /\ forall n, counter_get (count_degrees rels) n = occurrences n rels.
Proof.
  destruct (count_degrees_fold rels []) as [Hk Hg]. split; [exact Hk|].
  intros n. exact (Hg n).
Qed.

(** In a dictionary (keys without repetition) an item's value is what its
    key is mapped to. *)
Lemma counter_get_item (c : list (Node * Z)) (x : Node * Z) :
  NoDup (map fst c) -> In x c -> counter_get c (fst x) = snd x.
Proof.
  unfold counter_get. induction c as [|y c IH]; simpl; [intros _ []|].
  intros Hnd [->|Hin].
  - now rewrite Node_eqb_refl.
  - inversion Hnd as [|? ? Hnotin Hnd']; subst.
    destruct (Node_eqb (fst y) (fst x)) eqn:E.
    + apply Node_eqb_eq in E. exfalso. apply Hnotin. rewrite E.
      now apply in_map.
    + now apply IH.
Qed.

Lemma before_cons {A} (l : list A) (a x y : A) :
  before l x y -> before (a :: l) x y.
Proof. intros [l1 [l2 [l3 ->]]]. now exists (a :: l1), l2, l3. Qed.

Lemma before_head {A} (l : list A) (x y : A) : In y l -> before (x :: l) x y.
Proof.
  intros H. apply in_split in H. destruct H as [l2 [l3 ->]].
  now exists [], l2, l3.
Qed.

Lemma before_map {A B} (f : A -> B) (l : list A) (x y : A) :
  before l x y -> before (map f l) (f x) (f y).
Proof.
  intros [l1 [l2 [l3 ->]]]. exists (map f l1), (map f l2), (map f l3).
  now rewrite map_app; simpl; rewrite map_app.
Qed.

Lemma insert_desc_perm (x : Node * Z) (l : list (Node * Z)) :
  Permutation (insert_desc x l) (x :: l).
Proof.
  induction l as [|y l IH]; simpl; [reflexivity|].
  destruct (snd y <=? snd x); [reflexivity|].
  rewrite IH. apply perm_swap.
Qed.

Lemma sorted_desc_perm (l : list (Node * Z)) : Permutation (sorted_desc l) l.
Proof.
  induction l as [|x l IH]; simpl; [reflexivity|].
  unfold sorted_desc in *. simpl. rewrite insert_desc_perm. now constructor.
Qed.

Lemma insert_desc_sorted (R : Node * Z -> Node * Z -> Prop)
  (x : Node * Z) (s : list (Node * Z)) :
  (forall y, In y s -> snd x < snd y -> R y x) ->
  (forall y, In y s -> snd y <= snd x -> R x y) ->
  (forall y z, R y z -> snd z <= snd y) ->
  StronglySorted R s -> StronglySorted R (insert_desc x s).
Proof.
  intros Hgt Hle Hmono Hs.
  induction Hs as [|y s Hs IH Hy]; simpl.
  - repeat constructor.
  - destruct (snd y <=? snd x) eqn:E.
    + apply Z.leb_le in E. constructor; [now constructor|].
      constructor; [apply Hle; simpl; auto|].
      apply Forall_forall. intros z Hz. apply Hle; [simpl; auto|].
      rewrite Forall_forall in Hy. specialize (Hmono _ _ (Hy z Hz)). lia.
    + apply Z.leb_gt in E. constructor.
      * apply IH; intros; [apply Hgt | apply Hle]; simpl; auto.
      * apply Forall_forall. intros z Hz.
        apply (Permutation_in _ (insert_desc_perm x s)) in Hz.
        destruct Hz as [<-|Hz]; [apply Hgt; simpl; auto|].
        rewrite Forall_forall in Hy. now apply Hy.
Qed.

Lemma StronglySorted_weaken {A} (R R' : A -> A -> Prop) (l : list A) :
  (forall x y, R x y -> R' x y) -> StronglySorted R l -> StronglySorted R' l.
Proof.
  intros H Hs. induction Hs; constructor; [assumption|].
  eapply Forall_impl; [|eassumption]. auto.
Qed.

Lemma sorted_desc_sorted (l : list (Node * Z)) :
  StronglySorted (ranks_above l) (sorted_desc l).
Proof.
  induction l as [|x l IH]; [constructor|].
  change (sorted_desc (x :: l)) with (insert_desc x (sorted_desc l)).
  apply insert_desc_sorted.
  - intros y _ Hlt. now left.
  - intros y Hy Hle.
    apply (Permutation_in _ (sorted_desc_perm l)) in Hy.
    destruct (Z.eq_dec (snd y) (snd x)) as [E|E].
    + right. split; [congruence | now apply before_head].
    + left. lia.
  - intros y z [H|[H _]]; lia.
  - eapply StronglySorted_weaken; [|exact IH].
    intros y z [H|[H Hb]]; [now left | right; split; [assumption|]].
    now apply before_cons.
Qed.

Lemma StronglySorted_app_inv {A} (R : A -> A -> Prop) (l1 l2 : list A) :
  StronglySorted R (l1 ++ l2) ->
  forall x y, In x l1 -> In y l2 -> R x y.
Proof.
  induction l1 as [|a l1 IH]; simpl; intros Hs x y Hx Hy; [destruct Hx|].
  inversion Hs as [|? ? Hs' Hall]; subst.
  destruct Hx as [<-|Hx].
  - rewrite Forall_forall in Hall. apply Hall, in_or_app. now right.
  - now apply IH.
Qed.

Lemma StronglySorted_app_l {A} (R : A -> A -> Prop) (l1 l2 : list A) :
  StronglySorted R (l1 ++ l2) -> StronglySorted R l1.
Proof.
  induction l1 as [|a l1 IH]; simpl; intros Hs; [constructor|].
  inversion Hs as [|? ? Hs' Hall]; subst. constructor; [now apply IH|].
  rewrite Forall_forall in *. intros x Hx. apply Hall, in_or_app. now left.
Qed.

Lemma StronglySorted_map_in {A B} (f : A -> B) (R : A -> A -> Prop)
  (R' : B -> B -> Prop) (l : list A) :
  (forall x y, In x l -> In y l -> R x y -> R' (f x) (f y)) ->
  StronglySorted R l -> StronglySorted R' (map f l).
Proof.
  intros H Hs. induction Hs as [|a l Hs IH Hall]; simpl; constructor.
  - apply IH. intros x y Hx Hy. apply H; simpl; auto.
  - rewrite Forall_forall in *. intros b Hb.
    apply in_map_iff in Hb. destruct Hb as [x [<- Hx]].
    apply H; simpl; auto.
Qed.

Lemma ranks_above_outranks (rels : list Relationship.t) (x y : Node * Z) :
  In x (count_degrees rels) -> In y (count_degrees rels) ->
  ranks_above (count_degrees rels) x y -> outranks rels (fst x) (fst y).
Proof.
  destruct (count_degrees_spec rels) as [Hkeys Hget].
  assert (NoDup (map fst (count_degrees rels))) as Hnd.
  { rewrite Hkeys. apply set_of_spec. }
  intros Hx Hy. unfold ranks_above, outranks.
  rewrite <- !Hget, !(counter_get_item _ _ Hnd) by assumption.
  intros [H|[H Hb]]; [now left | right; split; [assumption|]].
  rewrite <- Hkeys. now apply before_map.
Qed.

Lemma in_firstn {A} (n : nat) (l : list A) (x : A) :
  In x (firstn n l) -> In x l.
Proof.
  intros H. rewrite <- (firstn_skipn n l). apply in_or_app. now left.
Qed.

Lemma in_skipn {A} (n : nat) (l : list A) (x : A) :
  In x (skipn n l) -> In x l.
Proof.
  intros H. rewrite <- (firstn_skipn n l). apply in_or_app. now right.
Qed.

(** C8, as stated, fails on a relationship from a node to itself, which the
    side panel can store: it is one relationship in which the node appears,
    and it adds two to the node's degree.  With 1 -> 1, 2 -> 3 and 2 -> 4
    scanned, person 1 appears in one relationship and person 2 in two, yet the
    counter gives person 1 the degree 2 and the top node for limit 1 is
    person 1, first seen among the two of degree 2. *)
Lemma self_relationship_counts_twice :
  tbl_relationship
    (out_db (create_relationship_from_panel
               (mkDatabase [] Sample.people [] [])
               (Sample.panel "con-1" 1 "person" "friend" 80) 0 0))
  = [Sample.link 1 1 1 true FRIEND 80]
  /\ incident ("person", 1) (scan_relationships Loop.db Loop.st) = 1
  /\ incident ("person", 2) (scan_relationships Loop.db Loop.st) = 2
  /\ counter_get (count_degrees (scan_relationships Loop.db Loop.st))
       ("person", 1) = 2
  /\ top_nodes Loop.db Loop.st 1 = [("person", 1)].
Proof. vm_compute. repeat split. Qed.

(** C8 (amended): in top-connected mode the scan takes the active
    relationships, or all of them when [show_historic] is set; the degree of a
    node reference is the number of times it occurs as an endpoint of a scanned
    relationship, as source plus as target; the selected node references are
    the first [limit] (all of them when there are fewer) of the ranking by
    degree, largest first, equal degrees in the order the scan first meets
    them: every selected reference is ranked above every reference left out,
    and the selection itself is in rank order; and the visible relationships
    are exactly the scanned ones whose two endpoints are selected. *)
Theorem top_connected_selection
  (db : Database) (st : RelationshipState.t) (limit : Z) :
  let rels := scan_relationships db st in
  let selected := top_nodes db st limit in
  rels = (if show_historic st then tbl_relationship db
          else filter Relationship.is_active (tbl_relationship db))
  /\ (forall n, counter_get (count_degrees rels) n = occurrences n rels)
  /\ (exists rest,
        Permutation (selected ++ rest) (first_seen rels)
        /\ List.length selected
           = Nat.min (Z.to_nat limit) (List.length (first_seen rels))
        /\ forall n m, In n selected -> In m rest -> outranks rels n m)
  /\ StronglySorted (outranks rels) selected
  /\ filtered_relationships (get_most_connected_nodes db st limit)
     = filter (fun r => mem Node_eqb (src r) selected
                        && mem Node_eqb (tgt r) selected) rels.
Proof.
  intros rels selected.
  destruct (count_degrees_spec rels) as [Hkeys Hget].
  pose proof (sorted_desc_perm (count_degrees rels)) as Hperm.
  pose proof (sorted_desc_sorted (count_degrees rels)) as Hsorted.
  assert (selected
          = map fst (firstn (Z.to_nat limit) (sorted_desc (count_degrees rels))))
    as Hsel by reflexivity.
  rewrite <- (firstn_skipn (Z.to_nat limit)) in Hsorted.
  split; [|split; [|split; [|split]]].
  - unfold rels, scan_relationships. now destruct (show_historic st).
  - exact Hget.
  - exists (map fst (skipn (Z.to_nat limit) (sorted_desc (count_degrees rels)))).
    split; [|split].
    + rewrite Hsel, <- map_app, firstn_skipn, <- Hkeys.
      now apply Permutation_map.
    + rewrite Hsel, length_map, length_firstn, <- Hkeys, length_map.
      now rewrite (Permutation_length Hperm).
    + intros n m Hn Hm. rewrite Hsel in Hn.
      apply in_map_iff in Hn. destruct Hn as [x [<- Hx]].
      apply in_map_iff in Hm. destruct Hm as [y [<- Hy]].
      apply ranks_above_outranks.
      * apply (Permutation_in _ Hperm). eapply in_firstn, Hx.
      * apply (Permutation_in _ Hperm). eapply in_skipn, Hy.
      * eapply StronglySorted_app_inv; eassumption.
  - rewrite Hsel. apply StronglySorted_app_l in Hsorted.
    eapply StronglySorted_map_in; [|exact Hsorted].
    intros x y Hx Hy. apply ranks_above_outranks;
      apply (Permutation_in _ Hperm); eapply in_firstn; eassumption.
  - unfold get_most_connected_nodes. simpl filtered_relationships.
    apply filter_ext. intros r. unfold between.
    now rewrite !mem_set_of.
Qed.

(** ** Edge colour *)

(** The gradient of [get_edge_color]: red at -100, gray at 0, green at 100,
    and a score outside [-100, 100] coloured as the nearest bound. *)
Theorem edge_color_endpoints_and_clamping :
  get_edge_color (-100) = "#ef4444"
  /\ get_edge_color 0 = "#9ca3af"
  /\ get_edge_color 100 = "#10b981"
  /\ (forall score, 100 <= score -> get_edge_color score = get_edge_color 100)
  /\ (forall score, score <= -100 ->
        get_edge_color score = get_edge_color (-100)).
Proof.
  split; [vm_compute; reflexivity|].
  split; [vm_compute; reflexivity|].
  split; [vm_compute; reflexivity|].
  split; intros score H; unfold get_edge_color.
  - rewrite (Z.min_l 100 score) by lia. reflexivity.
  - rewrite (Z.min_r 100 score), (Z.max_l (-100) score) by lia. reflexivity.
Qed.

(** * Further properties *)

From Stdlib Require DecimalPos.

(** ** Wire ids: printing and parsing *)

Lemma digits_of_uint (d : Decimal.uint) (acc : Z) :
  Py.digits acc true (digit_chars d) = Some (uint_value acc d).
Proof.
  revert acc. induction d; intros acc; [reflexivity | ..];
    unfold digit_chars in *; cbn; apply IHd.
Qed.

Lemma uint_value_acc (d : Decimal.uint) (p : positive) :
  uint_value (Z.pos p) d = Z.pos (Pos.of_uint_acc d p).
Proof.
  revert p. induction d; intros p; cbn [uint_value Pos.of_uint_acc];
    [reflexivity | ..]; rewrite <- IHd; f_equal. all: lia.
Qed.

Lemma uint_value_of_uint (d : Decimal.uint) :
  uint_value 0 d = Z.of_uint d.
Proof.
  unfold Z.of_uint.
  induction d; simpl; try exact IHd; try reflexivity;
    apply (uint_value_acc d).
Qed.

Lemma digits_of_uint_start (d : Decimal.uint) :
  d <> Decimal.Nil ->
  Py.digits 0 false (digit_chars d) = Some (uint_value 0 d).
Proof.
  destruct d; intros H; [contradiction | ..]; unfold digit_chars; cbn;
    apply digits_of_uint.
Qed.

Lemma digit_chars_are_digits (d : Decimal.uint) :
  Forall (fun c => Py.is_digit c = true) (digit_chars d).
Proof.
  induction d; unfold digit_chars in *; cbn; constructor;
    solve [reflexivity | assumption].
Qed.

Lemma digit_is_no_space (c : ascii) :
  Py.is_digit c = true -> Py.is_space c = false.
Proof.
  unfold Py.is_digit, Py.is_space.
  destruct (Nat.leb_spec 48 (nat_of_ascii c)); [|discriminate].
  intros _. apply orb_false_iff. split; apply andb_false_iff.
  - right. apply Nat.leb_gt. lia.
  - right. apply Nat.leb_gt. lia.
Qed.

Lemma digit_is_no_dash (c : ascii) :
  Py.is_digit c = true -> Ascii.eqb c "-" = false.
Proof.
  intros H. destruct (Ascii.eqb_spec c "-"); [subst; discriminate | reflexivity].
Qed.

Lemma strip_nonspace_ends (cs l : list ascii) (c x : ascii) (cs' : list ascii) :
  cs = c :: cs' -> Py.is_space c = false ->
  rev cs = x :: l -> Py.is_space x = false ->
  Py.strip cs = cs.
Proof.
  intros Hcs Hc Hrev Hx. unfold Py.strip.
  assert (Py.lstrip cs = cs) as -> by (rewrite Hcs; simpl; now rewrite Hc).
  rewrite Hrev. simpl. rewrite Hx. rewrite <- Hrev. apply rev_involutive.
Qed.

(** A digit sequence, possibly after a sign, has nothing to strip. *)
Lemma strip_digit_chars (d : Decimal.uint) (sign : list ascii) :
  d <> Decimal.Nil ->
  Forall (fun c => Py.is_space c = false) sign ->
  Py.strip (sign ++ digit_chars d) = (sign ++ digit_chars d)%list.
Proof.
  intros Hd Hsign.
  assert (Forall (fun c => Py.is_space c = false) (sign ++ digit_chars d)) as Hall.
  { apply Forall_app. split; [assumption|].
    eapply Forall_impl; [|apply digit_chars_are_digits].
    apply digit_is_no_space. }
  assert (sign ++ digit_chars d <> [])%list as Hne.
  { intros H. apply app_eq_nil in H. destruct H as [_ H].
    destruct d; try contradiction; discriminate. }
  destruct (sign ++ digit_chars d)%list as [|c cs'] eqn:E; [contradiction|].
  assert (rev (c :: cs') <> []) as Hrne.
  { intros H. apply (f_equal (@List.length ascii)) in H.
    rewrite length_rev in H. discriminate. }
  destruct (rev (c :: cs')) as [|x l] eqn:Er; [contradiction|].
  eapply strip_nonspace_ends; [reflexivity | | exact Er |].
  - now inversion Hall.
  - apply Forall_rev in Hall. rewrite Er in Hall. now inversion Hall.
Qed.

Lemma str_of_int_nonneg (n : Z) :
  0 <= n ->
  exists d, d <> Decimal.Nil /\ Z.of_uint d = n
            /\ list_ascii_of_string (Py.str_of_int n) = digit_chars d.
Proof.
  intros Hn. unfold Py.str_of_int. destruct n as [|p|p]; [| |lia].
  - exists (Decimal.D0 Decimal.Nil). repeat split. discriminate.
  - exists (Pos.to_uint p). split; [apply DecimalPos.Unsigned.to_uint_nonnil|]. split.
    + unfold Z.of_uint. now rewrite DecimalPos.Unsigned.of_to.
    + simpl. unfold NilZero.string_of_uint, digit_chars.
      pose proof (DecimalPos.Unsigned.to_uint_nonnil p).
      destruct (Pos.to_uint p); [contradiction | ..]; reflexivity.
Qed.

(** [int(str(n)) == n]. *)
Lemma int_of_str_of_int (n : Z) : Py.int_of_str (Py.str_of_int n) = Some n.
Proof.
  destruct (Z.le_gt_cases 0 n) as [Hn|Hn].
  - destruct (str_of_int_nonneg n Hn) as [d [Hd [Hv Hs]]].
    unfold Py.int_of_str. rewrite Hs.
    pose proof (strip_digit_chars d [] Hd (Forall_nil _)) as Hstrip.
    simpl app in Hstrip. rewrite Hstrip.
    rewrite <- Hv, <- uint_value_of_uint.
    destruct d; [contradiction | ..]; unfold digit_chars; cbn;
      apply digits_of_uint.
  - destruct n as [|p|p]; try lia.
    unfold Py.int_of_str, Py.str_of_int. simpl Z.to_int.
    unfold NilZero.string_of_int.
    assert (list_ascii_of_string (String "-" (NilZero.string_of_uint (Pos.to_uint p)))
            = ["-"%char] ++ digit_chars (Pos.to_uint p))%list as ->.
    { simpl. f_equal. unfold NilZero.string_of_uint, digit_chars.
      pose proof (DecimalPos.Unsigned.to_uint_nonnil p).
      destruct (Pos.to_uint p); [contradiction | ..]; reflexivity. }
    rewrite strip_digit_chars;
      [| apply DecimalPos.Unsigned.to_uint_nonnil | repeat constructor].
    cbn [app]. rewrite digits_of_uint_start by apply DecimalPos.Unsigned.to_uint_nonnil.
    rewrite uint_value_of_uint. unfold Z.of_uint.
    rewrite DecimalPos.Unsigned.of_to. reflexivity.
Qed.

Lemma split_without_separator (sep : ascii) (s : string) :
  Forall (fun c => Ascii.eqb c sep = false) (list_ascii_of_string s) ->
  Py.split sep s = [s].
Proof.
  induction s as [|c s IH]; simpl; intros H; [reflexivity|].
  inversion H as [|? ? Hc Hs]; subst. rewrite Hc, (IH Hs). reflexivity.
Qed.

(** What [s.split("-")] makes of a printed integer. *)
Lemma split_str_of_int (n : Z) :
  Py.split "-" (Py.str_of_int n)
  = if 0 <=? n then [Py.str_of_int n] else [""; Py.str_of_int (- n)].
Proof.
  destruct (Z.leb_spec 0 n) as [Hn|Hn].
  - destruct (str_of_int_nonneg n Hn) as [d [_ [_ Hs]]].
    apply split_without_separator. rewrite Hs.
    eapply Forall_impl; [|apply digit_chars_are_digits].
    apply digit_is_no_dash.
  - destruct n as [|p|p]; try lia.
    change (Py.str_of_int (Z.neg p))
      with (String "-" (Py.str_of_int (Z.pos p))).
    change (- Z.neg p) with (Z.pos p).
    simpl Py.split. f_equal.
    destruct (str_of_int_nonneg (Z.pos p) ltac:(lia)) as [d [_ [_ Hs]]].
    apply split_without_separator. rewrite Hs.
    eapply Forall_impl; [|apply digit_chars_are_digits].
    apply digit_is_no_dash.
Qed.

Lemma int_of_empty : Py.int_of_str "" = None.
Proof. reflexivity. Qed.

(** The wire id [prefix-<n>] decodes to [n] exactly when [n] is not
    negative. *)
Lemma decode_wire_id (prefix : string) (n : Z) :
  Py.split "-" prefix = [prefix] ->
  decode_node (prefix ++ "-" ++ Py.str_of_int n)
  = if 0 <=? n then Some (node_type_of_prefix prefix, n) else None.
Proof.
  intros Hp. unfold decode_node.
  change (prefix ++ "-" ++ Py.str_of_int n)
    with (prefix ++ String "-" (Py.str_of_int n)).
  assert (Py.split "-" (prefix ++ String "-" (Py.str_of_int n))
          = prefix :: Py.split "-" (Py.str_of_int n)) as ->.
  { revert Hp. induction prefix as [|c p IH]; simpl; [reflexivity|].
    destruct (Ascii.eqb c "-"); [discriminate|].
    destruct (Py.split "-" p) as [|q [|q' qs]] eqn:E; try discriminate.
    - intros H. inversion H; subst. discriminate.
    - intros H. inversion H; subst. rewrite IH by reflexivity. reflexivity. }
  rewrite split_str_of_int.
  destruct (0 <=? n).
  - now rewrite int_of_str_of_int.
  - reflexivity.
Qed.

(** The id of every node [graph_data] draws is read back by the handlers as
    the node reference it was drawn for, and the two ends of every
    relationship edge as the two ends of the relationship, whenever the
    numeric id is not negative; a negative id is never read back. *)
Theorem graph_ids_decode (st : RelationshipState.t) :
  (forall n, In n (graph_nodes st) ->
     exists ty id w,
       lookup "group" n = Some (VStr ty)
       /\ lookup "id" n = Some (VStr w)
       /\ ((ty = "company" /\ In id (map Account.id (filtered_accounts st)))
           \/ (ty = "person" /\ In id (map Contact.id (filtered_contacts st))))
       /\ decode_node w = if 0 <=? id then Some (ty, id) else None)
  /\ (forall rel e,
        In rel (filtered_relationships st) -> In e (relationship_edge st rel) ->
        exists ws wt,
          lookup "source" e = Some (VStr ws)
          /\ lookup "target" e = Some (VStr wt)
          /\ decode_node ws
             = (if 0 <=? Relationship.source_id rel
                then Some (if String.eqb (Relationship.source_type rel) "company"
                           then "company" else "person",
                           Relationship.source_id rel)
                else None)
          /\ decode_node wt
             = (if 0 <=? Relationship.target_id rel
                then Some (if String.eqb (Relationship.target_type rel) "company"
                           then "company" else "person",
                           Relationship.target_id rel)
                else None)).
Proof.
  split.
  - intros n Hn. apply graph_nodes_origin in Hn.
    destruct Hn as [[idx [acc [Hin ->]]]|[idx [con [Hin ->]]]].
    + exists "company", (Account.id acc), ("acc-" ++ Py.str_of_int (Account.id acc)).
      repeat split.
      * left. split; [reflexivity | now apply in_map].
      * apply (decode_wire_id "acc"). reflexivity.
    + exists "person", (Contact.id con), ("con-" ++ Py.str_of_int (Contact.id con)).
      repeat split.
      * right. split; [reflexivity | now apply in_map].
      * apply (decode_wire_id "con"). reflexivity.
  - intros rel e _ He. apply relationship_edge_ids in He.
    destruct He as [_ [Hs Ht]]. do 2 eexists.
    split; [exact Hs|]. split; [exact Ht|]. split.
    + destruct (String.eqb (Relationship.source_type rel) "company");
        [apply (decode_wire_id "acc") | apply (decode_wire_id "con")]; reflexivity.
    + destruct (String.eqb (Relationship.target_type rel) "company");
        [apply (decode_wire_id "acc") | apply (decode_wire_id "con")]; reflexivity.
Qed.

Lemma on_connect_undecoded
  (db : Database) (st : RelationshipState.t) (source target : string)
  (t1 t2 : datetime) :
  decode_node source = None \/ decode_node target = None ->
  out_db (on_connect db st source target t1 t2) = db
  /\ yielded (on_connect db st source target t1 t2) = [].
Proof.
  unfold decode_node, on_connect. cbn zeta.
  destruct (Py.split "-" source) as [|sp [|si srest]];
    destruct (Py.split "-" target) as [|tp [|ti trest]];
    try (intros _; split; reflexivity).
  destruct (Py.int_of_str si), (Py.int_of_str ti); simpl;
    intros [H|H]; try discriminate; split; reflexivity.
Qed.

Lemma in_replace_row (r x : Relationship.t) (rows : list Relationship.t) :
  In x (Session.replace_row r rows) -> x = r \/ In x rows.
Proof.
  induction rows as [|y rows IH]; simpl; [intros []|].
  destruct (Relationship.id y =? Relationship.id r); simpl.
  - intros [<-|H]; auto.
  - intros [<-|H]; auto. destruct (IH H); auto.
Qed.

(** The three outcomes of the session block of [on_connect] for two distinct
    nodes: nothing written, one row written back with the same endpoints, or
    one row added from [a] to [b]. *)
Lemma connect_nodes_cases
  (db : Database) (st : RelationshipState.t) (a b : Node) (t1 t2 : datetime) :
  Node_eqb a b = false ->
  let o := connect_nodes db st (fst a) (snd a) (fst b) (snd b) t1 t2 in
  (out_db o = db /\ yielded o = [])
  \/ (exists r r' l,
        In r (tbl_relationship db) /\ src r = a /\ tgt r = b
        /\ r' = Relationship.set_last_updated t1 (Relationship.set_is_active true r)
        /\ out_db o = Session.insert_log l (Session.update_relationship r' db)
        /\ out_state o
           = set_show_side_panel true
               (set_edit_mode "edge"
                  (set_editing_is_directed (Relationship.is_directed r')
                     (set_editing_term (RelationshipTerm_value (Relationship.term r'))
                        (set_editing_relationship_type
                           (RelationshipType_value (Relationship.relationship_type r'))
                           (set_editing_score (Relationship.score r')
                              (set_selected_edge_id
                                 ("rel-" ++ Py.str_of_int (Relationship.id r')) st)))))))
  \/ (exists row,
        tbl_relationship (out_db o) = (tbl_relationship db ++ [row])%list
        /\ src row = a /\ tgt row = b /\ Relationship.is_active row = true
        /\ Relationship.id row
           = Session.next_id (map Relationship.id (tbl_relationship db))
        /\ selected_edge_id (out_state o)
           = "rel-" ++ Py.str_of_int (Relationship.id row)
        /\ edit_mode (out_state o) = "edge").
Proof.
  intros Hab o. subst o. unfold connect_nodes.
  change (String.eqb (fst a) (fst b) && (snd a =? snd b)) with (Node_eqb a b).
  rewrite Hab.
  destruct (Session.first_relationship_between db (fst a) (snd a) (fst b) (snd b))
    as [r|] eqn:Hfirst.
  - destruct (first_between_endpoints _ _ _ _ Hfirst) as [Hin [Hs Ht]].
    destruct (Relationship.is_active r) eqn:Hact.
    + left. split_type_choice; split; reflexivity.
    + right; left. exists r. do 2 eexists.
      split; [exact Hin|]. split; [exact Hs|]. split; [exact Ht|].
      split; [reflexivity|].
      split_type_choice; split; reflexivity.
  - right; right. destruct a, b; split_type_choice; simpl;
      (eexists; split; [reflexivity | repeat split]).
Qed.

Lemma next_id_above (keys : list Z) :
  1 <= Session.next_id keys /\ forall k, In k keys -> k < Session.next_id keys.
Proof.
  unfold Session.next_id.
  induction keys as [|x keys [IH1 IH2]]; cbn [fold_right].
  - split; [lia | intros k []].
  - split; [lia|]. intros k [<-|Hk]; [lia|]. specialize (IH2 k Hk). lia.
Qed.

(** A row appended under the next key is the one that key resolves to. *)
Lemma get_appended_row (rows : list Relationship.t) (row : Relationship.t) :
  Relationship.id row = Session.next_id (map Relationship.id rows) ->
  find (fun r => Relationship.id r =? Relationship.id row) (rows ++ [row])
  = Some row.
Proof.
  intros Hid.
  assert (forall r, In r rows -> Relationship.id r <> Relationship.id row) as Hfresh.
  { intros r Hr. rewrite Hid.
    pose proof (proj2 (next_id_above (map Relationship.id rows))
                  (Relationship.id r) (in_map _ _ _ Hr)). lia. }
  clear Hid. induction rows as [|x rows IH]; simpl.
  - now rewrite Z.eqb_refl.
  - destruct (Relationship.id x =? Relationship.id row) eqn:E.
    + apply Z.eqb_eq in E. exfalso. eapply Hfresh; [left; reflexivity | exact E].
    + apply IH. intros r Hr. apply Hfresh. now right.
Qed.

(** Drag-connect never stores a relationship from a node to itself: a store
    without one stays without one, whatever the two identifiers are. *)
Theorem on_connect_keeps_no_self_relationship
  (db : Database) (st : RelationshipState.t) (source target : string)
  (t1 t2 : datetime) :
  no_self_relationship db ->
  no_self_relationship (out_db (on_connect db st source target t1 t2)).
Proof.
  intros Hdb.
  destruct (decode_node source) as [a|] eqn:Ha;
    [destruct (decode_node target) as [b|] eqn:Hb|].
  - rewrite (on_connect_decoded _ _ _ _ _ _ _ _ Ha Hb).
    destruct (Node_eqb a b) eqn:Hab.
    + unfold connect_nodes.
      change (String.eqb (fst a) (fst b) && (snd a =? snd b)) with (Node_eqb a b).
      now rewrite Hab.
    + destruct (connect_nodes_cases db st a b t1 t2 Hab)
        as [[-> _]|[[r [r' [l [Hin [Hs [Ht [Hr' [-> _]]]]]]]]|[row [Hrows [Hs [Ht _]]]]]].
      * exact Hdb.
      * intros x Hx. simpl in Hx. apply in_replace_row in Hx.
        destruct Hx as [->|Hx]; [|now apply Hdb].
        subst r'. change (src r <> tgt r). now apply Hdb.
      * intros x Hx. rewrite Hrows in Hx. apply in_app_or in Hx.
        destruct Hx as [Hx|[<-|[]]]; [now apply Hdb|].
        rewrite Hs, Ht. intros ->. rewrite Node_eqb_refl in Hab. discriminate.
  - now rewrite (proj1 (on_connect_undecoded db st source target t1 t2
                          (or_intror Hb))).
  - now rewrite (proj1 (on_connect_undecoded db st source target t1 t2
                          (or_introl Ha))).
Qed.

Lemma on_connect_keeps_no_self_relationship_witness :
  no_self_relationship Sample.one_active
  /\ no_self_relationship
       (out_db (on_connect Sample.one_active (Sample.state 1 false)
                  "con-3" "con-3" 10 11))
  /\ no_self_relationship
       (out_db (on_connect Sample.one_active (Sample.state 1 false)
                  "con-2" "con-3" 10 11)).
Proof.
  assert (no_self_relationship Sample.one_active) as H.
  { intros r [<-|[]]. discriminate. }
  split; [exact H|]. split.
  - exact (on_connect_keeps_no_self_relationship
             Sample.one_active (Sample.state 1 false) "con-3" "con-3" 10 11 H).
  - exact (on_connect_keeps_no_self_relationship
             Sample.one_active (Sample.state 1 false) "con-2" "con-3" 10 11 H).
Defined.

Lemma prefix_rel_split (s : string) :
  String.prefix "rel-" ("rel-" ++ s) = true.
Proof. simpl. now destruct s. Qed.

Lemma delete_selected_relationship (st : RelationshipState.t) (k : Z) :
  edit_mode st = "edge" ->
  selected_edge_id st = "rel-" ++ Py.str_of_int k ->
  delete_current_selection st
  = if 0 <=? k then ReturnSoftDelete k
    else ReturnToast "Nothing selected to delete".
Proof.
  intros Hmode Hsel. unfold delete_current_selection.
  rewrite Hmode, Hsel. cbn [String.eqb Ascii.eqb Bool.eqb andb negb].
  change (("rel-" ++ Py.str_of_int k =? "")%string) with false.
  cbn [negb]. rewrite prefix_rel_split.
  pose proof (decode_wire_id "rel" k eq_refl) as Hdec. unfold decode_node in Hdec.
  change ("rel" ++ "-" ++ Py.str_of_int k) with ("rel-" ++ Py.str_of_int k) in Hdec.
  destruct (Py.split "-" ("rel-" ++ Py.str_of_int k)) as [|p [|i rest]];
    destruct (0 <=? k); try discriminate; try reflexivity.
  - destruct (Py.int_of_str i); [|discriminate].
    simpl in Hdec. now inversion Hdec.
  - destruct (Py.int_of_str i); [discriminate | reflexivity].
Qed.

(** After a drag-connect that succeeds between two distinct nodes, the
    relationship it created or reactivated is the current selection: with keys
    that are not negative, [delete_current_selection] returns the soft delete
    of a key that resolves to an active relationship from the one node to the
    other. *)
Theorem connect_then_delete_selection
  (db : Database) (st : RelationshipState.t) (source target : string)
  (a b : Node) (t1 t2 : datetime) :
  decode_node source = Some a ->
  decode_node target = Some b ->
  a <> b ->
  keys_not_negative db ->
  let o := on_connect db st source target t1 t2 in
  yielded o = [load_data] ->
  exists k row,
    delete_current_selection (out_state o) = ReturnSoftDelete k
    /\ Session.get_relationship (out_db o) k = Some row
    /\ src row = a /\ tgt row = b /\ Relationship.is_active row = true.
Proof.
  intros Ha Hb Hneq Hkeys o Hyield. subst o.
  rewrite (on_connect_decoded _ _ _ _ _ _ _ _ Ha Hb) in *.
  apply Node_eqb_neq in Hneq.
  destruct (connect_nodes_cases db st a b t1 t2 Hneq)
    as [[_ Hy]|[[r [r' [l [Hin [Hs [Ht [Hr' [Hdb Hst]]]]]]]]
               |[row [Hrows [Hs [Ht [Hact [Hid [Hsel Hmode]]]]]]]]].
  - rewrite Hy in Hyield. discriminate.
  - subst r'.
    set (r' := Relationship.set_last_updated t1 (Relationship.set_is_active true r))
      in *.
    exists (Relationship.id r), r'.
    assert ((0 <=? Relationship.id r) = true) as Hk
      by (apply Z.leb_le; now apply Hkeys).
    split; [|split; [|split; [|split]]].
    + rewrite (delete_selected_relationship _ (Relationship.id r)).
      * now rewrite Hk.
      * rewrite Hst. reflexivity.
      * rewrite Hst. reflexivity.
    + rewrite Hdb, get_after_insert_log.
      unfold Session.get_relationship, Session.update_relationship; simpl.
      change (Relationship.id r) with (Relationship.id r').
      destruct (find (fun x => Relationship.id x =? Relationship.id r')
                     (tbl_relationship db)) as [r0|] eqn:E.
      * eapply replace_row_found, E.
      * exfalso. eapply find_none in E; [|exact Hin].
        change (Relationship.id r') with (Relationship.id r) in E.
        rewrite Z.eqb_refl in E. discriminate.
    + exact Hs.
    + exact Ht.
    + reflexivity.
  - exists (Relationship.id row), row.
    assert ((0 <=? Relationship.id row) = true) as Hk.
    { apply Z.leb_le. rewrite Hid.
      pose proof (proj1 (next_id_above (map Relationship.id (tbl_relationship db)))).
      lia. }
    split; [|split; [|split; [|split]]]; try assumption.
    + rewrite (delete_selected_relationship _ (Relationship.id row) Hmode Hsel).
      now rewrite Hk.
    + unfold Session.get_relationship. rewrite Hrows.
      now apply get_appended_row.
Qed.

Lemma connect_then_delete_selection_witness :
  exists k row,
    delete_current_selection
      (out_state (on_connect Sample.one_active (Sample.state 1 false)
                    "con-2" "con-3" 10 11)) = ReturnSoftDelete k
    /\ Session.get_relationship
         (out_db (on_connect Sample.one_active (Sample.state 1 false)
                    "con-2" "con-3" 10 11)) k = Some row
    /\ src row = ("person", 2) /\ tgt row = ("person", 3)
    /\ Relationship.is_active row = true.
Proof.
  assert (("person", 2) <> ("person", 3)) as Hneq by congruence.
  assert (keys_not_negative Sample.one_active) as Hkeys.
  { intros r [<-|[]]. simpl. lia. }
  exact (connect_then_delete_selection
           Sample.one_active (Sample.state 1 false) "con-2" "con-3"
           ("person", 2) ("person", 3) 10 11 eq_refl eq_refl Hneq Hkeys eq_refl).
Defined.

Lemma delete_selected_node (st : RelationshipState.t) (prefix : string) (n : Z) :
  edit_mode st = "node" ->
  prefix = "acc" \/ prefix = "con" ->
  selected_node_id st = prefix ++ "-" ++ Py.str_of_int n ->
  delete_current_selection st
  = if 0 <=? n then ReturnDeleteNode n (node_type_of_prefix prefix)
    else ReturnToast "Nothing selected to delete".
Proof.
  intros Hmode Hp Hsel. unfold delete_current_selection.
  rewrite Hmode, Hsel. cbn [String.eqb Ascii.eqb Bool.eqb andb].
  assert (Py.split "-" prefix = [prefix]) as Hsplit
    by (destruct Hp as [->| ->]; reflexivity).
  pose proof (decode_wire_id prefix n Hsplit) as Hdec.
  unfold decode_node in Hdec.
  assert (String.eqb (prefix ++ "-" ++ Py.str_of_int n) "" = false) as ->
    by (destruct Hp as [->| ->]; reflexivity).
  cbn [negb].
  destruct (Py.split "-" (prefix ++ "-" ++ Py.str_of_int n)) as [|p [|i rest]];
    destruct (0 <=? n); try discriminate; try reflexivity.
  - destruct (Py.int_of_str i); [|discriminate].
    simpl in Hdec. now inversion Hdec.
  - destruct (Py.int_of_str i); [discriminate | reflexivity].
Qed.

(** [delete_current_selection] reads the selection back from its wire id: a
    selected node [acc-<n>] or [con-<n>] gives the hard delete of company or
    person [n], a selected edge [rel-<k>] the soft delete of relationship [k]
    (both for an id that is not negative; a negative one is not read back and
    nothing is deleted), and a selected employment edge [emp-..] is never
    deleted. *)
Theorem delete_current_selection_on_wire_ids (st : RelationshipState.t) :
  (forall prefix n,
     edit_mode st = "node" ->
     prefix = "acc" \/ prefix = "con" ->
     selected_node_id st = prefix ++ "-" ++ Py.str_of_int n ->
     delete_current_selection st
     = if 0 <=? n then ReturnDeleteNode n (node_type_of_prefix prefix)
       else ReturnToast "Nothing selected to delete")
  /\ (forall k,
        edit_mode st = "edge" ->
        selected_edge_id st = "rel-" ++ Py.str_of_int k ->
        delete_current_selection st
        = if 0 <=? k then ReturnSoftDelete k
          else ReturnToast "Nothing selected to delete")
  /\ (edit_mode st = "edge" ->
      String.prefix "emp-" (selected_edge_id st) = true ->
      delete_current_selection st = ReturnToast "Nothing selected to delete").
Proof.
  split; [|split].
  - intros prefix n. apply delete_selected_node.
  - intros k. apply delete_selected_relationship.
  - intros Hmode Hemp. unfold delete_current_selection. rewrite Hmode.
    cbn [String.eqb Ascii.eqb Bool.eqb andb].
    destruct (selected_edge_id st) as [|c s]; [discriminate|].
    cbn [String.prefix] in Hemp.
    destruct (ascii_dec "e" c) as [<-|]; [|discriminate].
    reflexivity.
Qed.

Lemma delete_current_selection_on_wire_ids_witness :
  delete_current_selection (Sample.panel "con-7" 0 "" "friend" 0)
  = ReturnDeleteNode 7 "person".
Proof.
  exact (proj1 (delete_current_selection_on_wire_ids
                  (Sample.panel "con-7" 0 "" "friend" 0))
           "con" 7 eq_refl (or_intror eq_refl) eq_refl).
Defined.

(** ** Hard delete *)

Lemma filter_twice {A} (f g : A -> bool) (l : list A) :
  filter f (filter g l) = filter (fun x => g x && f x) l.
Proof.
  induction l as [|x l IH]; simpl; [reflexivity|].
  destruct (g x); simpl; [destruct (f x)|]; now rewrite IH.
Qed.

Lemma filter_all {A} (l : list A) : filter (fun _ => true) l = l.
Proof. induction l; simpl; congruence. Qed.

Lemma fold_delete_relationship (l : list Relationship.t) (db : Database) :
  let db' := fold_left delete_relationship l db in
  tbl_relationship db'
  = filter (fun r => negb (mem Z.eqb (Relationship.id r) (map Relationship.id l)))
           (tbl_relationship db)
  /\ tbl_relationshiplog db'
     = filter (fun x => negb (mem Z.eqb (RelationshipLog.relationship_id x)
                                  (map Relationship.id l)))
              (tbl_relationshiplog db)
  /\ tbl_account db' = tbl_account db
  /\ tbl_contact db' = tbl_contact db.
Proof.
  revert db. induction l as [|x l IH]; intros db; simpl.
  - repeat split; symmetry; apply filter_all.
  - destruct (IH (delete_relationship db x)) as [Hr [Hl [Ha Hc]]].
    simpl in Hr, Hl, Ha, Hc. rewrite Hr, Hl, Ha, Hc.
    repeat split; rewrite filter_twice; apply filter_ext; intros y;
      unfold mem; simpl; rewrite negb_orb. all: reflexivity.
Qed.

Lemma NoDup_map_injective {A B} (f : A -> B) (l : list A) (x y : A) :
  NoDup (map f l) -> In x l -> In y l -> f x = f y -> x = y.
Proof.
  induction l as [|a l IH]; simpl; [intros _ []|].
  intros Hnd Hx Hy Hf. inversion Hnd as [|? ? Hnotin Hnd']; subst.
  destruct Hx as [->|Hx], Hy as [->|Hy]; auto.
  - exfalso. apply Hnotin. rewrite Hf. now apply in_map.
  - exfalso. apply Hnotin. rewrite <- Hf. now apply in_map.
Qed.

Lemma mem_Z_In (k : Z) (l : list Z) : mem Z.eqb k l = true <-> In k l.
Proof.
  unfold mem. rewrite existsb_exists. split.
  - intros [x [Hin Hx]]. apply Z.eqb_eq in Hx. now subst.
  - intros H. exists k. split; [assumption | apply Z.eqb_refl].
Qed.

(** Hard delete, relationships and logs: with unique relationship keys,
    [delete_node] removes exactly the relationships that have the node as
    source or target, active or not, and keeps the others in order; it removes
    exactly the logs of the removed relationships; and its message carries the
    number of removed relationships. *)
Theorem delete_node_cascade
  (db : Database) (st : RelationshipState.t) (node_id : Z) (node_type : string) :
  NoDup (map Relationship.id (tbl_relationship db)) ->
  let o := delete_node db st node_id node_type in
  let removed := filter (touches node_type node_id) (tbl_relationship db) in
  tbl_relationship (out_db o)
  = filter (fun r => negb (touches node_type node_id r)) (tbl_relationship db)
  /\ tbl_relationshiplog (out_db o)
     = filter (fun l => negb (mem Z.eqb (RelationshipLog.relationship_id l)
                                  (map Relationship.id removed)))
              (tbl_relationshiplog db)
  /\ returned o
     = Some ("Deleted node and "
             ++ Py.str_of_int (Z.of_nat (List.length removed))
             ++ " relationships")
  /\ yielded o = [load_data].
Proof.
  intros Hnd o removed.
  destruct (fold_delete_relationship removed db) as [Hr [Hl [Ha Hc]]].
  assert (tbl_relationship (out_db o)
          = tbl_relationship (fold_left delete_relationship removed db)
          /\ tbl_relationshiplog (out_db o)
             = tbl_relationshiplog (fold_left delete_relationship removed db))
    as [Hr' Hl'].
  { subst o. unfold delete_node. fold removed. cbn [out_db].
    destruct (String.eqb node_type "company").
    - destruct (find _ _); split; reflexivity.
    - destruct (String.eqb node_type "person"); [|split; reflexivity].
      destruct (find _ _); split; reflexivity. }
  split; [|split; [|split]]; try reflexivity.
  - rewrite Hr', Hr. apply filter_ext_in. intros r Hin. f_equal.
    apply eq_true_iff_eq. rewrite mem_Z_In, in_map_iff. split.
    + intros [r' [Hid Hin']]. subst removed. apply filter_In in Hin'.
      destruct Hin' as [Hin' Ht].
      now rewrite <- (NoDup_map_injective _ _ _ _ Hnd Hin' Hin Hid).
    + intros Ht. exists r. split; [reflexivity|]. subst removed.
      apply filter_In. now split.
  - rewrite Hl', Hl. reflexivity.
Qed.

Lemma delete_node_cascade_witness :
  map Relationship.id
    (tbl_relationship
       (out_db (delete_node Firm.db (Sample.state 1 false) 1 "company")))
  = [2]
  /\ map RelationshipLog.id
       (tbl_relationshiplog
          (out_db (delete_node Firm.db (Sample.state 1 false) 1 "company")))
     = [2]
  /\ returned (delete_node Firm.db (Sample.state 1 false) 1 "company")
     = Some "Deleted node and 1 relationships".
Proof.
  assert (NoDup (map Relationship.id (tbl_relationship Firm.db))) as Hnd.
  { simpl. repeat constructor; simpl; intuition discriminate. }
  destruct (delete_node_cascade Firm.db (Sample.state 1 false) 1 "company" Hnd)
    as [Hr [Hl [Hret _]]].
  rewrite Hr, Hl, Hret. repeat split.
Defined.

(** Hard delete, the node itself.  Deleting a company that exists removes
    its row and no other account, deletes no contact and clears the company
    link of exactly the contacts linked to it; deleting a person that exists
    removes its row and no other contact and leaves the accounts alone; when
    the node does not exist, or the type is neither, accounts and contacts are
    left as they are. *)
Theorem delete_node_detaches
  (db : Database) (st : RelationshipState.t) (node_id : Z) (node_type : string) :
  let o := delete_node db st node_id node_type in
  (node_type = "company" ->
   In node_id (map Account.id (tbl_account db)) ->
   tbl_account (out_db o)
   = filter (fun a => negb (Account.id a =? node_id)) (tbl_account db)
   /\ map Contact.id (tbl_contact (out_db o)) = map Contact.id (tbl_contact db)
   /\ (forall c, In c (tbl_contact (out_db o)) ->
         Contact.account_id c <> Some node_id)
   /\ (forall c, In c (tbl_contact db) ->
         Contact.account_id c <> Some node_id -> In c (tbl_contact (out_db o)))
   /\ (forall c, In c (tbl_contact db) ->
         Contact.account_id c = Some node_id ->
         In (detach c) (tbl_contact (out_db o))))
  /\ (node_type = "person" ->
      In node_id (map Contact.id (tbl_contact db)) ->
      tbl_account (out_db o) = tbl_account db
      /\ tbl_contact (out_db o)
         = filter (fun c => negb (Contact.id c =? node_id)) (tbl_contact db))
  /\ ((node_type <> "company" \/ ~ In node_id (map Account.id (tbl_account db))) ->
      (node_type <> "person" \/ ~ In node_id (map Contact.id (tbl_contact db))) ->
      tbl_account (out_db o) = tbl_account db
      /\ tbl_contact (out_db o) = tbl_contact db).
Proof.
  intros o.
  destruct (fold_delete_relationship
              (filter (touches node_type node_id) (tbl_relationship db)) db)
    as [_ [_ [Ha Hc]]].
  assert (forall (A : Type) (key : A -> Z) (l : list A),
            In node_id (map key l) <->
            find (fun x => key x =? node_id) l <> None) as Hfind.
  { intros A key l. split.
    - intros H Hnone. apply in_map_iff in H. destruct H as [x [Hx Hin]].
      apply (find_none _ _ Hnone) in Hin. rewrite Hx, Z.eqb_refl in Hin.
      discriminate.
    - destruct (find (fun x => key x =? node_id) l) as [x|] eqn:E;
        [|intros H; now contradiction H].
      intros _. apply find_some in E. destruct E as [Hin Hx].
      apply Z.eqb_eq in Hx. rewrite <- Hx. now apply in_map. }
  subst o. unfold delete_node. cbn [out_db]. simpl in Ha, Hc.
  split; [|split].
  - intros -> Hin. cbn [String.eqb Ascii.eqb Bool.eqb andb].
    change (("company" =? "company")%string) with true. cbn iota.
    rewrite Ha, Hc. apply Hfind in Hin.
    destruct (find (fun a => Account.id a =? node_id) (tbl_account db));
      [|now contradiction Hin].
    cbn [tbl_account tbl_contact].
    split; [reflexivity|]. split; [|split; [|split]].
    + rewrite map_map. apply map_ext. intros c.
      now destruct (linked_to node_id c).
    + intros c Hc'. apply in_map_iff in Hc'. destruct Hc' as [c0 [<- _]].
      unfold linked_to. destruct (Contact.account_id c0) as [a|] eqn:E.
      * destruct (a =? node_id) eqn:Ea; [simpl; discriminate|].
        rewrite E. intros H. inversion H. subst. rewrite Z.eqb_refl in Ea.
        discriminate.
      * rewrite E. discriminate.
    + intros c Hc' Hlink. apply in_map_iff. exists c. split; [|assumption].
      unfold linked_to. destruct (Contact.account_id c) as [a|]; [|reflexivity].
      destruct (a =? node_id) eqn:Ea; [|reflexivity].
      apply Z.eqb_eq in Ea. subst. now contradiction Hlink.
    + intros c Hc' Hlink. apply in_map_iff. exists c. split; [|assumption].
      unfold linked_to. now rewrite Hlink, Z.eqb_refl.
  - intros -> Hin. change (("person" =? "company")%string) with false.
    change (("person" =? "person")%string) with true. cbn iota.
    rewrite Ha, Hc. apply Hfind in Hin.
    destruct (find (fun c => Contact.id c =? node_id) (tbl_contact db));
      [|now contradiction Hin].
    split; reflexivity.
  - intros H1 H2. rewrite Ha, Hc.
    destruct (String.eqb node_type "company") eqn:E1.
    + apply String.eqb_eq in E1.
      destruct H1 as [H1|H1]; [contradiction|].
      rewrite Hfind in H1.
      destruct (find (fun a => Account.id a =? node_id) (tbl_account db));
        [exfalso; apply H1; discriminate|].
      now rewrite Ha, Hc.
    + destruct (String.eqb node_type "person") eqn:E2; [|now rewrite Ha, Hc].
      apply String.eqb_eq in E2.
      destruct H2 as [H2|H2]; [contradiction|].
      rewrite Hfind in H2.
      destruct (find (fun c => Contact.id c =? node_id) (tbl_contact db));
        [exfalso; apply H2; discriminate|].
      now rewrite Ha, Hc.
Qed.

(** ** The relationship list of the selected node *)

Lemma insert_by_score_perm (x : Relationship.t) (l : list Relationship.t) :
  Permutation (insert_by_score x l) (x :: l).
Proof.
  induction l as [|y l IH]; simpl; [reflexivity|].
  destruct (Relationship.score y <=? Relationship.score x); [reflexivity|].
  rewrite IH. apply perm_swap.
Qed.

Lemma order_by_score_desc_perm (l : list Relationship.t) :
  Permutation (order_by_score_desc l) l.
Proof.
  induction l as [|x l IH]; simpl; [reflexivity|].
  unfold order_by_score_desc in *. simpl. rewrite insert_by_score_perm.
  now constructor.
Qed.

Lemma order_by_score_desc_sorted (l : list Relationship.t) :
  StronglySorted (fun x y => Relationship.score y <= Relationship.score x)
    (order_by_score_desc l).
Proof.
  induction l as [|x l IH]; [constructor|].
  change (order_by_score_desc (x :: l))
    with (insert_by_score x (order_by_score_desc l)).
  induction IH as [|y s Hs IH Hy]; simpl.
  - repeat constructor.
  - destruct (Relationship.score y <=? Relationship.score x) eqn:E.
    + apply Z.leb_le in E. constructor; [now constructor|].
      constructor; [assumption|].
      eapply Forall_impl; [|exact Hy]. simpl. intros z Hz. lia.
    + apply Z.leb_gt in E. constructor; [exact IH|].
      apply Forall_forall. intros z Hz.
      apply (Permutation_in _ (insert_by_score_perm x s)) in Hz.
      destruct Hz as [<-|Hz]; [lia|].
      rewrite Forall_forall in Hy. now apply Hy.
Qed.

Lemma Forall2_map_right {A B} (P : A -> B -> Prop) (f : A -> B) (l : list A) :
  (forall x, P x (f x)) -> Forall2 P l (map f l).
Proof. intros H. induction l; simpl; constructor; auto. Qed.

(** The list shown for a selected node holds one item for every active
    relationship that has the node as source or target and none for any other,
    ordered by score, largest first; each item names the node at the other end
    and carries the red badge for a score of -30 or less, the green one for 30
    or more, the gray one in between. *)
Theorem node_relationship_list
  (db : Database) (st : RelationshipState.t) (a : Node) :
  decode_node (selected_node_id st) = Some a ->
  exists rows items,
    NodePanel.load_active_node_relationships db st = Some items
    /\ Permutation rows
         (filter (fun r => Relationship.is_active r && touches (fst a) (snd a) r)
                 (tbl_relationship db))
    /\ StronglySorted
         (fun x y => Relationship.score y <= Relationship.score x) rows
    /\ Forall2
         (fun r item =>
            lookup "relationship_id" item = Some (VInt (Relationship.id r))
            /\ lookup "score" item = Some (VInt (Relationship.score r))
            /\ lookup "connected_node_type" item
               = Some (VStr (fst (other_end a r)))
            /\ lookup "connected_node_id" item
               = Some (VInt (snd (other_end a r)))
            /\ lookup "badge_class" item
               = Some (VStr
                         (if Relationship.score r <=? -30
                          then "bg-red-50 text-red-700 border-red-200"
                          else if 30 <=? Relationship.score r
                          then "bg-green-50 text-green-700 border-green-200"
                          else "bg-gray-50 text-gray-700 border-gray-200")))
         rows items.
Proof.
  intros Ha.
  exists (order_by_score_desc
            (filter (fun r => Relationship.is_active r && touches (fst a) (snd a) r)
                    (tbl_relationship db))).
  exists (map (fun r =>
                 assign "badge_class"
                   (VStr (badge_class
                            (item_score (relationship_item db (snd a) (fst a) r))))
                   (relationship_item db (snd a) (fst a) r))
              (order_by_score_desc
                 (filter (fun r => Relationship.is_active r
                                   && touches (fst a) (snd a) r)
                         (tbl_relationship db)))).
  split; [|split; [|split]].
  - unfold NodePanel.load_active_node_relationships, decode_node in *.
    destruct (String.eqb (selected_node_id st) "") eqn:Hsel.
    { apply String.eqb_eq in Hsel. rewrite Hsel in Ha. discriminate. }
    destruct (Py.split "-" (selected_node_id st)) as [|p [|i rest]];
      try discriminate.
    destruct (Py.int_of_str i); [|discriminate].
    simpl in Ha. inversion Ha; subst a. unfold get_node_relationships.
    rewrite map_map. reflexivity.
  - apply order_by_score_desc_perm.
  - apply order_by_score_desc_sorted.
  - apply Forall2_map_right. intros r.
    unfold relationship_item, other_end, Node_eqb, src, badge_class, item_score.
    cbn [fst snd]. simpl lookup.
    rewrite (Z.geb_leb (Relationship.score r) 30).
    destruct (String.eqb (Relationship.source_type r) (fst a)
              && (Relationship.source_id r =? snd a)); repeat split.
Qed.

Lemma node_relationship_list_witness :
  exists rows items,
    NodePanel.load_active_node_relationships Sample.one_active
      (Sample.panel "con-2" 0 "" "friend" 0) = Some items
    /\ Permutation rows [Sample.link 1 1 2 true FRIEND 80]
    /\ Forall2
         (fun r item =>
            lookup "connected_node_id" item = Some (VInt 1)
            /\ lookup "badge_class" item
               = Some (VStr "bg-green-50 text-green-700 border-green-200"))
         rows items.
Proof.
  destruct (node_relationship_list Sample.one_active
              (Sample.panel "con-2" 0 "" "friend" 0) ("person", 2) eq_refl)
    as [rows [items [Hload [Hperm [_ Hall]]]]].
  exists rows, items. split; [exact Hload|]. split; [exact Hperm|].
  assert (forall r, In r rows -> r = Sample.link 1 1 2 true FRIEND 80) as Hrow.
  { intros r Hr. apply (Permutation_in _ Hperm) in Hr.
    destruct Hr as [<-|[]]. reflexivity. }
  clear Hload Hperm. induction Hall as [|r item rows items H Hall IH];
    constructor.
  - rewrite (Hrow r (or_introl eq_refl)) in H.
    destruct H as [_ [_ [_ [Hid Hbadge]]]]. split; assumption.
  - apply IH. intros r' Hr'. apply Hrow. now right.
Defined.

(** ** Target search and creation from the panel *)

Lemma search_node_full_id (db : Database) (n : SearchNode) :
  In n (get_all_nodes_for_search db) ->
  (sn_type n = "company" /\ sn_full_id n = "acc-" ++ Py.str_of_int (sn_id n))
  \/ (sn_type n = "person" /\ sn_full_id n = "con-" ++ Py.str_of_int (sn_id n)).
Proof.
  unfold get_all_nodes_for_search. intros H. apply in_app_or in H.
  destruct H as [H|H]; apply in_map_iff in H; destruct H as [x [<- _]];
    [left | right]; split; reflexivity.
Qed.

Lemma in_slice_to_10 {A} (l : list A) (x : A) :
  In x (Py.slice_to l 10) -> In x l.
Proof.
  unfold Py.slice_to. change (0 <=? 10) with true. cbv iota. apply in_firstn.
Qed.

Lemma offered_target_facts
  (db : Database) (st : RelationshipState.t) (query : string) (n : SearchNode) :
  In n (filter_target_nodes db st query) ->
  In n (get_all_nodes_for_search db)
  /\ sn_full_id n <> selected_node_id st
  /\ (PyStr.contains (PyStr.lower query) (PyStr.lower (sn_name n)) = true
      \/ PyStr.contains (PyStr.lower query) (PyStr.lower (sn_subtitle n))
         = true).
Proof.
  intros Hn. apply in_slice_to_10 in Hn. apply filter_In in Hn.
  destruct Hn as [Hall Hn]. apply andb_true_iff in Hn. destruct Hn as [Hid Hq].
  split; [assumption|]. split.
  - apply negb_true_iff in Hid. now apply String.eqb_neq.
  - now apply orb_true_iff.
Qed.

Lemma offered_target_differs
  (db : Database) (st : RelationshipState.t) (query prefix ty : string)
  (id : Z) (n : SearchNode) :
  (prefix = "acc" /\ ty = "company") \/ (prefix = "con" /\ ty = "person") ->
  selected_node_id st = prefix ++ "-" ++ Py.str_of_int id ->
  In n (filter_target_nodes db st query) -> (sn_type n, sn_id n) <> (ty, id).
Proof.
  intros Hp Hsel Hn Heq. inversion Heq as [[Hty Hid]].
  destruct (offered_target_facts db st query n Hn) as [Hall [Hne _]].
  apply Hne. rewrite Hsel.
  destruct (search_node_full_id db n Hall) as [[Ht Hf]|[Ht Hf]];
    rewrite Hf, Hid; destruct Hp as [[-> ->]|[-> ->]];
    try reflexivity; rewrite Ht in Hty; discriminate.
Qed.

(** The targets offered for a new relationship: at most ten, each a node of
    the store whose name or subtitle contains the query up to case, and never
    the selected node itself. *)
Theorem filter_target_nodes_offers
  (db : Database) (st : RelationshipState.t) (query : string) :
  let targets := filter_target_nodes db st query in
  (List.length targets <= 10)%nat
  /\ (forall n, In n targets ->
        In n (get_all_nodes_for_search db)
        /\ sn_full_id n <> selected_node_id st
        /\ (PyStr.contains (PyStr.lower query) (PyStr.lower (sn_name n)) = true
            \/ PyStr.contains (PyStr.lower query) (PyStr.lower (sn_subtitle n))
               = true))
  /\ (forall prefix ty id n,
        (prefix = "acc" /\ ty = "company") \/ (prefix = "con" /\ ty = "person") ->
        selected_node_id st = prefix ++ "-" ++ Py.str_of_int id ->
        In n targets -> (sn_type n, sn_id n) <> (ty, id)).
Proof.
  intros targets. split; [|split].
  - subst targets. unfold filter_target_nodes, Py.slice_to.
    change (0 <=? 10) with true. cbv iota.
    rewrite length_firstn. change (Z.to_nat 10) with 10%nat.
    apply Nat.le_min_l.
  - intros n. apply offered_target_facts.
  - intros prefix ty id n. apply offered_target_differs.
Qed.

(** What [create_relationship_from_panel] comes to: nothing written, or the
    session block for the decoded selection and the parsed term. *)
Lemma panel_cases
  (db : Database) (st : RelationshipState.t) (t1 t2 : datetime) :
  out_db (create_relationship_from_panel db st t1 t2) = db
  \/ exists a term_enum,
       decode_node (selected_node_id st) = Some a
       /\ creation_target_id st <> 0
       /\ RelationshipTerm_of_value (creation_term st) = Some term_enum
       /\ create_relationship_from_panel db st t1 t2
          = panel_session db st (fst a) (snd a) term_enum t1 t2.
Proof.
  destruct (decode_node (selected_node_id st)) as [a|] eqn:Ha.
  - destruct (Z.eq_dec (creation_target_id st) 0) as [Hz|Hz].
    + left. unfold create_relationship_from_panel.
      destruct (String.eqb (selected_node_id st) ""); [reflexivity|].
      now rewrite Hz.
    + destruct (RelationshipTerm_of_value (creation_term st)) as [t|] eqn:Ht.
      * right. exists a, t. repeat split; try assumption.
        now apply panel_decoded.
      * left. unfold create_relationship_from_panel. rewrite Ht.
        destruct (String.eqb (selected_node_id st) ""); [reflexivity|].
        destruct (creation_target_id st =? 0); [reflexivity|].
        cbn zeta.
        destruct (Py.split "-" (selected_node_id st)) as [|p [|i rest]];
          try reflexivity.
        destruct (Py.int_of_str i); reflexivity.
  - left. unfold create_relationship_from_panel, decode_node in *.
    destruct (String.eqb (selected_node_id st) ""); [reflexivity|].
    destruct (creation_target_id st =? 0); [reflexivity|]. cbn zeta.
    destruct (Py.split "-" (selected_node_id st)) as [|p [|i rest]];
      try reflexivity.
    destruct (Py.int_of_str i); [discriminate|reflexivity].
Qed.



(** ** Creating and editing nodes *)

Lemma like_refl (p : list ascii) : like p p = true.
Proof.
  induction p as [|c p IH]; [reflexivity|].
  cbn [like]. destruct (Ascii.eqb c "%"%char) eqn:Hc.
  - apply orb_true_iff. right. destruct p; now rewrite IH.
  - rewrite Ascii.eqb_refl, IH. now rewrite orb_true_r.
Qed.

Lemma ilike_up_to_case (value pattern : string) :
  PyStr.lower value = PyStr.lower pattern -> ilike value pattern = true.
Proof.
  unfold PyStr.lower, ilike. intros H.
  apply (f_equal list_ascii_of_string) in H.
  rewrite !list_ascii_of_string_of_list_ascii in H. rewrite H. apply like_refl.
Qed.

Lemma find_app_last {A} (f : A -> bool) (l : list A) (x : A) :
  f x = true -> exists y, find f (l ++ [x]) = Some y.
Proof.
  intros Hx. destruct (find f (l ++ [x])) as [y|] eqn:Hf; [now exists y|].
  pose proof (find_none f _ Hf x) as H. rewrite H in Hx; [discriminate|].
  apply in_or_app. right. now left.
Qed.

Lemma find_in_some {A} (f : A -> bool) (l : list A) (x : A) :
  In x l -> f x = true -> exists y, find f l = Some y.
Proof.
  intros Hin Hx. destruct (find f l) as [y|] eqn:Hf; [now exists y|].
  rewrite (find_none f _ Hf x Hin) in Hx. discriminate.
Qed.

Lemma find_fresh_last {A} (key : A -> Z) (l : list A) (x : A) :
  (forall y, In y l -> key y < key x) ->
  find (fun y => key y =? key x) (l ++ [x]) = Some x.
Proof.
  intros H. induction l as [|y l IH]; cbn [app find].
  - now rewrite Z.eqb_refl.
  - assert ((key y =? key x) = false) as ->
      by (apply Z.eqb_neq; specialize (H y (or_introl eq_refl)); lia).
    apply IH. intros z Hz. apply H. now right.
Qed.

Lemma NoDup_fresh_last (l : list Z) (k : Z) :
  (forall y, In y l -> y < k) -> NoDup l -> NoDup (l ++ [k]).
Proof.
  intros H Hl. apply NoDup_app; [assumption | repeat constructor; intros [] |].
  intros y Hy [<-|[]]. specialize (H _ Hy). lia.
Qed.

(** The validation [add_node] runs reads the name only. *)
Lemma validate_new_node (node_type name title_or_ticker : string) :
  validate_node_data node_type
    [("name", name); ("title_or_ticker", title_or_ticker)]
  = if String.eqb node_type "company" then
      if blank name then (false, "Company name is required") else (true, "")
    else if String.eqb node_type "person" then
      if blank name then (false, "Name is required") else (true, "")
    else (true, "").
Proof. reflexivity. Qed.

Lemma lstrip_head (cs : list ascii) (c : ascii) (r : list ascii) :
  Py.lstrip cs = c :: r -> Py.is_space c = false.
Proof.
  induction cs as [|x cs IH]; [discriminate|]. cbn [Py.lstrip].
  destruct (Py.is_space x) eqn:Hx; [exact IH|]. intros H. now inversion H; subst.
Qed.

Lemma lstrip_app_nonspace (l : list ascii) (c : ascii) :
  Py.is_space c = false -> Py.lstrip (l ++ [c]) = (Py.lstrip l ++ [c])%list.
Proof.
  intros Hc. induction l as [|x l IH]; cbn [app Py.lstrip].
  - now rewrite Hc.
  - destruct (Py.is_space x); [exact IH | reflexivity].
Qed.

(** A stripped string is empty or starts with a character that is no
    white space. *)
Lemma strip_head (cs : list ascii) :
  Py.strip cs = [] \/ exists c r, Py.strip cs = c :: r /\ Py.is_space c = false.
Proof.
  unfold Py.strip. destruct (Py.lstrip cs) as [|c r] eqn:Hl; [now left|].
  right. pose proof (lstrip_head _ _ _ Hl) as Hc.
  cbn [rev]. rewrite (lstrip_app_nonspace _ _ Hc), rev_app_distr.
  cbn [rev app]. eauto.
Qed.

(** [s.split(" ", 1)]: one part when [s] has no space, else the text before
    the first space and all the text after it. *)
Lemma split_once_spec (sep : ascii) (s : string) :
  (PyStr.split_once sep s = [s]
   /\ ~ In sep (list_ascii_of_string s))
  \/ exists p q, PyStr.split_once sep s = [p; q]
                 /\ s = p ++ String sep q
                 /\ ~ In sep (list_ascii_of_string p).
Proof.
  induction s as [|c s IH]; cbn [PyStr.split_once].
  - left. split; [reflexivity | intros []].
  - destruct (Ascii.eqb c sep) eqn:Hc.
    + apply Ascii.eqb_eq in Hc. subst c. right. exists "", s.
      repeat split. intros [].
    + apply Ascii.eqb_neq in Hc.
      destruct IH as [[-> Hno]|[p [q [-> [Hs Hno]]]]].
      * left. split; [reflexivity|]. intros [H|H]; [now apply Hc | now apply Hno].
      * right. exists (String c p), q. repeat split.
        -- cbn. now rewrite <- Hs.
        -- intros [H|H]; [now apply Hc | now apply Hno].
Qed.

(** The parts [add_node] takes from a name that passes the validation: the
    first name is not empty and has no space, and the two parts joined by a
    space give the stripped name back. *)
Lemma person_name_parts (name : string) :
  blank name = false ->
  let parts := PyStr.split_once " " (PyStr.strip name) in
  let first_name := hd "" parts in
  let last_name := match parts with _ :: l :: _ => l | _ => "" end in
  first_name <> ""
  /\ ~ In " "%char (list_ascii_of_string first_name)
  /\ (PyStr.strip name = first_name /\ last_name = ""
      \/ PyStr.strip name = first_name ++ " " ++ last_name).
Proof.
  intros Hb. apply orb_false_iff in Hb. destruct Hb as [_ Hb].
  apply String.eqb_neq in Hb. cbv zeta.
  assert (exists c r, PyStr.strip name = String c r /\ c <> " "%char)
    as [c [r [Hs Hc]]].
  { unfold PyStr.strip in *.
    destruct (strip_head (list_ascii_of_string name)) as [H|[c [r [H Hc]]]].
    - rewrite H in Hb. now elim Hb.
    - rewrite H. exists c, (string_of_list_ascii r). split; [reflexivity|].
      intros ->. discriminate. }
  destruct (split_once_spec " " (PyStr.strip name))
    as [[-> Hno]|[p [q [-> [Hpq Hno]]]]]; cbn [hd].
  - repeat split; [now rewrite Hs | exact Hno | now left].
  - repeat split; [| exact Hno | now right].
    intros ->. rewrite Hs in Hpq. cbn in Hpq. inversion Hpq. now apply Hc.
Qed.

(** A company whose name equals, up to case, the name of a stored account is
    not added: the store and the state stay as they are and no reload is
    asked for. *)
Theorem add_node_refuses_company_name_up_to_case
  (db : Database) (st : RelationshipState.t) (name title_or_ticker : string)
  (t1 t2 : datetime) (a : Account.t) :
  In a (tbl_account db) ->
  PyStr.lower (Account.name a) = PyStr.lower name ->
  let o := add_node db st "company" name title_or_ticker t1 t2 in
  out_db o = db /\ out_state o = st /\ yielded o = []
  /\ (blank name = false ->
      returned o = Some ("Company '" ++ name ++ "' already exists")).
Proof.
  intros Hin Hlow. cbv zeta. unfold add_node. rewrite validate_new_node.
  cbn [String.eqb Ascii.eqb Bool.eqb].
  destruct (blank name); cbn [negb]; [repeat split; discriminate|].
  destruct (find_in_some (fun a => ilike (Account.name a) name) _ a Hin
              (ilike_up_to_case _ _ Hlow)) as [y ->].
  repeat split.
Qed.

Lemma add_node_refuses_company_name_up_to_case_witness :
  let o := add_node Firm.db (Sample.state 1 false) "company" "ACME" "ACM" 7 8 in
  out_db o = Firm.db /\ yielded o = []
  /\ returned o = Some "Company 'ACME' already exists".
Proof.
  destruct (add_node_refuses_company_name_up_to_case
              Firm.db (Sample.state 1 false) "ACME" "ACM" 7 8
              (Sample.company 1 "Acme"))
    as [H1 [_ [H3 H4]]].
  - left. reflexivity.
  - reflexivity.
  - cbv zeta. split; [exact H1 | split; [exact H3 | now apply H4]].
Defined.

(** Submitting the same node twice adds it once: whatever the first call
    did, a second call with the same type and name (any title or ticker, any
    session) writes nothing and asks for no reload. *)
Theorem add_node_twice_adds_once
  (db : Database) (st st' : RelationshipState.t)
  (node_type name title title' : string) (t1 t2 t3 t4 : datetime) :
  let o1 := add_node db st node_type name title t1 t2 in
  let o2 := add_node (out_db o1) st' node_type name title' t3 t4 in
  out_db o2 = out_db o1 /\ yielded o2 = [].
Proof.
  cbv zeta. unfold add_node. rewrite !validate_new_node.
  destruct (String.eqb node_type "company") eqn:Hc.
  - destruct (blank name); cbn [negb]; [split; reflexivity|].
    destruct (find (fun a => ilike (Account.name a) name) (tbl_account db))
      as [a|] eqn:Hf; cbn [out_db].
    + rewrite Hf. split; reflexivity.
    + cbn [tbl_account].
      match goal with
      | |- context [find ?f (?l ++ [?x])%list] =>
          destruct (find_app_last f l x) as [y ->]
      end.
      * cbn [Account.name]. apply ilike_up_to_case. reflexivity.
      * split; reflexivity.
  - destruct (String.eqb node_type "person") eqn:Hp; [|split; reflexivity].
    destruct (blank name); cbn [negb]; [split; reflexivity|]. cbv zeta.
    match goal with
    | |- context [find ?f (tbl_contact db)] =>
        destruct (find f (tbl_contact db)) as [c|] eqn:Hf
    end; cbn [out_db].
    + rewrite Hf. split; reflexivity.
    + cbn [tbl_contact].
      match goal with
      | |- context [find ?f (?l ++ [?x])%list] =>
          destruct (find_app_last f l x) as [y ->]
      end.
      * cbn [Contact.first_name Contact.last_name].
        rewrite !ilike_up_to_case by reflexivity. reflexivity.
      * split; reflexivity.
Qed.

(** A company that passes the validation and matches no stored name is
    appended with a new id above every stored one: it is found again by that
    id, distinct ids stay distinct, the other tables are untouched and a
    reload is asked for. *)
Theorem add_node_company_created
  (db : Database) (st : RelationshipState.t) (name ticker : string)
  (t1 t2 : datetime) :
  blank name = false ->
  (forall a, In a (tbl_account db) -> ilike (Account.name a) name = false) ->
  let o := add_node db st "company" name ticker t1 t2 in
  exists row,
    tbl_account (out_db o) = (tbl_account db ++ [row])%list
    /\ Account.name row = name /\ Account.ticker row = ticker
    /\ (forall a, In a (tbl_account db) -> Account.id a < Account.id row)
    /\ find (fun a => Account.id a =? Account.id row) (tbl_account (out_db o))
       = Some row
    /\ (NoDup (map Account.id (tbl_account db)) ->
        NoDup (map Account.id (tbl_account (out_db o))))
    /\ tbl_contact (out_db o) = tbl_contact db
    /\ tbl_relationship (out_db o) = tbl_relationship db
    /\ tbl_relationshiplog (out_db o) = tbl_relationshiplog db
    /\ yielded o = [load_data]
    /\ returned o = Some "Created company successfully".
Proof.
  intros Hb Hnone. cbv zeta. unfold add_node. rewrite validate_new_node.
  cbn [String.eqb Ascii.eqb Bool.eqb]. rewrite Hb. cbn [negb].
  destruct (find (fun a => ilike (Account.name a) name) (tbl_account db))
    as [a|] eqn:Hf.
  { apply find_some in Hf. destruct Hf as [Hin Ha].
    rewrite (Hnone a Hin) in Ha. discriminate. }
  eexists. cbn [out_db tbl_account tbl_contact tbl_relationship
                  tbl_relationshiplog yielded returned].
  assert (forall a, In a (tbl_account db) ->
            Account.id a < Session.next_id (map Account.id (tbl_account db)))
    as Hfresh.
  { intros a Ha. apply next_id_above. now apply in_map. }
  split; [reflexivity|]. cbn [Account.name Account.ticker Account.id].
  repeat split.
  - exact Hfresh.
  - match goal with
    | |- find _ (?l ++ [?x])%list = _ =>
        exact (find_fresh_last Account.id l x Hfresh)
    end.
  - intros Hnd. rewrite map_app. cbn [map Account.id].
    apply NoDup_fresh_last; [|exact Hnd].
    intros y Hy. now apply next_id_above.
Qed.

Lemma add_node_company_created_witness :
  let o := add_node Firm.db (Sample.state 1 false) "company" "Wayne" "WAY" 7 8 in
  exists row,
    tbl_account (out_db o) = (tbl_account Firm.db ++ [row])%list
    /\ Account.name row = "Wayne" /\ Account.id row = 3
    /\ yielded o = [load_data].
Proof.
  destruct (add_node_company_created Firm.db (Sample.state 1 false)
              "Wayne" "WAY" 7 8)
    as [row [H1 [H2 [_ [_ [H5 [_ [_ [_ [_ [H10 _]]]]]]]]]]].
  - reflexivity.
  - intros a [<-|[<-|[]]]; reflexivity.
  - cbv zeta. exists row. repeat split; try assumption.
    cbn in H1.
    apply (f_equal (fun l => map Account.id (skipn 2 l))) in H1.
    cbn in H1. now inversion H1.
Defined.

(** Whenever [add_node] for a person changes the store, it appends one
    contact with a new id above every stored one.  Its first name is the
    stripped name up to the first space, not empty and without a space, its
    last name all the rest; it has no employer. *)
Theorem add_node_person_created
  (db : Database) (st : RelationshipState.t) (name title : string)
  (t1 t2 : datetime) :
  out_db (add_node db st "person" name title t1 t2) <> db ->
  let o := add_node db st "person" name title t1 t2 in
  exists row,
    tbl_contact (out_db o) = (tbl_contact db ++ [row])%list
    /\ Contact.first_name row <> ""
    /\ ~ In " "%char (list_ascii_of_string (Contact.first_name row))
    /\ (PyStr.strip name = Contact.first_name row /\ Contact.last_name row = ""
        \/ PyStr.strip name
           = Contact.first_name row ++ " " ++ Contact.last_name row)
    /\ Contact.job_title row = title
    /\ Contact.account_id row = None
    /\ (forall c, In c (tbl_contact db) -> Contact.id c < Contact.id row)
    /\ find (fun c => Contact.id c =? Contact.id row) (tbl_contact (out_db o))
       = Some row
    /\ tbl_account (out_db o) = tbl_account db
    /\ tbl_relationship (out_db o) = tbl_relationship db
    /\ yielded o = [load_data].
Proof.
  cbv zeta. unfold add_node. rewrite validate_new_node.
  cbn [String.eqb Ascii.eqb Bool.eqb].
  destruct (blank name) eqn:Hb; cbn [negb]; [intros H; now elim H|]. cbv zeta.
  destruct (person_name_parts name Hb) as [Hfirst [Hspace Hparts]].
  set (parts := PyStr.split_once " " (PyStr.strip name)) in *.
  match goal with
  | |- context [find ?f (tbl_contact db)] =>
      destruct (find f (tbl_contact db)) as [c|] eqn:Hf
  end; [intros H; now elim H|]. intros _.
  eexists. cbn [out_db tbl_account tbl_contact tbl_relationship
                  tbl_relationshiplog yielded returned].
  assert (forall c, In c (tbl_contact db) ->
            Contact.id c < Session.next_id (map Contact.id (tbl_contact db)))
    as Hfresh.
  { intros c Hc. apply next_id_above. now apply in_map. }
  split; [reflexivity|].
  cbn [Contact.first_name Contact.last_name Contact.job_title
         Contact.account_id Contact.id].
  repeat split; try assumption.
  match goal with
  | |- find _ (?l ++ [?x])%list = _ =>
      exact (find_fresh_last Contact.id l x Hfresh)
  end.
Qed.

Lemma add_node_person_created_witness :
  let o := add_node Firm.db (Sample.state 1 false) "person"
             "  Ada Lovelace King " "Engineer" 7 8 in
  exists row,
    tbl_contact (out_db o) = (tbl_contact Firm.db ++ [row])%list
    /\ Contact.first_name row = "Ada"
    /\ Contact.last_name row = "Lovelace King"
    /\ Contact.id row = 4.
Proof.
  destruct (add_node_person_created Firm.db (Sample.state 1 false)
              "  Ada Lovelace King " "Engineer" 7 8) as [row [H1 _]].
  - discriminate.
  - cbv zeta. exists row. cbn in H1.
    apply (f_equal (fun l => hd_error (skipn 3 l))) in H1. cbn in H1.
    inversion H1. repeat split.
Defined.

(** ** Node handlers: what they keep *)

Lemma replace_account_ids (a : Account.t) (rows : list Account.t) :
  map Account.id (replace_account a rows) = map Account.id rows.
Proof.
  induction rows as [|x rows IH]; cbn [replace_account map]; [reflexivity|].
  destruct (Account.id x =? Account.id a) eqn:E; cbn [map].
  - apply Z.eqb_eq in E. now rewrite E.
  - now rewrite IH.
Qed.

Lemma replace_contact_ids (c : Contact.t) (rows : list Contact.t) :
  map Contact.id (replace_contact c rows) = map Contact.id rows.
Proof.
  induction rows as [|x rows IH]; cbn [replace_contact map]; [reflexivity|].
  destruct (Contact.id x =? Contact.id c) eqn:E; cbn [map].
  - apply Z.eqb_eq in E. now rewrite E.
  - now rewrite IH.
Qed.



Lemma find_replace_account_other (a : Account.t) (rows : list Account.t) (k : Z) :
  k <> Account.id a ->
  find (fun x => Account.id x =? k) (replace_account a rows)
  = find (fun x => Account.id x =? k) rows.
Proof.
  intros Hk. induction rows as [|y rows IH]; cbn [replace_account find];
    [reflexivity|].
  destruct (Account.id y =? Account.id a) eqn:E; cbn [find].
  - apply Z.eqb_eq in E.
    assert ((Account.id a =? k) = false) as -> by (apply Z.eqb_neq; congruence).
    assert ((Account.id y =? k) = false) as -> by (apply Z.eqb_neq; congruence).
    reflexivity.
  - now rewrite IH.
Qed.

Lemma find_replace_contact_other (c : Contact.t) (rows : list Contact.t) (k : Z) :
  k <> Contact.id c ->
  find (fun x => Contact.id x =? k) (replace_contact c rows)
  = find (fun x => Contact.id x =? k) rows.
Proof.
  intros Hk. induction rows as [|y rows IH]; cbn [replace_contact find];
    [reflexivity|].
  destruct (Contact.id y =? Contact.id c) eqn:E; cbn [find].
  - apply Z.eqb_eq in E.
    assert ((Contact.id c =? k) = false) as -> by (apply Z.eqb_neq; congruence).
    assert ((Contact.id y =? k) = false) as -> by (apply Z.eqb_neq; congruence).
    reflexivity.
  - now rewrite IH.
Qed.

Lemma replace_contact_employers (c c' : Contact.t) (rows : list Contact.t) :
  find (fun x => Contact.id x =? Contact.id c') rows = Some c ->
  Contact.account_id c' = Contact.account_id c ->
  map Contact.account_id (replace_contact c' rows)
  = map Contact.account_id rows.
Proof.
  intros Hf He. induction rows as [|y rows IH]; [reflexivity|].
  cbn [find replace_contact] in *.
  destruct (Contact.id y =? Contact.id c'); cbn [map].
  - inversion Hf. subst y. now rewrite He.
  - now rewrite IH.
Qed.

(** What [update_node] leaves as it is. *)
Lemma update_node_store_facts
  (db : Database) (st : RelationshipState.t) (node_id : Z) (node_type : string)
  (updated_data : list (string * string)) :
  let o := update_node db st node_id node_type updated_data in
  map Account.id (tbl_account (out_db o)) = map Account.id (tbl_account db)
  /\ map Contact.id (tbl_contact (out_db o)) = map Contact.id (tbl_contact db)
  /\ map Contact.account_id (tbl_contact (out_db o))
     = map Contact.account_id (tbl_contact db)
  /\ tbl_relationship (out_db o) = tbl_relationship db
  /\ tbl_relationshiplog (out_db o) = tbl_relationshiplog db.
Proof.
  cbv zeta. unfold update_node.
  destruct (String.eqb node_type "company").
  - destruct (find (fun a => Account.id a =? node_id) (tbl_account db))
      as [a|] eqn:Hf;
      cbn [out_db tbl_account tbl_contact tbl_relationship tbl_relationshiplog];
      repeat split; try reflexivity.
    apply replace_account_ids.
  - destruct (String.eqb node_type "person");
      [|repeat split; reflexivity].
    destruct (find (fun c => Contact.id c =? node_id) (tbl_contact db))
      as [c|] eqn:Hf;
      cbn [out_db tbl_account tbl_contact tbl_relationship tbl_relationshiplog];
      repeat split; try reflexivity.
    + apply replace_contact_ids.
    + pose proof (find_some _ _ Hf) as [Hin Hid]. apply Z.eqb_eq in Hid.
      apply (replace_contact_employers c); [|reflexivity].
      cbn [Contact.id]. now rewrite Hid.
Qed.

(** [update_node] writes one row at most: the keys of both node tables stay
    as they are, in order; every other key reads back as before; no employer
    link, relationship or log entry changes.  It asks for a reload unless
    the row is missing. *)
Theorem update_node_writes_one_row
  (db : Database) (st : RelationshipState.t) (node_id : Z) (node_type : string)
  (updated_data : list (string * string)) :
  let o := update_node db st node_id node_type updated_data in
  map Account.id (tbl_account (out_db o)) = map Account.id (tbl_account db)
  /\ map Contact.id (tbl_contact (out_db o)) = map Contact.id (tbl_contact db)
  /\ (forall k, k <> node_id ->
        find (fun a => Account.id a =? k) (tbl_account (out_db o))
        = find (fun a => Account.id a =? k) (tbl_account db)
        /\ find (fun c => Contact.id c =? k) (tbl_contact (out_db o))
           = find (fun c => Contact.id c =? k) (tbl_contact db))
  /\ map Contact.account_id (tbl_contact (out_db o))
     = map Contact.account_id (tbl_contact db)
  /\ tbl_relationship (out_db o) = tbl_relationship db
  /\ tbl_relationshiplog (out_db o) = tbl_relationshiplog db
  /\ out_state o = st
  /\ (yielded o = [load_data] \/ (yielded o = [] /\ out_db o = db)).
Proof.
  cbv zeta. unfold update_node.
  destruct (String.eqb node_type "company").
  - destruct (find (fun a => Account.id a =? node_id) (tbl_account db))
      as [a|] eqn:Hf;
      cbn [out_db out_state yielded tbl_account tbl_contact tbl_relationship
             tbl_relationshiplog].
    + apply find_some in Hf. destruct Hf as [_ Hid]. apply Z.eqb_eq in Hid.
      repeat split; try reflexivity.
      * apply replace_account_ids.
      * apply find_replace_account_other. cbn [Account.id]. congruence.
      * now left.
    + repeat split; try reflexivity. right. now split.
  - destruct (String.eqb node_type "person");
      [|repeat split; try reflexivity; now left].
    destruct (find (fun c => Contact.id c =? node_id) (tbl_contact db))
      as [c|] eqn:Hf;
      cbn [out_db out_state yielded tbl_account tbl_contact tbl_relationship
             tbl_relationshiplog].
    + pose proof (find_some _ _ Hf) as [Hin Hid]. apply Z.eqb_eq in Hid.
      repeat split; try reflexivity.
      * apply replace_contact_ids.
      * apply find_replace_contact_other. cbn [Contact.id]. congruence.
      * apply (replace_contact_employers c); [|reflexivity].
        cbn [Contact.id]. now rewrite Hid.
      * now left.
    + repeat split; try reflexivity. right. now split.
Qed.

Lemma resolves_incl (db db' : Database) (n : Node) :
  incl (map Account.id (tbl_account db)) (map Account.id (tbl_account db')) ->
  incl (map Contact.id (tbl_contact db)) (map Contact.id (tbl_contact db')) ->
  resolves db n -> resolves db' n.
Proof.
  intros Ha Hc [[Ht Hin]|[Ht Hin]]; [left | right]; split; auto.
Qed.

(** The store [delete_node] leaves, table by table. *)
Lemma delete_node_store
  (db : Database) (st : RelationshipState.t) (node_id : Z) (node_type : string) :
  let db' := out_db (delete_node db st node_id node_type) in
  let removed :=
    map Relationship.id
      (filter (touches node_type node_id) (tbl_relationship db)) in
  tbl_relationship db'
  = filter (fun r => negb (mem Z.eqb (Relationship.id r) removed))
           (tbl_relationship db)
  /\ tbl_relationshiplog db'
     = filter (fun l => negb (mem Z.eqb (RelationshipLog.relationship_id l)
                                  removed))
              (tbl_relationshiplog db)
  /\ ((node_type = "company"
       /\ tbl_account db'
          = filter (fun a => negb (Account.id a =? node_id)) (tbl_account db)
       /\ tbl_contact db'
          = map (fun c => if linked_to node_id c then detach c else c)
                (tbl_contact db))
      \/ (node_type = "person"
          /\ tbl_account db' = tbl_account db
          /\ tbl_contact db'
             = filter (fun c => negb (Contact.id c =? node_id)) (tbl_contact db))
      \/ (tbl_account db' = tbl_account db /\ tbl_contact db' = tbl_contact db)).
Proof.
  cbv zeta. unfold delete_node. cbn [out_db].
  destruct (fold_delete_relationship
              (filter (touches node_type node_id) (tbl_relationship db)) db)
    as [Hr [Hl [Ha Hc]]].
  cbv zeta in Hr, Hl, Ha, Hc.
  destruct (String.eqb node_type "company") eqn:Ec.
  - apply String.eqb_eq in Ec.
    destruct (find _ _); cbn [tbl_account tbl_contact tbl_relationship
                               tbl_relationshiplog];
      rewrite ?Hr, ?Hl, ?Ha, ?Hc; repeat split; auto.
  - destruct (String.eqb node_type "person") eqn:Ep.
    + apply String.eqb_eq in Ep.
      destruct (find _ _); cbn [tbl_account tbl_contact tbl_relationship
                                 tbl_relationshiplog];
        rewrite ?Hr, ?Hl, ?Ha, ?Hc; repeat split; auto.
    + rewrite Hr, Hl, Ha, Hc. repeat split; auto.
Qed.

Lemma untouched_end (node_type : string) (node_id : Z) (r : Relationship.t) :
  touches node_type node_id r = false ->
  src r <> (node_type, node_id) /\ tgt r <> (node_type, node_id).
Proof.
  unfold touches, src, tgt. intros H. apply orb_false_iff in H.
  destruct H as [Hs Ht].
  split; intros E; inversion E; subst;
    rewrite String.eqb_refl, Z.eqb_refl in *; discriminate.
Qed.

(** The node handlers keep every reference resolvable.  When each employer,
    each end of a relationship and each logged relationship is stored, the
    same holds after [add_node], after [update_node] and after [delete_node],
    whatever their arguments: deleting a node takes its relationships and
    their logs with it and unlinks its employees. *)
Theorem node_handlers_keep_references
  (db : Database) (st : RelationshipState.t) (node_id : Z)
  (node_type name title : string) (updated_data : list (string * string))
  (t1 t2 : datetime) :
  referential_integrity db ->
  referential_integrity (out_db (add_node db st node_type name title t1 t2))
  /\ referential_integrity
       (out_db (update_node db st node_id node_type updated_data))
  /\ referential_integrity (out_db (delete_node db st node_id node_type)).
Proof.
  intros [Hemp [Hends Hlogs]]. split; [|split].
  - (* add_node *)
    assert (forall accs cons,
              (accs = tbl_account db \/ exists a, accs = (tbl_account db ++ [a])%list) ->
              (cons = tbl_contact db
               \/ exists c, cons = (tbl_contact db ++ [c])%list
                            /\ Contact.account_id c = None) ->
              referential_integrity
                (mkDatabase accs cons (tbl_relationship db)
                   (tbl_relationshiplog db))) as Hgrow.
    { intros accs cons Ha Hc.
      assert (incl (map Account.id (tbl_account db)) (map Account.id accs)) as Ia.
      { destruct Ha as [->|[a ->]]; [apply incl_refl|].
        rewrite map_app. now apply incl_appl, incl_refl. }
      assert (incl (map Contact.id (tbl_contact db)) (map Contact.id cons)) as Ic.
      { destruct Hc as [->|[c [-> _]]]; [apply incl_refl|].
        rewrite map_app. now apply incl_appl, incl_refl. }
      split; [|split]; cbn [tbl_account tbl_contact tbl_relationship
                              tbl_relationshiplog].
      - intros c a Hin He. apply Ia.
        destruct Hc as [->|[c0 [-> Hnone]]]; [now apply (Hemp c)|].
        apply in_app_or in Hin. destruct Hin as [Hin|[<-|[]]];
          [now apply (Hemp c) | congruence].
      - intros r Hr. destruct (Hends r Hr) as [Hs Ht].
        split; eapply resolves_incl; try eassumption; assumption.
      - exact Hlogs. }
    unfold add_node. rewrite validate_new_node.
    assert (referential_integrity db) as Hdb by (split; [|split]; assumption).
    destruct (String.eqb node_type "company").
    + destruct (blank name); cbn [negb out_db]; [exact Hdb|].
      destruct (find _ _); cbn [out_db]; [exact Hdb|].
      apply Hgrow; [right; eauto | now left].
    + destruct (String.eqb node_type "person"); [|exact Hdb].
      destruct (blank name); cbn [negb out_db]; [exact Hdb|]. cbv zeta.
      destruct (find _ _); cbn [out_db]; [exact Hdb|].
      apply Hgrow; [now left | right; eexists; split; reflexivity].
  - (* update_node *)
    destruct (update_node_store_facts db st node_id node_type updated_data)
      as [Ha [Hc [He [Hr Hl]]]].
    split; [|split].
    + intros c a Hin Hacc. rewrite Ha.
      assert (In (Some a) (map Contact.account_id (tbl_contact db))) as H
        by (rewrite <- He, <- Hacc; now apply in_map).
      apply in_map_iff in H. destruct H as [c0 [H0 Hin0]].
      now apply (Hemp c0).
    + rewrite Hr. intros r Hin. destruct (Hends r Hin) as [Hs Ht].
      split; eapply resolves_incl; try eassumption;
        rewrite ?Ha, ?Hc; apply incl_refl.
    + rewrite Hl, Hr. exact Hlogs.
  - (* delete_node *)
    destruct (delete_node_store db st node_id node_type)
      as [Hr [Hl Hnodes]].
    set (db' := out_db (delete_node db st node_id node_type)) in *.
    set (removed := map Relationship.id
                      (filter (touches node_type node_id) (tbl_relationship db)))
      in *.
    assert (forall r, In r (tbl_relationship db') ->
              In r (tbl_relationship db)
              /\ touches node_type node_id r = false) as Hkept.
    { intros r Hin. rewrite Hr in Hin. apply filter_In in Hin.
      destruct Hin as [Hin Hmem]. split; [assumption|].
      destruct (touches node_type node_id r) eqn:Ht; [|reflexivity].
      apply negb_true_iff in Hmem.
      assert (mem Z.eqb (Relationship.id r) removed = true) as Habs.
      { apply mem_Z_In. apply in_map. apply filter_In. now split. }
      rewrite Habs in Hmem. discriminate. }
    assert (forall n : Node,
              resolves db n -> n <> (node_type, node_id) -> resolves db' n)
      as Hres.
    { intros [ty k] Hn Hne.
      destruct Hnodes as [[Hty [Ha Hc]]|[[Hty [Ha Hc]]|[Ha Hc]]].
      - destruct Hn as [[Ht Hin]|[Ht Hin]]; cbn [fst snd] in *.
        + left. split; [assumption|]. rewrite Ha. cbn [fst snd].
          apply in_map_iff in Hin. destruct Hin as [a [Hid Hin]].
          apply in_map_iff. exists a. split; [assumption|].
          apply filter_In. split; [assumption|]. apply negb_true_iff.
          apply Z.eqb_neq. intros E. apply Hne. congruence.
        + right. split; [assumption|]. rewrite Hc, map_map. cbn [fst snd].
          apply in_map_iff in Hin. destruct Hin as [c [Hid Hin]].
          apply in_map_iff. exists c. split; [|assumption].
          now destruct (linked_to node_id c).
      - destruct Hn as [[Ht Hin]|[Ht Hin]]; cbn [fst snd] in *.
        + left. split; [assumption|]. now rewrite Ha.
        + right. split; [assumption|]. rewrite Hc. cbn [fst snd].
          apply in_map_iff in Hin. destruct Hin as [c [Hid Hin]].
          apply in_map_iff. exists c. split; [assumption|].
          apply filter_In. split; [assumption|]. apply negb_true_iff.
          apply Z.eqb_neq. intros E. apply Hne. congruence.
      - destruct Hn as [[Ht Hin]|[Ht Hin]]; [left | right];
          (split; [assumption|]); now rewrite ?Ha, ?Hc. }
    split; [|split].
    + intros c a Hin Hacc.
      destruct Hnodes as [[Hty [Ha Hc]]|[[Hty [Ha Hc]]|[Ha Hc]]].
      * rewrite Hc in Hin. apply in_map_iff in Hin.
        destruct Hin as [c0 [Hc0 Hin0]]. rewrite Ha.
        destruct (linked_to node_id c0) eqn:Hlink;
          [subst c; discriminate|]. subst c0.
        pose proof (Hemp c a Hin0 Hacc) as Hin.
        apply in_map_iff in Hin. destruct Hin as [x [Hid Hin]].
        apply in_map_iff. exists x. split; [assumption|].
        apply filter_In. split; [assumption|]. apply negb_true_iff.
        apply Z.eqb_neq. intros E. unfold linked_to in Hlink.
        rewrite Hacc in Hlink. apply Z.eqb_neq in Hlink. congruence.
      * rewrite Ha. rewrite Hc in Hin. apply filter_In in Hin.
        now apply (Hemp c a).
      * rewrite Ha. rewrite Hc in Hin. now apply (Hemp c a).
    + intros r Hin. destruct (Hkept r Hin) as [Hin0 Ht].
      destruct (untouched_end _ _ _ Ht) as [Hs Hg].
      destruct (Hends r Hin0). split; now apply Hres.
    + intros l Hin. rewrite Hl in Hin. apply filter_In in Hin.
      destruct Hin as [Hin Hmem]. pose proof (Hlogs l Hin) as Hrel.
      apply in_map_iff in Hrel. destruct Hrel as [r [Hid Hr0]].
      apply in_map_iff. exists r. split; [assumption|].
      rewrite Hr. apply filter_In. split; [assumption|]. now rewrite Hid.
Qed.

Lemma firm_referential_integrity : referential_integrity Firm.db.
Proof.
  split; [|split].
  - intros c a [<-|[<-|[<-|[]]]] H; inversion H; cbn; auto.
  - intros r [<-|[<-|[]]]; split;
      solve [left; split; [reflexivity | cbn; auto]
            | right; split; [reflexivity | cbn; auto]].
  - intros l [<-|[<-|[]]]; cbn; auto.
Qed.

Lemma node_handlers_keep_references_witness :
  referential_integrity Firm.db
  /\ referential_integrity
       (out_db (delete_node Firm.db (Sample.state 1 false) 1 "company")).
Proof.
  split; [exact firm_referential_integrity|].
  exact (proj2 (proj2 (node_handlers_keep_references
                         Firm.db (Sample.state 1 false) 1 "company" "" "" []
                         0 0 firm_referential_integrity))).
Defined.



(** ** Search expansion: the two hops in general *)

Lemma Node_eqb_false (a b : Node) : Node_eqb a b = false -> a <> b.
Proof. intros H ->. rewrite Node_eqb_refl in H. discriminate. Qed.

Lemma adj_append_get (k v : Node) (adj : list (Node * list Node)) (k' x : Node) :
  In x (adj_get (adj_append k v adj) k')
  <-> In x (adj_get adj k') \/ (k = k' /\ x = v).
Proof.
  unfold adj_get. induction adj as [|[k2 vs] adj IH]; cbn [adj_append find fst snd].
  - destruct (Node_eqb k k') eqn:E.
    + apply Node_eqb_eq in E. cbn. intuition congruence.
    + apply Node_eqb_false in E. cbn. intuition congruence.
  - destruct (Node_eqb k2 k) eqn:E2; cbn [find fst snd].
    + apply Node_eqb_eq in E2. subst k2.
      destruct (Node_eqb k k') eqn:E.
      * apply Node_eqb_eq in E. cbn [snd]. rewrite in_app_iff. cbn.
        intuition congruence.
      * apply Node_eqb_false in E. intuition congruence.
    + apply Node_eqb_false in E2.
      destruct (Node_eqb k2 k') eqn:E.
      * apply Node_eqb_eq in E. cbn [snd]. subst k2. intuition congruence.
      * exact IH.
Qed.

(** The adjacency lists hold exactly the neighbours. *)
Lemma build_adj_get (rels : list Relationship.t) (n x : Node) :
  In x (adj_get (build_adj rels) n) <-> adjacent rels n x.
Proof.
  unfold build_adj.
  assert (forall acc,
            In x (adj_get
                    (fold_left
                       (fun adj r =>
                          adj_append (tgt r) (src r)
                            (adj_append (src r) (tgt r) adj)) rels acc) n)
            <-> In x (adj_get acc n) \/ adjacent rels n x) as H.
  { induction rels as [|r rels IH]; intros acc; cbn [fold_left].
    - split; [now left|]. intros [H|[r [[] _]]]. exact H.
    - rewrite IH, !adj_append_get. unfold adjacent. split.
      + intros [[[H|[Hs Hx]]|[Ht Hx]]|[r' [Hin Hr']]].
        * now left.
        * right. exists r. split; [now left|]. left. now subst.
        * right. exists r. split; [now left|]. right. now subst.
        * right. exists r'. split; [now right | assumption].
      + intros [H|[r' [[<-|Hin] Hr']]].
        * left. left. now left.
        * left. destruct Hr' as [[Hs Ht]|[Ht Hs]].
          -- left. right. now subst.
          -- right. now subst.
        * right. exists r'. now split. }
  rewrite H. cbn. intuition.
Qed.

Lemma expand_visit (adj : list (Node * list Node)) (cur visited : list Node) :
  expand adj cur visited
  = fold_left (fun acc node => visit_neighbors acc (adj_get adj node))
              cur (visited, []).
Proof. reflexivity. Qed.

Lemma in_dec_mem (x : Node) (s : list Node) : In x s \/ ~ In x s.
Proof.
  destruct (mem Node_eqb x s) eqn:E.
  - left. now apply mem_In.
  - right. intros H. apply mem_In in H. congruence.
Qed.

Lemma visit_neighbors_spec (l v nx : list Node) :
  let '(v', nx') := visit_neighbors (v, nx) l in
  (forall x, In x v' <-> In x v \/ In x l)
  /\ (forall x, In x nx' <-> In x nx \/ (In x l /\ ~ In x v))
  /\ (NoDup v -> NoDup v').
Proof.
  revert v nx. induction l as [|nb l IH]; intros v nx.
  - cbn. split; [|split]; intuition.
  - unfold visit_neighbors. cbn [fold_left].
    destruct (mem Node_eqb nb v) eqn:E; cbn [negb].
    + apply mem_In in E. specialize (IH v nx). unfold visit_neighbors in IH.
      destruct (fold_left _ l (v, nx)) as [v' nx'].
      destruct IH as [Hv [Hn Hd]]. split; [|split].
      * intros x. rewrite Hv. cbn. intuition (subst; auto).
      * intros x. rewrite Hn. cbn. intuition (subst; auto). subst. contradiction.
      * assumption.
    + assert (~ In nb v) as Hnb by (intros H; apply mem_In in H; congruence).
      specialize (IH (set_add Node_eqb nb v) (set_add Node_eqb nb nx)).
      unfold visit_neighbors in IH.
      destruct (fold_left _ l (set_add Node_eqb nb v, set_add Node_eqb nb nx))
        as [v' nx'].
      destruct IH as [Hv [Hn Hd]]. split; [|split].
      * intros x. rewrite Hv, set_add_In. cbn. intuition (subst; auto).
      * intros x. rewrite Hn, !set_add_In. split.
        -- intros [[->|H]|[Hl Hnot]].
           ++ right. split; [now left | assumption].
           ++ now left.
           ++ right. split; [now right|]. intros Hx. apply Hnot. now right.
        -- intros [H|[[<-|Hl] Hx]].
           ++ left. now right.
           ++ left. now left.
           ++ destruct (Node_eqb x nb) eqn:Exn;
                [apply Node_eqb_eq in Exn; subst x
                | apply Node_eqb_false in Exn].
              ** left. now left.
              ** right. split; [assumption|]. intros [->|H]; contradiction.
      * intros Hnd. apply Hd. now apply set_add_NoDup.
Qed.

Lemma expand_fold_spec (adj : list (Node * list Node)) (cur v nx : list Node) :
  let '(v', nx') :=
    fold_left (fun acc node => visit_neighbors acc (adj_get adj node))
              cur (v, nx) in
  (forall x, In x v' <-> In x v \/ exists m, In m cur /\ In x (adj_get adj m))
  /\ (forall x, In x nx'
                <-> In x nx
                    \/ ((exists m, In m cur /\ In x (adj_get adj m))
                        /\ ~ In x v))
  /\ (NoDup v -> NoDup v').
Proof.
  revert v nx. induction cur as [|m cur IH]; intros v nx; cbn [fold_left].
  - split; [|split]; [| |auto]; intros x; split; auto.
    + intros [H|[m [[] _]]]. exact H.
    + intros [H|[[m [[] _]] _]]. exact H.
  - pose proof (visit_neighbors_spec (adj_get adj m) v nx) as H1.
    destruct (visit_neighbors (v, nx) (adj_get adj m)) as [v1 nx1].
    destruct H1 as [Hv1 [Hn1 Hd1]].
    specialize (IH v1 nx1).
    destruct (fold_left _ cur (v1, nx1)) as [v' nx'].
    destruct IH as [Hv [Hn Hd]]. split; [|split].
    + intros x. rewrite Hv, Hv1. split.
      * intros [[H|H]|[m' [Hm' Hx]]].
        -- now left.
        -- right. exists m. split; [now left | assumption].
        -- right. exists m'. split; [now right | assumption].
      * intros [H|[m' [[<-|Hm'] Hx]]].
        -- left. now left.
        -- left. now right.
        -- right. exists m'. now split.
    + intros x. rewrite Hn, Hn1, Hv1. split.
      * intros [[H|[Hx Hnot]]|[[m' [Hm' Hx]] Hnot]].
        -- now left.
        -- right. split; [|assumption]. exists m. split; [now left | assumption].
        -- right. split; [|intros Hx'; apply Hnot; now left].
           exists m'. split; [now right | assumption].
      * intros [H|[[m' [[<-|Hm'] Hx]] Hnot]].
        -- left. now left.
        -- left. right. now split.
        -- destruct (in_dec_mem x (adj_get adj m)) as [Hin|Hout].
           ++ left. right. now split.
           ++ right. split; [exists m'; now split|]. intros [H|H]; contradiction.
    + intros Hnd. apply Hd, Hd1, Hnd.
Qed.

Lemma expand_spec (adj : list (Node * list Node)) (cur v : list Node) :
  let '(v', nx') := expand adj cur v in
  (forall x, In x v' <-> In x v \/ exists m, In m cur /\ In x (adj_get adj m))
  /\ (forall x, In x nx'
                <-> (exists m, In m cur /\ In x (adj_get adj m)) /\ ~ In x v)
  /\ (NoDup v -> NoDup v').
Proof.
  rewrite expand_visit.
  pose proof (expand_fold_spec adj cur v []) as H.
  destruct (fold_left _ cur (v, [])) as [v' nx'].
  destruct H as [Hv [Hn Hd]]. split; [exact Hv|]. split; [|exact Hd].
  intros x. rewrite Hn. cbn. intuition.
Qed.

Lemma hops_two (adj : list (Node * list Node)) (limit : Z) (seeds : list Node) :
  hops 2 adj limit seeds seeds
  = (let '(v1, n1) := expand adj seeds seeds in
     if Z.of_nat (List.length v1) >=? limit then v1
     else fst (expand adj n1 v1)).
Proof.
  cbn [hops]. destruct (expand adj seeds seeds) as [v1 n1].
  destruct (Z.of_nat (List.length v1) >=? limit); [reflexivity|].
  destruct (expand adj n1 v1) as [v2 n2]. cbn [fst].
  now destruct (Z.of_nat (List.length v2) >=? limit).
Qed.

Lemma NoDup_firstn {A} (n : nat) (l : list A) : NoDup l -> NoDup (firstn n l).
Proof.
  revert n. induction l as [|x l IH]; intros n H; destruct n; cbn;
    try constructor.
  - inversion H as [|? ? Hx Hl]; subst. intros Hin. apply Hx.
    now apply in_firstn in Hin.
  - inversion H; subst. now apply IH.
Qed.

Lemma in_slice_to {A} (l : list A) (n : Z) (x : A) :
  In x (Py.slice_to l n) -> In x l.
Proof. unfold Py.slice_to. destruct (0 <=? n); apply in_firstn. Qed.

Section Expansion.

Variables (db : Database) (st : RelationshipState.t) (seeds : list Node).

Let rels := scan_relationships db st.
Let adj := build_adj rels.

Lemma first_hop_spec :
  let '(v1, n1) := expand adj seeds seeds in
  (forall x, In x v1 <-> In x seeds \/ exists m, In m seeds /\ adjacent rels m x)
  /\ (forall x, In x n1
                <-> (exists m, In m seeds /\ adjacent rels m x) /\ ~ In x seeds)
  /\ (NoDup seeds -> NoDup v1).
Proof.
  pose proof (expand_spec adj seeds seeds) as H.
  destruct (expand adj seeds seeds) as [v1 n1].
  destruct H as [Hv [Hn Hd]]. split; [|split; [|exact Hd]]; intros x.
  - rewrite Hv. split; (intros [H|[m [Hm Hx]]]; [now left|]); right; exists m;
      (split; [assumption|]); now apply build_adj_get.
  - rewrite Hn. split; intros [[m [Hm Hx]] Hnot]; (split; [|assumption]);
      exists m; (split; [assumption|]); now apply build_adj_get.
Qed.

Lemma second_hop_spec (v1 n1 : list Node) :
  expand adj seeds seeds = (v1, n1) ->
  (forall x, In x (fst (expand adj n1 v1)) <-> within_two_hops rels seeds x)
  /\ (NoDup seeds -> NoDup (fst (expand adj n1 v1))).
Proof.
  intros E. pose proof first_hop_spec as H1. rewrite E in H1.
  destruct H1 as [Hv1 [Hn1 Hd1]].
  pose proof (expand_spec adj n1 v1) as H2.
  destruct (expand adj n1 v1) as [v2 n2]. cbn [fst].
  destruct H2 as [Hv2 [_ Hd2]]. split; [|auto].
  intros x. rewrite Hv2, Hv1. unfold within_two_hops. split.
  - intros [[H|H]|[k [Hk Hx]]].
    + now left.
    + right. now left.
    + apply Hn1 in Hk. destruct Hk as [[m [Hm Hmk]] _].
      apply build_adj_get in Hx. right. right. exists m, k. now repeat split.
  - intros [H|[H|[m [k [Hm [Hmk Hkx]]]]]].
    + left. now left.
    + left. now right.
    + destruct (in_dec_mem k seeds) as [Hin|Hout].
      * left. right. exists k. now split.
      * right. exists k. split; [|now apply build_adj_get].
        apply Hn1. split; [|assumption]. exists m. now split.
Qed.

(** Every node the expansion visits lies within two hops of a seed, and the
    visited nodes are pairwise distinct. *)
Lemma visited_from_sound :
  (forall n, In n (visited_from db st seeds) -> within_two_hops rels seeds n)
  /\ (NoDup seeds -> NoDup (visited_from db st seeds)).
Proof.
  unfold visited_from. fold rels. fold adj. rewrite hops_two.
  pose proof first_hop_spec as H1.
  destruct (expand adj seeds seeds) as [v1 n1] eqn:E.
  destruct H1 as [Hv1 [Hn1 Hd1]].
  destruct (second_hop_spec v1 n1 E) as [Hv2 Hd2].
  set (visited := if Z.of_nat (List.length v1) >=? node_limit st then v1
                  else fst (expand adj n1 v1)).
  assert ((forall n, In n visited -> within_two_hops rels seeds n)
          /\ (NoDup seeds -> NoDup visited)) as [Hs Hd].
  { subst visited. destruct (Z.of_nat (List.length v1) >=? node_limit st).
    - split; [|exact Hd1]. intros n Hn. apply Hv1 in Hn.
      destruct Hn as [H|H]; [now left | right; now left].
    - split; [|exact Hd2]. intros n Hn. now apply Hv2. }
  destruct (Z.of_nat (List.length visited) >? node_limit st).
  - split.
    + intros n Hn. apply Hs. now apply in_slice_to in Hn.
    + intros Hnd. unfold Py.slice_to.
      destruct (0 <=? node_limit st); apply NoDup_firstn; auto.
  - now split.
Qed.

(** With fewer than [node_limit] distinct nodes within two hops of the seeds,
    the expansion visits each of them. *)
Lemma visited_from_complete :
  NoDup seeds ->
  (forall l, NoDup l -> (forall n, In n l -> within_two_hops rels seeds n) ->
             Z.of_nat (List.length l) < node_limit st) ->
  forall n, within_two_hops rels seeds n -> In n (visited_from db st seeds).
Proof.
  intros Hnd Hfew n Hn.
  unfold visited_from. fold rels. fold adj. rewrite hops_two.
  pose proof first_hop_spec as H1.
  destruct (expand adj seeds seeds) as [v1 n1] eqn:E.
  destruct H1 as [Hv1 [Hn1 Hd1]].
  destruct (second_hop_spec v1 n1 E) as [Hv2 Hd2].
  assert (Z.of_nat (List.length v1) < node_limit st) as Hl1.
  { apply Hfew; [auto|]. intros x Hx. apply Hv1 in Hx.
    destruct Hx as [H|H]; [now left | right; now left]. }
  assert (Z.of_nat (List.length (fst (expand adj n1 v1))) < node_limit st)
    as Hl2.
  { apply Hfew; [auto|]. intros x Hx. now apply Hv2. }
  assert ((Z.of_nat (List.length v1) >=? node_limit st) = false) as ->
    by (rewrite Z.geb_leb; apply Z.leb_gt; lia).
  assert ((Z.of_nat (List.length (fst (expand adj n1 v1))) >? node_limit st)
          = false) as ->
    by (rewrite Z.gtb_ltb; apply Z.ltb_ge; lia).
  now apply Hv2.
Qed.

End Expansion.

(** ** Search: the subgraph shown *)

Lemma set_add_Z_In (x y : Z) (s : list Z) :
  In y (set_add Z.eqb x s) <-> y = x \/ In y s.
Proof.
  unfold set_add. destruct (mem Z.eqb x s) eqn:E.
  - apply mem_Z_In in E. split; [auto | intros [->|H]; assumption].
  - rewrite in_app_iff. cbn. intuition.
Qed.

Lemma set_of_Z_spec (l : list Z) (y : Z) :
  In y (set_of Z.eqb l) <-> In y l.
Proof.
  unfold set_of.
  assert (forall acc, In y (fold_left (fun s x => set_add Z.eqb x s) l acc)
                      <-> In y l \/ In y acc) as H.
  { induction l as [|x l IH]; intros acc; cbn [fold_left].
    - cbn. intuition.
    - rewrite IH, set_add_Z_In. cbn. intuition. }
  rewrite H. cbn. intuition.
Qed.

Lemma set_of_Z_length (l : list Z) :
  (List.length (set_of Z.eqb l) <= List.length l)%nat.
Proof.
  unfold set_of.
  assert (forall acc,
            (List.length (fold_left (fun s x => set_add Z.eqb x s) l acc)
             <= List.length l + List.length acc)%nat) as H.
  { induction l as [|x l IH]; intros acc; cbn [fold_left List.length].
    - lia.
    - specialize (IH (set_add Z.eqb x acc)).
      assert (List.length (set_add Z.eqb x acc) <= S (List.length acc))%nat.
      { unfold set_add. destruct (mem Z.eqb x acc); [lia|].
        rewrite length_app. cbn. lia. }
      lia. }
  specialize (H []). cbn in H. lia.
Qed.

Lemma ids_of_type_spec (ty : string) (nodes : list Node) (k : Z) :
  In k (ids_of_type ty nodes) <-> In (ty, k) nodes.
Proof.
  unfold ids_of_type. rewrite set_of_Z_spec, in_map_iff. split.
  - intros [[t i] [<- H]]. apply filter_In in H. destruct H as [H Ht].
    cbn [fst snd] in *. apply String.eqb_eq in Ht. now subst.
  - intros H. exists (ty, k). split; [reflexivity|]. apply filter_In.
    split; [assumption|]. cbn [fst]. apply String.eqb_refl.
Qed.

Lemma accounts_in_spec (db : Database) (ids : list Z) (a : Account.t) :
  In a (accounts_in db ids) <-> In a (tbl_account db) /\ In (Account.id a) ids.
Proof.
  unfold accounts_in. destruct ids as [|i ids]; [cbn; intuition|].
  rewrite filter_In, mem_Z_In. reflexivity.
Qed.

Lemma contacts_in_spec (db : Database) (ids : list Z) (c : Contact.t) :
  In c (contacts_in db ids) <-> In c (tbl_contact db) /\ In (Contact.id c) ids.
Proof.
  unfold contacts_in. destruct ids as [|i ids]; [cbn; intuition|].
  rewrite filter_In, mem_Z_In. reflexivity.
Qed.

(** The three lists [search_and_build_subgraph] assigns, in terms of the
    visited set. *)
Lemma search_lists (db : Database) (st : RelationshipState.t) (query : string) :
  let st' := search_and_build_subgraph db st query in
  let seeds := seed_frontier db query in
  exists visited,
    (seeds = [] /\ visited = []
     \/ seeds <> [] /\ visited = visited_from db st seeds)
    /\ filtered_accounts st' = accounts_in db (ids_of_type "company" visited)
    /\ filtered_contacts st' = contacts_in db (ids_of_type "person" visited)
    /\ forall r, In r (filtered_relationships st')
                 <-> In r (scan_relationships db st)
                     /\ In (src r) visited /\ In (tgt r) visited.
Proof.
  cbv zeta. unfold search_and_build_subgraph.
  destruct (seed_frontier db query) as [|s seeds] eqn:E.
  - exists []. split; [now left|].
    split; [reflexivity|]. split; [reflexivity|]. intros r.
    split; [intros [] | intros [_ [[] _]]].
  - exists (visited_from db st (s :: seeds)).
    split; [right; split; [discriminate | reflexivity]|].
    split; [reflexivity|]. split; [reflexivity|].
    intros r. cbn [filtered_relationships set_filtered_relationships].
    rewrite filter_In. unfold between. rewrite andb_true_iff, !mem_In.
    reflexivity.
Qed.

Lemma seed_frontier_NoDup (db : Database) (query : string) :
  NoDup (seed_frontier db query).
Proof. unfold seed_frontier. apply set_of_spec. Qed.

(** Search shows nothing farther than two hops from a match: every account,
    contact and relationship [search_and_build_subgraph] selects is stored
    (the relationship scanned), and each node and each end of a relationship
    is a match, a neighbour of a match or a neighbour of such a neighbour
    over the scanned relationships. *)
Theorem search_subgraph_within_two_hops
  (db : Database) (st : RelationshipState.t) (query : string) :
  let st' := search_and_build_subgraph db st query in
  let rels := scan_relationships db st in
  let seeds := seed_frontier db query in
  (forall a, In a (filtered_accounts st') ->
     In a (tbl_account db)
     /\ within_two_hops rels seeds ("company", Account.id a))
  /\ (forall c, In c (filtered_contacts st') ->
        In c (tbl_contact db)
        /\ within_two_hops rels seeds ("person", Contact.id c))
  /\ (forall r, In r (filtered_relationships st') ->
        In r rels
        /\ within_two_hops rels seeds (src r)
        /\ within_two_hops rels seeds (tgt r)).
Proof.
  intros st' rels seeds.
  destruct (search_lists db st query) as [visited [Hv [Ha [Hc Hr]]]].
  fold st' in Ha, Hc, Hr. fold seeds in Hv.
  assert (forall n, In n visited -> within_two_hops rels seeds n) as Hsound.
  { destruct Hv as [[_ ->]|[_ ->]]; [intros n []|].
    apply visited_from_sound. }
  split; [|split].
  - intros a Hin. rewrite Ha in Hin. apply accounts_in_spec in Hin.
    destruct Hin as [Hin Hid]. split; [assumption|].
    apply Hsound. now apply ids_of_type_spec.
  - intros c Hin. rewrite Hc in Hin. apply contacts_in_spec in Hin.
    destruct Hin as [Hin Hid]. split; [assumption|].
    apply Hsound. now apply ids_of_type_spec.
  - intros r Hin. apply Hr in Hin. destruct Hin as [Hin [Hs Ht]].
    split; [assumption|]. split; now apply Hsound.
Qed.

(** Below the limit search shows all of it: with fewer than [node_limit]
    distinct nodes within two hops of the matches, every stored account and
    contact within two hops is selected, and so is every scanned
    relationship whose two ends are. *)
Theorem search_subgraph_complete_below_limit
  (db : Database) (st : RelationshipState.t) (query : string) :
  let st' := search_and_build_subgraph db st query in
  let rels := scan_relationships db st in
  let seeds := seed_frontier db query in
  (forall l, NoDup l -> (forall n, In n l -> within_two_hops rels seeds n) ->
             Z.of_nat (List.length l) < node_limit st) ->
  (forall a, In a (tbl_account db) ->
     within_two_hops rels seeds ("company", Account.id a) ->
     In a (filtered_accounts st'))
  /\ (forall c, In c (tbl_contact db) ->
        within_two_hops rels seeds ("person", Contact.id c) ->
        In c (filtered_contacts st'))
  /\ (forall r, In r rels ->
        within_two_hops rels seeds (src r) ->
        within_two_hops rels seeds (tgt r) ->
        In r (filtered_relationships st')).
Proof.
  intros st' rels seeds Hfew.
  destruct (search_lists db st query) as [visited [Hv [Ha [Hc Hr]]]].
  fold st' in Ha, Hc, Hr. fold seeds in Hv.
  assert (forall n, within_two_hops rels seeds n -> In n visited) as Hall.
  { destruct Hv as [[He ->]|[_ ->]].
    - intros n [H|[[m [H _]]|[m [k [H _]]]]]; rewrite He in H; destruct H.
    - apply visited_from_complete; [apply seed_frontier_NoDup | exact Hfew]. }
  split; [|split].
  - intros a Hin Hw. rewrite Ha. apply accounts_in_spec.
    split; [assumption|]. apply ids_of_type_spec. now apply Hall.
  - intros c Hin Hw. rewrite Hc. apply contacts_in_spec.
    split; [assumption|]. apply ids_of_type_spec. now apply Hall.
  - intros r Hin Hs Ht. apply Hr. split; [assumption|]. split; now apply Hall.
Qed.

Lemma search_subgraph_complete_below_limit_witness :
  In (Sample.person 2 "Yuri" None)
     (filtered_contacts
        (search_and_build_subgraph Sample.one_active (Sample.state 1 false)
           "xena")).
Proof.
  assert (scan_relationships Sample.one_active (Sample.state 1 false)
          = [Sample.link 1 1 2 true FRIEND 80]) as Hrels by reflexivity.
  assert (seed_frontier Sample.one_active "xena" = [("person", 1)]) as Hseeds
    by (vm_compute; reflexivity).
  assert (forall a b, adjacent [Sample.link 1 1 2 true FRIEND 80] a b ->
            In b [("person", 1); ("person", 2)]) as Hadj.
  { intros a b [r [[<-|[]] [[_ <-]|[_ <-]]]]; cbn; auto. }
  destruct (search_subgraph_complete_below_limit
              Sample.one_active (Sample.state 1 false) "xena") as [_ [Hc _]].
  - rewrite Hrels, Hseeds. intros l Hnd Hl.
    assert (incl l [("person", 1); ("person", 2)]) as Hincl.
    { intros n Hn. destruct (Hl n Hn) as [[<-|[]]|[[m [_ H]]|[m [k [_ [_ H]]]]]];
        [cbn; auto | now apply (Hadj m) | now apply (Hadj k)]. }
    pose proof (NoDup_incl_length Hnd Hincl) as Hlen. cbn in Hlen.
    change (node_limit (Sample.state 1 false)) with 100. lia.
  - apply Hc.
    + right. left. reflexivity.
    + rewrite Hrels, Hseeds. right. left. exists ("person", 1).
      split; [now left|]. exists (Sample.link 1 1 2 true FRIEND 80).
      split; [now left|]. left. split; reflexivity.
Defined.

Lemma NoDup_map_filter {A} (key : A -> Z) (f : A -> bool) (l : list A) :
  NoDup (map key l) -> NoDup (map key (filter f l)).
Proof.
  induction l as [|x l IH]; cbn [map filter]; [auto|].
  intros H. inversion H as [|? ? Hx Hl]; subst.
  destruct (f x); cbn [map]; [|auto]. constructor; [|auto].
  intros Hin. apply Hx. apply in_map_iff in Hin. destruct Hin as [y [Hy Hin]].
  apply filter_In in Hin. rewrite <- Hy. apply in_map. tauto.
Qed.

Lemma filter_two_types (nodes : list Node) :
  (List.length (filter (fun n => String.eqb (fst n) "company") nodes)
   + List.length (filter (fun n => String.eqb (fst n) "person") nodes)
   <= List.length nodes)%nat.
Proof.
  induction nodes as [|[ty k] nodes IH]; cbn [filter fst List.length]; [lia|].
  destruct (String.eqb ty "company") eqn:Ec.
  - apply String.eqb_eq in Ec. subst ty.
    change (("company" =? "person")%string) with false. cbn [List.length]. lia.
  - destruct (String.eqb ty "person"); cbn [List.length]; lia.
Qed.

Lemma visited_from_length
  (db : Database) (st : RelationshipState.t) (seeds : list Node) :
  0 <= node_limit st ->
  Z.of_nat (List.length (visited_from db st seeds)) <= node_limit st.
Proof.
  intros Hl. unfold visited_from.
  set (visited := hops 2 _ _ _ _).
  destruct (Z.of_nat (List.length visited) >? node_limit st) eqn:E.
  - unfold Py.slice_to. assert ((0 <=? node_limit st) = true) as ->
      by (apply Z.leb_le; lia).
    rewrite length_firstn. lia.
  - rewrite Z.gtb_ltb in E. apply Z.ltb_ge in E. exact E.
Qed.

(** The rows selected for a set of nodes are no more than the nodes, when
    the keys of the two node tables are distinct. *)
Lemma selected_rows_bound (db : Database) (nodes : list Node) :
  NoDup (map Account.id (tbl_account db)) ->
  NoDup (map Contact.id (tbl_contact db)) ->
  (List.length (accounts_in db (ids_of_type "company" nodes))
   + List.length (contacts_in db (ids_of_type "person" nodes))
   <= List.length nodes)%nat.
Proof.
  intros Hna Hnc.
  assert (List.length (accounts_in db (ids_of_type "company" nodes))
          <= List.length (filter (fun n => String.eqb (fst n) "company") nodes))%nat
    as Hacc.
  { apply Nat.le_trans with (List.length (ids_of_type "company" nodes)).
    - rewrite <- (length_map Account.id). apply NoDup_incl_length.
      + unfold accounts_in. destruct (ids_of_type "company" nodes);
          [constructor | apply NoDup_map_filter; exact Hna].
      + intros k Hk. apply in_map_iff in Hk. destruct Hk as [a [<- Hin]].
        now apply accounts_in_spec in Hin.
    - unfold ids_of_type. etransitivity; [apply set_of_Z_length|].
      rewrite length_map. apply Nat.le_refl. }
  assert (List.length (contacts_in db (ids_of_type "person" nodes))
          <= List.length (filter (fun n => String.eqb (fst n) "person") nodes))%nat
    as Hcon.
  { apply Nat.le_trans with (List.length (ids_of_type "person" nodes)).
    - rewrite <- (length_map Contact.id). apply NoDup_incl_length.
      + unfold contacts_in. destruct (ids_of_type "person" nodes);
          [constructor | apply NoDup_map_filter; exact Hnc].
      + intros k Hk. apply in_map_iff in Hk. destruct Hk as [c [<- Hin]].
        now apply contacts_in_spec in Hin.
    - unfold ids_of_type. etransitivity; [apply set_of_Z_length|].
      rewrite length_map. apply Nat.le_refl. }
  pose proof (filter_two_types nodes). lia.
Qed.

(** Search never shows more nodes than [node_limit]: with distinct keys in
    the two node tables and a limit that is not negative, the accounts and
    contacts [search_and_build_subgraph] selects are [node_limit] at most,
    whatever the query. *)
Theorem search_subgraph_bound
  (db : Database) (st : RelationshipState.t) (query : string) :
  NoDup (map Account.id (tbl_account db)) ->
  NoDup (map Contact.id (tbl_contact db)) ->
  0 <= node_limit st ->
  let st' := search_and_build_subgraph db st query in
  Z.of_nat (List.length (filtered_accounts st')
            + List.length (filtered_contacts st')) <= node_limit st.
Proof.
  intros Hna Hnc Hl st'.
  destruct (search_lists db st query) as [visited [Hv [Ha [Hc _]]]].
  fold st' in Ha, Hc. rewrite Ha, Hc.
  assert (Z.of_nat (List.length visited) <= node_limit st) as Hlen.
  { destruct Hv as [[_ ->]|[_ ->]]; [cbn; lia|].
    now apply visited_from_length. }
  pose proof (selected_rows_bound db visited Hna Hnc). lia.
Qed.

Lemma search_subgraph_bound_witness :
  Z.of_nat
    (List.length
       (filtered_accounts
          (search_and_build_subgraph Firm.db
             (set_node_limit 2 (Sample.state 1 false)) "a"))
     + List.length
         (filtered_contacts
            (search_and_build_subgraph Firm.db
               (set_node_limit 2 (Sample.state 1 false)) "a"))) <= 2.
Proof.
  apply (search_subgraph_bound Firm.db
           (set_node_limit 2 (Sample.state 1 false)) "a").
  - cbn. repeat constructor; cbn; intuition discriminate.
  - cbn. repeat constructor; cbn; intuition discriminate.
  - cbn. lia.
Defined.

(** ** The creation form, start to finish *)

(** The session after opening the form, picking a target and picking a
    term. *)
Lemma form_filled (st : RelationshipState.t) (id : Z) (type term : string) :
  let st' :=
    set_creation_term_handler
      (set_creation_target (start_relationship_creation st) id type) term in
  selected_node_id st' = selected_node_id st
  /\ creation_target_id st' = id
  /\ creation_target_type st' = type
  /\ creation_term st' = term
  /\ is_creating_relationship st' = true
  /\ creation_score st'
     = match RelationshipTerm_of_value term with
       | Some term_enum =>
           d_default_score (dict_get TERM_DEFAULTS term_enum (mkDefault false 0))
       | None => 0
       end.
Proof.
  cbv zeta. unfold set_creation_term_handler.
  destruct (RelationshipTerm_of_value term); repeat split.
Qed.

(** Creating a relationship through the form.  After
    [start_relationship_creation], [set_creation_target] and
    [set_creation_term], with a decodable node selected, a target id other
    than 0 and no stored row from the selected node to the target,
    [create_relationship_from_panel] appends one active row from the selected
    node to the target with a new key, carrying the chosen term with that
    term's default score, directedness and relationship type, closes the form
    and asks for both reloads.  With a term that is no [RelationshipTerm] it
    writes nothing, asks for nothing, returns nothing and leaves the form
    open. *)
Theorem creation_form_applies_term_defaults
  (db : Database) (st : RelationshipState.t) (a : Node) (id : Z)
  (type term : string) (t1 t2 : datetime) :
  decode_node (selected_node_id st) = Some a ->
  id <> 0 ->
  Session.first_relationship_between db (fst a) (snd a) type id = None ->
  let st' :=
    set_creation_term_handler
      (set_creation_target (start_relationship_creation st) id type) term in
  let o := create_relationship_from_panel db st' t1 t2 in
  match RelationshipTerm_of_value term with
  | Some term_enum =>
      exists row,
        out_db o
        = mkDatabase (tbl_account db) (tbl_contact db)
            (tbl_relationship db ++ [row])%list (tbl_relationshiplog db)
        /\ src row = a /\ tgt row = (type, id)
        /\ Relationship.id row
           = Session.next_id (map Relationship.id (tbl_relationship db))
        /\ Relationship.is_active row = true
        /\ Relationship.term row = term_enum
        /\ Relationship.score row
           = d_default_score
               (dict_get TERM_DEFAULTS term_enum (mkDefault false 0))
        /\ Relationship.is_directed row
           = d_is_directed
               (dict_get TERM_DEFAULTS term_enum (mkDefault false 0))
        /\ Relationship.relationship_type row
           = dict_get TERM_TO_TYPE term_enum SOCIAL
        /\ is_creating_relationship (out_state o) = false
        /\ yielded o = [load_data; load_active_node_relationships]
  | None =>
      out_db o = db /\ yielded o = [] /\ returned o = None
      /\ is_creating_relationship (out_state o) = true
  end.
Proof.
  intros Ha Hid Hnone st' o.
  destruct (form_filled st id type term) as [Hsel [Hti [Hty [Hterm [Hcr Hsc]]]]].
  fold st' in Hsel, Hti, Hty, Hterm, Hcr, Hsc.
  destruct (RelationshipTerm_of_value term) as [term_enum|] eqn:E.
  - assert (o = panel_session db st' (fst a) (snd a) term_enum t1 t2) as ->.
    { apply panel_decoded; [now rewrite Hsel | now rewrite Hti
                            | now rewrite Hterm]. }
    unfold panel_session. rewrite Hti, Hty, Hnone, Hsc.
    destruct a as [ty k]. eexists.
    cbn [out_db out_state yielded snd Session.insert_relationship].
    split; [reflexivity|]. repeat split.
  - subst o. unfold create_relationship_from_panel. rewrite Hterm, E, Hti.
    unfold decode_node in Ha. rewrite Hsel.
    destruct (String.eqb (selected_node_id st) "") eqn:Es.
    { apply String.eqb_eq in Es. rewrite Es in Ha. discriminate. }
    apply Z.eqb_neq in Hid. rewrite Hid. cbv zeta.
    destruct (Py.split "-" (selected_node_id st)) as [|p [|i rest]];
      try discriminate.
    destruct (Py.int_of_str i); cbn [out_db out_state yielded returned];
      repeat split; exact Hcr.
Qed.

Lemma creation_form_applies_term_defaults_witness :
  exists row,
    tbl_relationship
      (out_db
         (create_relationship_from_panel Sample.one_active
            (set_creation_term_handler
               (set_creation_target
                  (start_relationship_creation (Sample.panel "con-1" 0 "" "friend" 0))
                  3 "person") "enemy") 10 11))
    = (tbl_relationship Sample.one_active ++ [row])%list
    /\ Relationship.score row = -100
    /\ Relationship.id row = 2.
Proof.
  pose proof (creation_form_applies_term_defaults
                Sample.one_active (Sample.panel "con-1" 0 "" "friend" 0)
                ("person", 1) 3 "person" "enemy" 10 11
                eq_refl ltac:(discriminate) eq_refl) as H.
  cbv zeta in H. change (RelationshipTerm_of_value "enemy") with (Some ENEMY) in H.
  destruct H as [row [Hdb [_ [_ [Hid [_ [_ [Hscore _]]]]]]]].
  exists row. rewrite Hdb. split; [reflexivity|]. split; [exact Hscore | exact Hid].
Defined.

(** ** Soft delete, seen from the views *)

Lemma in_replace_row_unique (r x : Relationship.t) (rows : list Relationship.t) :
  NoDup (map Relationship.id rows) ->
  In x (Session.replace_row r rows) ->
  x = r \/ (In x rows /\ Relationship.id x <> Relationship.id r).
Proof.
  induction rows as [|y rows IH]; cbn [Session.replace_row map]; [intros _ []|].
  intros Hnd Hin. inversion Hnd as [|? ? Hy Hrows]; subst.
  destruct (Relationship.id y =? Relationship.id r) eqn:E.
  - apply Z.eqb_eq in E. destruct Hin as [<-|Hin]; [now left|].
    right. split; [now right|]. intros Hx. apply Hy. rewrite E, <- Hx.
    now apply in_map.
  - apply Z.eqb_neq in E. destruct Hin as [<-|Hin].
    + right. split; [now left | assumption].
    + destruct (IH Hrows Hin) as [->|[H1 H2]]; [now left|].
      right. split; [now right | assumption].
Qed.

(** After a soft delete no stored row with that key is active. *)
Lemma soft_deleted_row_inactive
  (db : Database) (st : RelationshipState.t) (rel_id : Z) (t1 t2 : datetime)
  (x : Relationship.t) :
  NoDup (map Relationship.id (tbl_relationship db)) ->
  In x (tbl_relationship
          (out_db (soft_delete_relationship db st rel_id t1 t2))) ->
  Relationship.id x = rel_id -> Relationship.is_active x = false.
Proof.
  intros Hnd. unfold soft_delete_relationship. cbn [out_db].
  destruct (Session.get_relationship db rel_id) as [r|] eqn:Hget.
  - pose proof (get_relationship_id _ _ _ Hget) as Hid.
    cbn [Session.insert_log Session.update_relationship tbl_relationship].
    intros Hin Hx. apply in_replace_row_unique in Hin; [|exact Hnd].
    destruct Hin as [->|[_ Hne]]; [reflexivity|].
    exfalso. apply Hne. rewrite Hx. cbn. now rewrite Hid.
  - intros Hin Hx. unfold Session.get_relationship in Hget.
    pose proof (find_none _ _ Hget x Hin) as H. cbn in H.
    rewrite Hx, Z.eqb_refl in H. discriminate.
Qed.

Lemma scan_active_only (db : Database) (view : RelationshipState.t)
  (x : Relationship.t) :
  show_historic view = false ->
  In x (scan_relationships db view) ->
  In x (tbl_relationship db) /\ Relationship.is_active x = true.
Proof.
  unfold scan_relationships. intros ->. cbn [negb]. apply filter_In.
Qed.

(** A soft-deleted relationship leaves every view that hides history.  With
    distinct relationship keys, after [soft_delete_relationship] the row with
    that key is absent from the rows scanned without [show_historic], from
    the relationships the two selectors pick and from the relationship list
    of every node. *)
Theorem soft_deleted_relationship_is_hidden
  (db : Database) (st view : RelationshipState.t) (rel_id : Z)
  (t1 t2 : datetime) :
  NoDup (map Relationship.id (tbl_relationship db)) ->
  show_historic view = false ->
  let db' := out_db (soft_delete_relationship db st rel_id t1 t2) in
  (forall x, In x (scan_relationships db' view) -> Relationship.id x <> rel_id)
  /\ (forall limit x,
        In x (filtered_relationships (get_most_connected_nodes db' view limit)) ->
        Relationship.id x <> rel_id)
  /\ (forall query x,
        In x (filtered_relationships (search_and_build_subgraph db' view query)) ->
        Relationship.id x <> rel_id)
  /\ (forall node_id node_type item,
        In item (get_node_relationships db' node_id node_type) ->
        lookup "relationship_id" item <> Some (VInt rel_id)).
Proof.
  intros Hnd Hview db'.
  assert (forall x, In x (tbl_relationship db') ->
            Relationship.is_active x = true -> Relationship.id x <> rel_id)
    as Hrow.
  { intros x Hin Hact Hid.
    rewrite (soft_deleted_row_inactive db st rel_id t1 t2 x Hnd Hin Hid) in Hact.
    discriminate. }
  assert (forall x, In x (scan_relationships db' view) ->
            Relationship.id x <> rel_id) as Hscan.
  { intros x Hin. destruct (scan_active_only db' view x Hview Hin).
    now apply Hrow. }
  split; [exact Hscan|]. split; [|split].
  - intros limit x Hin. apply Hscan.
    unfold get_most_connected_nodes in Hin.
    cbn [filtered_relationships set_filtered_relationships] in Hin.
    now apply filter_In in Hin.
  - intros query x Hin. apply Hscan.
    destruct (search_lists db' view query) as [visited [_ [_ [_ Hr]]]].
    now apply Hr in Hin.
  - intros node_id node_type item Hin.
    unfold get_node_relationships in Hin. apply in_map_iff in Hin.
    destruct Hin as [r [<- Hin]].
    apply (Permutation_in _ (order_by_score_desc_perm _)) in Hin.
    apply filter_In in Hin. destruct Hin as [Hin Hact].
    apply andb_true_iff in Hact. destruct Hact as [Hact _].
    cbn. intros H. inversion H as [Hid]. now apply (Hrow r Hin Hact).
Qed.

Lemma soft_deleted_relationship_is_hidden_witness :
  get_node_relationships
    (out_db (soft_delete_relationship Firm.db (Sample.state 1 false) 2 5 6))
    1 "person" = []
  /\ forall x,
       In x (scan_relationships
               (out_db (soft_delete_relationship Firm.db (Sample.state 1 false)
                          2 5 6))
               (Sample.state 1 false)) ->
       Relationship.id x <> 2.
Proof.
  split; [reflexivity|].
  refine (proj1 (soft_deleted_relationship_is_hidden
                   Firm.db (Sample.state 1 false) (Sample.state 1 false) 2 5 6
                   _ eq_refl)).
  cbn. repeat constructor; cbn; intuition discriminate.
Defined.

(** ** What the relationship handlers write *)

Lemma replace_row_ids (r : Relationship.t) (rows : list Relationship.t) :
  map Relationship.id (Session.replace_row r rows) = map Relationship.id rows.
Proof.
  induction rows as [|x rows IH]; cbn [Session.replace_row map]; [reflexivity|].
  destruct (Relationship.id x =? Relationship.id r) eqn:E; cbn [map].
  - apply Z.eqb_eq in E. now rewrite E.
  - now rewrite IH.
Qed.

Lemma footprint_nothing (db : Database) : relationship_footprint db db.
Proof.
  split; [reflexivity|]. split; [reflexivity|]. split.
  - exists []. rewrite app_nil_r. split; [reflexivity|].
    split; [cbn; lia | intros k []].
  - exists []. rewrite app_nil_r. split; [reflexivity|].
    split; [cbn; lia | intros l []].
Qed.

Lemma footprint_rewrite
  (db : Database) (r r' : Relationship.t) (l : RelationshipLog.t) :
  In r (tbl_relationship db) ->
  RelationshipLog.relationship_id l = Relationship.id r ->
  relationship_footprint db
    (Session.insert_log l (Session.update_relationship r' db)).
Proof.
  intros Hin Hl. split; [reflexivity|]. split; [reflexivity|]. split.
  - exists []. rewrite app_nil_r. split; [apply replace_row_ids|].
    split; [cbn; lia | intros k []].
  - eexists. split; [reflexivity|]. split; [cbn; lia|].
    intros x [<-|[]]. cbn [RelationshipLog.set_id RelationshipLog.relationship_id].
    rewrite Hl. now apply in_map.
Qed.

Lemma footprint_insert (db : Database) (r : Relationship.t) :
  relationship_footprint db (snd (Session.insert_relationship r db)).
Proof.
  split; [reflexivity|]. split; [reflexivity|]. split.
  - eexists. cbn [snd Session.insert_relationship tbl_relationship].
    rewrite map_app. split; [reflexivity|]. split; [cbn; lia|].
    intros k [<-|[]] Hin. cbn in Hin.
    apply next_id_above in Hin. cbn in Hin. lia.
  - exists []. rewrite app_nil_r. split; [reflexivity|].
    split; [cbn; lia | intros l []].
Qed.

Lemma get_relationship_in (db : Database) (k : Z) (r : Relationship.t) :
  Session.get_relationship db k = Some r -> In r (tbl_relationship db).
Proof. unfold Session.get_relationship. intros H. now apply find_some in H. Qed.

Lemma first_between_in
  (db : Database) (st ty : string) (si ti : Z) (r : Relationship.t) :
  Session.first_relationship_between db st si ty ti = Some r ->
  In r (tbl_relationship db).
Proof.
  unfold Session.first_relationship_between. intros H. now apply find_some in H.
Qed.

Lemma connect_nodes_footprint
  (db : Database) (st : RelationshipState.t) (src_type tgt_type : string)
  (src_id tgt_id : Z) (t1 t2 : datetime) :
  relationship_footprint db
    (out_db (connect_nodes db st src_type src_id tgt_type tgt_id t1 t2)).
Proof.
  unfold connect_nodes.
  destruct (String.eqb src_type tgt_type && (src_id =? tgt_id));
    [apply footprint_nothing|].
  destruct (if String.eqb src_type "company" && String.eqb tgt_type "company"
            then (BUSINESS, COMPETITOR)
            else if (String.eqb src_type "person" && String.eqb tgt_type "company")
                    || (String.eqb src_type "company"
                        && String.eqb tgt_type "person")
            then (EMPLOYMENT, WORKS_FOR) else (SOCIAL, FRIEND))
    as [rel_type default_term].
  destruct (Session.first_relationship_between db src_type src_id tgt_type tgt_id)
    as [r|] eqn:Hfirst.
  - destruct (Relationship.is_active r); cbn [negb out_db];
      [apply footprint_nothing|].
    apply (footprint_rewrite db r); [|reflexivity].
    eapply first_between_in, Hfirst.
  - cbv zeta.
    match goal with
    | |- context [Session.insert_relationship ?x db] =>
        pose proof (footprint_insert db x) as H;
        destruct (Session.insert_relationship x db) as [new_rel db']
    end.
    exact H.
Qed.

(** The footprint of the five relationship handlers.  Whatever their
    arguments, [update_relationship_score], [soft_delete_relationship],
    [update_relationship_term], [on_connect] and
    [create_relationship_from_panel] leave accounts and contacts untouched,
    keep every relationship key in place and add one new key at most, and
    only ever append to the log, one entry at most, which refers to a
    relationship that was stored before the call. *)
Theorem relationship_handlers_footprint
  (db : Database) (st : RelationshipState.t) (rel_id new_score : Z)
  (new_term source target : string) (t1 t2 : datetime) :
  relationship_footprint db
    (out_db (update_relationship_score db st rel_id new_score t1 t2))
  /\ relationship_footprint db
       (out_db (soft_delete_relationship db st rel_id t1 t2))
  /\ relationship_footprint db
       (out_db (update_relationship_term db st rel_id new_term t1 t2))
  /\ relationship_footprint db (out_db (on_connect db st source target t1 t2))
  /\ relationship_footprint db
       (out_db (create_relationship_from_panel db st t1 t2)).
Proof.
  split; [|split; [|split; [|split]]].
  - unfold update_relationship_score. cbn [out_db].
    destruct (Session.get_relationship db rel_id) as [r|] eqn:Hget;
      [|apply footprint_nothing].
    apply (footprint_rewrite db r); [|reflexivity].
    eapply get_relationship_in, Hget.
  - unfold soft_delete_relationship. cbn [out_db].
    destruct (Session.get_relationship db rel_id) as [r|] eqn:Hget;
      [|apply footprint_nothing].
    apply (footprint_rewrite db r); [|reflexivity].
    eapply get_relationship_in, Hget.
  - unfold update_relationship_term.
    destruct (RelationshipTerm_of_value new_term) as [term_enum|];
      [|apply footprint_nothing].
    destruct (Session.get_relationship db rel_id) as [r|] eqn:Hget;
      cbn [out_db]; [|apply footprint_nothing].
    apply (footprint_rewrite db r); [|reflexivity].
    eapply get_relationship_in, Hget.
  - unfold on_connect. cbv zeta.
    destruct (Py.split "-" source) as [|sp [|si srest]];
      try apply footprint_nothing.
    destruct (Py.split "-" target) as [|tp [|ti trest]];
      try apply footprint_nothing.
    destruct (Py.int_of_str si); [|apply footprint_nothing].
    destruct (Py.int_of_str ti); [|apply footprint_nothing].
    apply connect_nodes_footprint.
  - destruct (panel_cases db st t1 t2) as [->|[a [term [_ [_ [_ ->]]]]]];
      [apply footprint_nothing|].
    unfold panel_session.
    destruct (Session.first_relationship_between db (fst a) (snd a)
                (creation_target_type st) (creation_target_id st))
      as [r|] eqn:Hfirst.
    + destruct (Relationship.is_active r); cbn [negb out_db];
        [apply footprint_nothing|].
      apply (footprint_rewrite db r); [|reflexivity].
      eapply first_between_in, Hfirst.
    + cbn [out_db]. apply footprint_insert.
Qed.

(** ** Top-connected mode: the rows shown *)

Lemma set_of_length (l : list Node) :
  (List.length (set_of Node_eqb l) <= List.length l)%nat.
Proof.
  unfold set_of.
  assert (forall acc,
            (List.length (fold_left (fun s x => set_add Node_eqb x s) l acc)
             <= List.length l + List.length acc)%nat) as H.
  { induction l as [|x l IH]; intros acc; cbn [fold_left List.length].
    - lia.
    - specialize (IH (set_add Node_eqb x acc)).
      assert (List.length (set_add Node_eqb x acc) <= S (List.length acc))%nat.
      { unfold set_add. destruct (mem Node_eqb x acc); [lia|].
        rewrite length_app. cbn. lia. }
      lia. }
  specialize (H []). cbn in H. lia.
Qed.

Lemma top_nodes_are_endpoints
  (db : Database) (st : RelationshipState.t) (limit : Z) (n : Node) :
  In n (top_nodes db st limit) ->
  exists r, In r (scan_relationships db st) /\ (src r = n \/ tgt r = n).
Proof.
  unfold top_nodes, most_common. intros H.
  apply in_map_iff in H. destruct H as [x [<- Hx]]. apply in_firstn in Hx.
  apply (Permutation_in _ (sorted_desc_perm _)) in Hx.
  apply (in_map fst) in Hx.
  rewrite (proj1 (count_degrees_spec _)) in Hx.
  unfold first_seen in Hx. apply (proj1 (proj2 (set_of_spec _) _)) in Hx.
  unfold endpoints in Hx. apply in_flat_map in Hx.
  destruct Hx as [r [Hr [H|[H|[]]]]]; exists r; auto.
Qed.

(** The rows top-connected mode shows.  [get_most_connected_nodes] selects
    exactly the stored accounts and contacts that are among the top nodes;
    every top node is an end of a scanned relationship, so a node without any
    scanned relationship is never shown; and with distinct keys in the node
    tables and a limit that is not negative, no more than [limit] rows are
    shown. *)
Theorem top_connected_rows
  (db : Database) (st : RelationshipState.t) (limit : Z) :
  let st' := get_most_connected_nodes db st limit in
  let rels := scan_relationships db st in
  (forall a, In a (filtered_accounts st')
             <-> In a (tbl_account db)
                 /\ In ("company", Account.id a) (top_nodes db st limit))
  /\ (forall c, In c (filtered_contacts st')
                <-> In c (tbl_contact db)
                    /\ In ("person", Contact.id c) (top_nodes db st limit))
  /\ (forall a, In a (filtered_accounts st') ->
        exists r, In r rels
                  /\ (src r = ("company", Account.id a)
                      \/ tgt r = ("company", Account.id a)))
  /\ (forall c, In c (filtered_contacts st') ->
        exists r, In r rels
                  /\ (src r = ("person", Contact.id c)
                      \/ tgt r = ("person", Contact.id c)))
  /\ (NoDup (map Account.id (tbl_account db)) ->
      NoDup (map Contact.id (tbl_contact db)) ->
      0 <= limit ->
      Z.of_nat (List.length (filtered_accounts st')
                + List.length (filtered_contacts st')) <= limit).
Proof.
  intros st' rels.
  assert (forall a, In a (filtered_accounts st')
                    <-> In a (tbl_account db)
                        /\ In ("company", Account.id a) (top_nodes db st limit))
    as Hacc.
  { intros a. subst st'. unfold get_most_connected_nodes.
    cbn [filtered_accounts set_filtered_relationships set_filtered_contacts
           set_filtered_accounts].
    rewrite accounts_in_spec, ids_of_type_spec.
    now rewrite (proj2 (set_of_spec _)). }
  assert (forall c, In c (filtered_contacts st')
                    <-> In c (tbl_contact db)
                        /\ In ("person", Contact.id c) (top_nodes db st limit))
    as Hcon.
  { intros c. subst st'. unfold get_most_connected_nodes.
    cbn [filtered_contacts set_filtered_relationships set_filtered_contacts
           set_filtered_accounts].
    rewrite contacts_in_spec, ids_of_type_spec.
    now rewrite (proj2 (set_of_spec _)). }
  split; [exact Hacc|]. split; [exact Hcon|]. split; [|split].
  - intros a Ha. apply Hacc in Ha. destruct Ha as [_ Ha].
    now apply top_nodes_are_endpoints in Ha.
  - intros c Hc. apply Hcon in Hc. destruct Hc as [_ Hc].
    now apply top_nodes_are_endpoints in Hc.
  - intros Hna Hnc Hl. subst st'. unfold get_most_connected_nodes.
    cbn [filtered_accounts filtered_contacts set_filtered_relationships
           set_filtered_contacts set_filtered_accounts].
    pose proof (selected_rows_bound db
                  (set_of Node_eqb (top_nodes db st limit)) Hna Hnc) as Hb.
    pose proof (set_of_length (top_nodes db st limit)) as Hs.
    assert (List.length (top_nodes db st limit) <= Z.to_nat limit)%nat as Ht.
    { unfold top_nodes, most_common. rewrite length_map, length_firstn.
      apply Nat.le_min_l. }
    lia.
Qed.

(** ** Drag-connect: the relationship it creates *)

Lemma decode_node_type (s : string) (a : Node) :
  decode_node s = Some a -> fst a = "company" \/ fst a = "person".
Proof.
  unfold decode_node.
  destruct (Py.split "-" s) as [|p [|i rest]]; try discriminate.
  destruct (Py.int_of_str i); [|discriminate]. cbn. intros H. inversion H.
  cbn [fst]. unfold node_type_of_prefix. destruct (String.eqb p "acc"); auto.
Qed.

(** A drag between two distinct nodes with no stored row from the first to
    the second appends one active relationship from the first to the second
    under the next key and writes no log entry.  Its term follows the two
    node types: competitor (business) between two companies, friend (social)
    between two people, works_for (employment) between a person and a
    company in either direction; score and directedness are that term's
    defaults.  The new edge becomes the selection, the editor shows its
    values and a reload is asked for. *)
Theorem on_connect_creates_by_node_types
  (db : Database) (st : RelationshipState.t) (source target : string)
  (a b : Node) (t1 t2 : datetime) :
  decode_node source = Some a ->
  decode_node target = Some b ->
  a <> b ->
  Session.first_relationship_between db (fst a) (snd a) (fst b) (snd b) = None ->
  let o := on_connect db st source target t1 t2 in
  exists row,
    out_db o
    = mkDatabase (tbl_account db) (tbl_contact db)
        (tbl_relationship db ++ [row])%list (tbl_relationshiplog db)
    /\ src row = a /\ tgt row = b
    /\ Relationship.id row
       = Session.next_id (map Relationship.id (tbl_relationship db))
    /\ Relationship.is_active row = true
    /\ (Relationship.term row, Relationship.relationship_type row)
       = (if String.eqb (fst a) (fst b)
          then if String.eqb (fst a) "company"
               then (COMPETITOR, BUSINESS) else (FRIEND, SOCIAL)
          else (WORKS_FOR, EMPLOYMENT))
    /\ Relationship.score row
       = d_default_score
           (dict_get TERM_DEFAULTS (Relationship.term row) (mkDefault false 0))
    /\ Relationship.is_directed row
       = d_is_directed
           (dict_get TERM_DEFAULTS (Relationship.term row) (mkDefault false 0))
    /\ selected_edge_id (out_state o)
       = "rel-" ++ Py.str_of_int (Relationship.id row)
    /\ edit_mode (out_state o) = "edge"
    /\ show_side_panel (out_state o) = true
    /\ editing_score (out_state o) = Relationship.score row
    /\ editing_term (out_state o) = RelationshipTerm_value (Relationship.term row)
    /\ yielded o = [load_data].
Proof.
  intros Ha Hb Hab Hnone o. subst o.
  rewrite (on_connect_decoded db st source target a b t1 t2 Ha Hb).
  pose proof (decode_node_type _ _ Ha) as Hta.
  pose proof (decode_node_type _ _ Hb) as Htb.
  unfold connect_nodes.
  change (String.eqb (fst a) (fst b) && (snd a =? snd b)) with (Node_eqb a b).
  rewrite (Node_eqb_neq a b Hab), Hnone.
  destruct a as [ta ia], b as [tb ib]. cbn [fst snd] in *.
  destruct Hta as [-> | ->], Htb as [-> | ->];
    cbn [String.eqb Ascii.eqb Bool.eqb andb orb];
    (eexists; split; [reflexivity | repeat split]).
Qed.

Lemma on_connect_creates_by_node_types_witness :
  exists row,
    tbl_relationship
      (out_db (on_connect Firm.db (Sample.state 1 false) "acc-2" "con-1" 10 11))
    = (tbl_relationship Firm.db ++ [row])%list
    /\ Relationship.term row = WORKS_FOR
    /\ Relationship.is_directed row = true
    /\ src row = ("company", 2) /\ tgt row = ("person", 1).
Proof.
  destruct (on_connect_creates_by_node_types
              Firm.db (Sample.state 1 false) "acc-2" "con-1"
              ("company", 2) ("person", 1) 10 11
              eq_refl eq_refl ltac:(discriminate) eq_refl)
    as [row [Hdb [Hs [Ht [_ [_ [Hterm [_ [Hdir _]]]]]]]]].
  exists row. rewrite Hdb. cbn in Hterm. inversion Hterm as [[Hterm' Htype]].
  rewrite Hterm' in Hdir. repeat split; assumption.
Defined.

(** ** From a drawn node to its deletion *)

Lemma load_active_decoded
  (db : Database) (st : RelationshipState.t) (a : Node) :
  decode_node (selected_node_id st) = Some a ->
  NodePanel.load_active_node_relationships db st
  = Some (map (fun r =>
                 assign "badge_class" (VStr (badge_class (item_score r))) r)
              (get_node_relationships db (snd a) (fst a))).
Proof.
  intros Ha. unfold NodePanel.load_active_node_relationships, decode_node in *.
  destruct (String.eqb (selected_node_id st) "") eqn:Hsel.
  { apply String.eqb_eq in Hsel. rewrite Hsel in Ha. discriminate. }
  destruct (Py.split "-" (selected_node_id st)) as [|p [|i rest]];
    try discriminate.
  destruct (Py.int_of_str i); [|discriminate].
  cbn in Ha. inversion Ha. reflexivity.
Qed.

(** Clicking a node the graph draws selects the row it was drawn for.  For
    every node of [graph_data] with an id that is not negative, after
    [on_node_click] on the node's id the session is in node mode with the
    panel shown and asks for the node's relationship list, which is the list
    of the row's type and id, and [delete_current_selection] returns the hard
    delete of that type and id.  With a negative id nothing is listed and
    nothing is deleted. *)
Theorem click_drawn_node_then_delete
  (db : Database) (shown st : RelationshipState.t) (n : Dict) :
  In n (graph_nodes shown) ->
  exists ty id w,
    lookup "id" n = Some (VStr w)
    /\ lookup "group" n = Some (VStr ty)
    /\ ((ty = "company" /\ In id (map Account.id (filtered_accounts shown)))
        \/ (ty = "person" /\ In id (map Contact.id (filtered_contacts shown))))
    /\ snd (on_node_click st w) = [load_active_node_relationships]
    /\ edit_mode (fst (on_node_click st w)) = "node"
    /\ show_side_panel (fst (on_node_click st w)) = true
    /\ NodePanel.load_active_node_relationships db (fst (on_node_click st w))
       = (if 0 <=? id
          then Some (map (fun r =>
                            assign "badge_class"
                              (VStr (badge_class (item_score r))) r)
                         (get_node_relationships db id ty))
          else None)
    /\ delete_current_selection (fst (on_node_click st w))
       = (if 0 <=? id then ReturnDeleteNode id ty
          else ReturnToast "Nothing selected to delete").
Proof.
  intros Hn.
  assert (exists prefix ty id,
            (prefix = "acc" /\ ty = "company"
             /\ In id (map Account.id (filtered_accounts shown))
             \/ prefix = "con" /\ ty = "person"
                /\ In id (map Contact.id (filtered_contacts shown)))
            /\ lookup "id" n = Some (VStr (prefix ++ "-" ++ Py.str_of_int id))
            /\ lookup "group" n = Some (VStr ty))
    as [prefix [ty [id [Hp [Hid Hgroup]]]]].
  { apply graph_nodes_origin in Hn.
    destruct Hn as [[idx [acc [Hin ->]]]|[idx [con [Hin ->]]]].
    - exists "acc", "company", (Account.id acc). split; [|split; reflexivity].
      left. repeat split. now apply in_map.
    - exists "con", "person", (Contact.id con). split; [|split; reflexivity].
      right. repeat split. now apply in_map. }
  set (w := prefix ++ "-" ++ Py.str_of_int id) in *.
  assert (prefix = "acc" \/ prefix = "con") as Hpre
    by (destruct Hp as [[-> _]|[-> _]]; auto).
  assert (node_type_of_prefix prefix = ty) as Hty
    by (destruct Hp as [[-> [-> _]]|[-> [-> _]]]; reflexivity).
  assert (Py.split "-" prefix = [prefix]) as Hsplit
    by (destruct Hpre as [->| ->]; reflexivity).
  exists ty, id, w. split; [exact Hid|]. split; [exact Hgroup|]. split.
  { destruct Hp as [[_ [-> H]]|[_ [-> H]]]; [left | right]; now split. }
  split; [reflexivity|]. split; [reflexivity|]. split; [reflexivity|].
  set (st' := fst (on_node_click st w)).
  assert (selected_node_id st' = w) as Hsel by reflexivity.
  assert (edit_mode st' = "node") as Hmode by reflexivity.
  split.
  - pose proof (decode_wire_id prefix id Hsplit) as Hdec. fold w in Hdec.
    rewrite Hty in Hdec. destruct (0 <=? id).
    + apply (load_active_decoded db st' (ty, id)). now rewrite Hsel.
    + unfold NodePanel.load_active_node_relationships. rewrite Hsel.
      unfold decode_node in Hdec.
      destruct (String.eqb w ""); [reflexivity|].
      destruct (Py.split "-" w) as [|p [|i rest]]; try reflexivity.
      destruct (Py.int_of_str i); [discriminate | reflexivity].
  - rewrite (delete_selected_node st' prefix id Hmode Hpre Hsel).
    now rewrite Hty.
Qed.

Lemma click_drawn_node_then_delete_witness :
  In (account_node Office.st 0 (Sample.company 1 "Acme")) (graph_nodes Office.st)
  /\ exists ty id w,
       lookup "id" (account_node Office.st 0 (Sample.company 1 "Acme"))
       = Some (VStr w)
       /\ delete_current_selection (fst (on_node_click (Sample.state 1 false) w))
          = (if 0 <=? id then ReturnDeleteNode id ty
             else ReturnToast "Nothing selected to delete").
Proof.
  assert (In (account_node Office.st 0 (Sample.company 1 "Acme"))
             (graph_nodes Office.st)) as Hin by (left; reflexivity).
  split; [exact Hin|].
  destruct (click_drawn_node_then_delete Firm.db Office.st (Sample.state 1 false)
              _ Hin) as [ty [id [w [Hid [_ [_ [_ [_ [_ [_ Hdel]]]]]]]]]].
  exists ty, id, w. split; [exact Hid | exact Hdel].
Defined.
